(** * ATmega soldering station: a shallow embedding of [software/src/main.cpp]

    The firmware is one translation unit of global variables and functions
    for an ATmega328p (avr-gcc: [int] is 16 bits wide, [long] 32 bits,
    [uint16_t] is [unsigned int]).  Integers are modelled as [Z] with the
    wrap-around of their C type written out; the [double] variables of the
    temperature path are modelled as exact rationals [Q] (no rounding), and
    a conversion from [double] to an integer type truncates towards zero.
    The supply voltage of [getVIN] is the integer part of a quotient that
    rounding can move across an integer, so [getVIN] is computed in the
    32-bit [double] of avr-gcc (IEEE 754 single precision).

    Hardware is modelled by what the code observes of it: an analog
    conversion is the value read from the [ADC] register, the heater is the
    last duty written to [CONTROL_PIN], the EEPROM is a finite map from
    addresses to bytes, and the answers of the menu screens are inputs of
    the functions that ask for them. *)

From Stdlib Require Import ZArith QArith Qround Qabs Lia Lqa Bool.
From Stdlib Require Import Floats.SpecFloat.
From stdpp Require Import base option list gmap.

Local Open Scope Z_scope.

(* ===================================================================== *)
(** * Machine integers and loops *)
(* ===================================================================== *)

(** Conversion to [uint8_t] and [uint16_t]. *)
Definition uint8 (z : Z) : Z := z mod 256.
Definition uint16 (z : Z) : Z := z mod 65536.

(** Conversion to the 16-bit signed [int] (two's complement, as avr-gcc
    implements it). *)
Definition int16 (z : Z) : Z := (z + 32768) mod 65536 - 32768.

(** [bool] to integer and back, as C converts them. *)
Definition of_bool (b : bool) : Z := if b then 1 else 0.
Definition to_bool (z : Z) : bool := negb (z =? 0).

(** Conversion from [double] to an integer: truncation towards zero. *)
Definition Qtruncate (q : Q) : Z := Z.quot (Qnum q) (Zpos (Qden q)).

(** Comparison of two [double]s. *)
Definition Qltb (x y : Q) : bool := negb (Qle_bool y x).

(** [for (i = lo; n iterations; i++) body], threading the state [s]. *)
Fixpoint for_loop {St : Type} (n : nat) (i : Z) (body : Z -> St -> St) (s : St) : St :=
  match n with
  | O => s
  | S n' => for_loop n' (i + 1) body (body i s)
  end.

(** [for (i = lo; i < hi; i++) body]. *)
Definition for_range {St : Type} (lo hi : Z) (body : Z -> St -> St) (s : St) : St :=
  for_loop (Z.to_nat (hi - lo)) lo body s.

(** Arduino's [constrain(x, lo, hi)] macro. *)
Definition constrain (x lo hi : Z) : Z :=
  if x <? lo then lo else if hi <? x then hi else x.

(* ===================================================================== *)
(** * Constants of the firmware *)
(* ===================================================================== *)

Definition ROTARY_TYPE : Z := 1.

Definition TEMP_MIN : Z := 150.
Definition TEMP_MAX : Z := 400.
Definition TEMP_DEFAULT : Z := 320.
Definition TEMP_SLEEP : Z := 150.
Definition TEMP_BOOST : Z := 50.
Definition TEMP_STEP : Z := 10.

Definition TEMP200 : Z := 216.
Definition TEMP280 : Z := 308.
Definition TEMP360 : Z := 390.
Definition TEMPCHP : Z := 30.
Definition TIPMAX : Z := 8.
Definition TIPNAMELENGTH : Z := 6.
(** ["WMRT"] in a [char[TIPNAMELENGTH]]: the rest of the array is zero. *)
Definition TIPNAME : list Z := [87; 77; 82; 84; 0; 0].

Definition TIME2SLEEP : Z := 5.
Definition TIME2OFF : Z := 15.
Definition TIMEOFBOOST : Z := 40.

Definition PID_ENABLE : bool := false.
Definition BEEP_ENABLE : bool := true.
Definition BODYFLIP : bool := false.
Definition ECREVERSE : bool := false.
Definition MAINSCREEN : Z := 1.

Definition EEPROM_IDENT : Z := 0xE76C.

(** N-channel MOSFET: the PWM duty is inverted. *)
Definition HEATER_ON : Z := 0.
Definition HEATER_OFF : Z := 255.
Definition HEATER_PWM (Output : Q) : Q := 255 - Output.

(* ===================================================================== *)
(** * Analog acquisition *)
(* ===================================================================== *)

(** The conversions of one acquisition are given by [ADC : Z -> Z]:
    [ADC i] is the value of the [ADC] register after the [i]-th
    [sleep_mode()] of the sampling loop.  The register set-up before the
    loop ([ADCSRA], [ADMUX], the settle delay) selects the channel and the
    reference, that is, which [ADC] the loop reads. *)

(** [result += ADC;] on a [uint16_t result]. *)
Definition add_sample (ADC : Z -> Z) (i : Z) (result : Z) : Z :=
  uint16 (result + ADC i).

(** [for (uint8_t i = 0; i < n; i++) { sleep_mode(); ...; result += ADC; }]
    starting from [result = 0]. *)
Definition sample_loop (n : nat) (ADC : Z -> Z) : Z :=
  for_loop n 0 (add_sample ADC) 0.

(** [uint16_t denoiseAnalog(byte port)]. *)
Definition denoiseAnalog (ADC : Z -> Z) : Z :=
  let result := sample_loop 32 ADC in
  Z.shiftr result 5.

(** [getChipTemp]: the value of [result] after [result >>= 2]. *)
Definition getChipTemp_result (ADC : Z -> Z) : Z :=
  let result := sample_loop 32 ADC in
  Z.shiftr result 2.

(** [double getChipTemp()]: [(result - 2594) / 9.76]; the subtraction is
    done in [unsigned int]. *)
Definition getChipTemp (ADC : Z -> Z) : Q :=
  inject_Z (uint16 (getChipTemp_result ADC - 2594)) / (976 # 100).

(** [getVCC]: the value of [result] after [result >>= 4]. *)
Definition getVCC_result (ADC : Z -> Z) : Z :=
  let result := sample_loop 16 ADC in
  Z.shiftr result 4.

(** [uint16_t getVCC()]: [1125300L / result], a [long] division (C leaves
    the division by zero undefined; here it yields 0). *)
Definition getVCC (ADC : Z -> Z) : Z :=
  uint16 (1125300 / getVCC_result ADC).

(** The [double] of avr-gcc is the IEEE 754 single-precision format: a
    significand of 24 bits, results rounded to the nearest value, ties to
    even.  [float32_of_Z] is the conversion from [long], [float32_div] the
    division, and [float32_truncate] the conversion to an integer type,
    which drops the fraction. *)
Definition float32_of_Z (n : Z) : spec_float := binary_normalize 24 128 n 0 false.

Definition float32_div (x y : spec_float) : spec_float := SFdiv 24 128 x y.

Definition float32_truncate (x : spec_float) : Z :=
  match x with
  | S754_finite s m e =>
      let v := Z.shiftl (Zpos m) e in
      if s then - v else v
  | _ => 0
  end.

(** The constant [179.474] as a [double]: 11762008 * 2^-16. *)
Definition float32_179_474 : spec_float := S754_finite false 11762008 (-16).

(** [uint16_t getVIN()]: [result * Vcc / 179.474], with [long result]:
    the product is taken in [long], converted to [double] and divided. *)
Definition getVIN (Vcc : Z) (ADC : Z -> Z) : Z :=
  let result := denoiseAnalog ADC in
  uint16 (float32_truncate (float32_div (float32_of_Z (result * Vcc)) float32_179_474)).

(** [uint16_t getColdJ()]: [result * 0.9 - 113.836]. *)
Definition getColdJ (ADC : Z -> Z) : Z :=
  let result := denoiseAnalog ADC in
  uint16 (Qtruncate (inject_Z result * (9 # 10) - (113836 # 1000))%Q).

(** The sum of the first [n] conversions, as a mathematical integer. *)
Fixpoint sum_samples (n : nat) (ADC : Z -> Z) : Z :=
  match n with
  | O => 0
  | S k => sum_samples k ADC + ADC (Z.of_nat k)
  end.

(** The conversions are ten-bit values, as the ADC of the ATmega328p
    delivers them. *)
Definition ten_bit (ADC : Z -> Z) : Prop :=
  forall i, 0 <= i < 32 -> 0 <= ADC i <= 1023.

(* ===================================================================== *)
(** * Rotary encoder *)
(* ===================================================================== *)

(** The variables shared with the pin change interrupt
    ([volatile uint8_t a0, b0; volatile bool ab0;
      volatile int count, countMin, countMax, countStep]). *)
Record Encoder := {
  a0 : Z;
  b0 : Z;
  ab0 : bool;
  count : Z;
  countMin : Z;
  countMax : Z;
  countStep : Z
}.

(** [void setRotary(int rmin, int rmax, int rstep, int rvalue)];
    [reverse] is the setting [ECReverse]. *)
Definition setRotary (reverse : bool) (rmin rmax rstep rvalue : Z) (e : Encoder) : Encoder :=
  {| a0 := a0 e;
     b0 := b0 e;
     ab0 := ab0 e;
     count := int16 (Z.shiftl rvalue ROTARY_TYPE);
     countMin := int16 (Z.shiftl rmin ROTARY_TYPE);
     countMax := int16 (Z.shiftl rmax ROTARY_TYPE);
     countStep := if reverse then int16 (- rstep) else rstep |}.

(** [int getRotary()]. *)
Definition getRotary (e : Encoder) : Z := Z.shiftr (count e) ROTARY_TYPE.

(** [ISR(PCINT0_vect)]; [PINB] and [PIND] are the port registers as the
    handler reads them. *)
Definition PCINT0_vect (PINB PIND : Z) (e : Encoder) : Encoder :=
  let a := Z.land PINB 1 in
  let b := Z.land (Z.shiftr PIND 7) 1 in
  if negb (a =? a0 e) then
    if negb (b =? b0 e) then
      let delta := if a =? b then countStep e else int16 (- countStep e) in
      let count1 := constrain (int16 (count e + delta)) (countMin e) (countMax e) in
      let count2 :=
        if to_bool ROTARY_TYPE && negb (eqb (a =? b) (ab0 e))
        then constrain (int16 (count1 + delta)) (countMin e) (countMax e)
        else count1 in
      {| a0 := a; b0 := b; ab0 := (a =? b);
         count := count2;
         countMin := countMin e; countMax := countMax e; countStep := countStep e |}
    else
      {| a0 := a; b0 := b0 e; ab0 := ab0 e;
         count := count e;
         countMin := countMin e; countMax := countMax e; countStep := countStep e |}
  else e.

(** The handler run on a sequence of edges, oldest first. *)
Definition run_edges (edges : list (Z * Z)) (e : Encoder) : Encoder :=
  fold_left (fun e pins => PCINT0_vect (fst pins) (snd pins) e) edges e.

(** The encoder variables at start-up (globals are zero-initialised). *)
Definition boot_Encoder : Encoder :=
  {| a0 := 0; b0 := 0; ab0 := false;
     count := 0; countMin := 0; countMax := 0; countStep := 0 |}.

(** [clamp(v, min, max)] of the specification. *)
Definition clamp (v lo hi : Z) : Z := Z.max lo (Z.min v hi).

(** The position lies within the bounds the encoder is configured with. *)
Definition in_bounds (e : Encoder) : Prop :=
  countMin e <= count e <= countMax e.

(* ===================================================================== *)
(** * Settings, tip profiles and their EEPROM image *)
(* ===================================================================== *)

(** The user settings stored in the EEPROM. *)
Record Settings := {
  DefaultTemp : Z;
  SleepTemp : Z;
  BoostTemp : Z;
  time2sleep : Z;
  time2off : Z;
  timeOfBoost : Z;
  MainScrType : Z;
  PIDenable : bool;
  beepEnable : bool;
  BodyFlip : bool;
  ECReverse : bool
}.

(** [uint16_t CalTemp[TIPMAX][4]; char TipName[TIPMAX][TIPNAMELENGTH];
    uint8_t CurrentTip, NumberOfTips].  A [char] is held as its byte. *)
Record TipStore := {
  CalTemp : list (list Z);
  TipName : list (list Z);
  CurrentTip : Z;
  NumberOfTips : Z
}.

(** [A[i][j]] and [A[i][j] = v] on a two-dimensional array.  An index
    outside the array is undefined in C; here the read yields 0 and the
    write does nothing, and the theorems keep the indices inside. *)
Definition get2 (A : list (list Z)) (i j : Z) : Z :=
  (A !!! Z.to_nat i) !!! Z.to_nat j.

Definition set2 (A : list (list Z)) (i j v : Z) : list (list Z) :=
  <[Z.to_nat i := <[Z.to_nat j := v]> (A !!! Z.to_nat i)]> A.

(** The values of the global initialisers. *)
Definition boot_Settings : Settings :=
  {| DefaultTemp := TEMP_DEFAULT;
     SleepTemp := TEMP_SLEEP;
     BoostTemp := TEMP_BOOST;
     time2sleep := TIME2SLEEP;
     time2off := TIME2OFF;
     timeOfBoost := TIMEOFBOOST;
     MainScrType := MAINSCREEN;
     PIDenable := PID_ENABLE;
     beepEnable := BEEP_ENABLE;
     BodyFlip := BODYFLIP;
     ECReverse := ECREVERSE |}.

Definition boot_TipStore : TipStore :=
  {| CalTemp := [TEMP200; TEMP280; TEMP360; TEMPCHP] :: replicate 7 (replicate 4 0);
     TipName := TIPNAME :: replicate 7 (replicate 6 0);
     CurrentTip := 0;
     NumberOfTips := 1 |}.

(** The EEPROM: a finite map from addresses to bytes; a cell that was
    never written reads as 0xFF. *)
Definition EEPROM_read (idx : Z) (e : gmap Z Z) : Z := default 255 (e !! idx).

(** [EEPROM.update(idx, val)]: [val] is converted to [uint8_t], and the
    cell is written only if it holds another value. *)
Definition EEPROM_update (idx val : Z) (e : gmap Z Z) : gmap Z Z :=
  if EEPROM_read idx e =? uint8 val then e else <[idx := uint8 val]> e.

(** The body of the tip loop of [updateEEPROM]; the state is
    [(counter, EEPROM)].  ([counter] is a [uint16_t]; it stays below
    17 + 14 * 255 and never wraps.) *)
Definition write_name (t : TipStore) (i j : Z) (ce : Z * gmap Z Z) : Z * gmap Z Z :=
  (fst ce + 1, EEPROM_update (fst ce) (get2 (TipName t) i j) (snd ce)).

Definition write_cal (t : TipStore) (i j : Z) (ce : Z * gmap Z Z) : Z * gmap Z Z :=
  let e1 := EEPROM_update (fst ce) (Z.shiftr (get2 (CalTemp t) i j) 8) (snd ce) in
  let e2 := EEPROM_update (fst ce + 1) (Z.land (get2 (CalTemp t) i j) 0xFF) e1 in
  (fst ce + 2, e2).

Definition write_tip (t : TipStore) (i : Z) (ce : Z * gmap Z Z) : Z * gmap Z Z :=
  for_range 0 4 (write_cal t i) (for_range 0 TIPNAMELENGTH (write_name t i) ce).

(** [void updateEEPROM()]. *)
Definition updateEEPROM (s : Settings) (t : TipStore) (e : gmap Z Z) : gmap Z Z :=
  let e := EEPROM_update 2 (Z.shiftr (DefaultTemp s) 8) e in
  let e := EEPROM_update 3 (Z.land (DefaultTemp s) 0xFF) e in
  let e := EEPROM_update 4 (Z.shiftr (SleepTemp s) 8) e in
  let e := EEPROM_update 5 (Z.land (SleepTemp s) 0xFF) e in
  let e := EEPROM_update 6 (BoostTemp s) e in
  let e := EEPROM_update 7 (time2sleep s) e in
  let e := EEPROM_update 8 (time2off s) e in
  let e := EEPROM_update 9 (timeOfBoost s) e in
  let e := EEPROM_update 10 (MainScrType s) e in
  let e := EEPROM_update 11 (of_bool (PIDenable s)) e in
  let e := EEPROM_update 12 (of_bool (beepEnable s)) e in
  let e := EEPROM_update 13 (of_bool (BodyFlip s)) e in
  let e := EEPROM_update 14 (of_bool (ECReverse s)) e in
  let e := EEPROM_update 15 (CurrentTip t) e in
  let e := EEPROM_update 16 (NumberOfTips t) e in
  snd (for_range 0 (NumberOfTips t) (write_tip t) (17, e)).

(** The body of the tip loop of [getEEPROM]; the state is
    [(counter, TipName, CalTemp)]. *)
Definition read_name (e : gmap Z Z) (i j : Z) (st : Z * list (list Z) * list (list Z))
  : Z * list (list Z) * list (list Z) :=
  let '(counter, names, cals) := st in
  (counter + 1, set2 names i j (EEPROM_read counter e), cals).

Definition read_cal (e : gmap Z Z) (i j : Z) (st : Z * list (list Z) * list (list Z))
  : Z * list (list Z) * list (list Z) :=
  let '(counter, names, cals) := st in
  let cals1 := set2 cals i j (uint16 (Z.shiftl (EEPROM_read counter e) 8)) in
  let cals2 := set2 cals1 i j (Z.lor (get2 cals1 i j) (EEPROM_read (counter + 1) e)) in
  (counter + 2, names, cals2).

Definition read_tip (e : gmap Z Z) (i : Z) (st : Z * list (list Z) * list (list Z))
  : Z * list (list Z) * list (list Z) :=
  for_range 0 4 (read_cal e i) (for_range 0 TIPNAMELENGTH (read_name e i) st).

(** A 16-bit value from two EEPROM cells: [(EEPROM.read(hi) << 8) | EEPROM.read(hi + 1)]. *)
Definition read_word (hi : Z) (e : gmap Z Z) : Z :=
  uint16 (Z.lor (Z.shiftl (EEPROM_read hi e) 8) (EEPROM_read (hi + 1) e)).

(** [void getEEPROM()], on the globals [(s, t)] and the EEPROM. *)
Definition getEEPROM (s : Settings) (t : TipStore) (e : gmap Z Z)
  : Settings * TipStore * gmap Z Z :=
  let identifier := read_word 0 e in
  if identifier =? EEPROM_IDENT then
    let s' :=
      {| DefaultTemp := read_word 2 e;
         SleepTemp := read_word 4 e;
         BoostTemp := EEPROM_read 6 e;
         time2sleep := EEPROM_read 7 e;
         time2off := EEPROM_read 8 e;
         timeOfBoost := EEPROM_read 9 e;
         MainScrType := EEPROM_read 10 e;
         PIDenable := to_bool (EEPROM_read 11 e);
         beepEnable := to_bool (EEPROM_read 12 e);
         BodyFlip := to_bool (EEPROM_read 13 e);
         ECReverse := to_bool (EEPROM_read 14 e) |} in
    let tip := EEPROM_read 15 e in
    let n := EEPROM_read 16 e in
    let '(_, names, cals) :=
      for_range 0 n (read_tip e) (17, TipName t, CalTemp t) in
    (s', {| CalTemp := cals; TipName := names; CurrentTip := tip; NumberOfTips := n |}, e)
  else
    let e := EEPROM_update 0 (Z.shiftr EEPROM_IDENT 8) e in
    let e := EEPROM_update 1 (Z.land EEPROM_IDENT 0xFF) e in
    (s, t, updateEEPROM s t e).

(** The EEPROM together with the record of the cell writes issued so
    far, oldest first; a write is the address and the byte written. *)
Definition EEPROM_log : Type := gmap Z Z * list (Z * Z).

(** [EEPROM.update(idx, val)] with its write recorded: the cell is
    written, and the write recorded, only if the cell holds another
    value. *)
Definition EEPROM_update_log (idx val : Z) (el : EEPROM_log) : EEPROM_log :=
  if EEPROM_read idx (fst el) =? uint8 val then el
  else (<[idx := uint8 val]> (fst el), snd el ++ [(idx, uint8 val)]).

(** The tip loop of [updateEEPROM] and [updateEEPROM] itself, with the
    writes recorded. *)
Definition write_name_log (t : TipStore) (i j : Z) (ce : Z * EEPROM_log)
  : Z * EEPROM_log :=
  (fst ce + 1, EEPROM_update_log (fst ce) (get2 (TipName t) i j) (snd ce)).

Definition write_cal_log (t : TipStore) (i j : Z) (ce : Z * EEPROM_log)
  : Z * EEPROM_log :=
  let e1 := EEPROM_update_log (fst ce) (Z.shiftr (get2 (CalTemp t) i j) 8) (snd ce) in
  let e2 := EEPROM_update_log (fst ce + 1) (Z.land (get2 (CalTemp t) i j) 0xFF) e1 in
  (fst ce + 2, e2).

Definition write_tip_log (t : TipStore) (i : Z) (ce : Z * EEPROM_log) : Z * EEPROM_log :=
  for_range 0 4 (write_cal_log t i) (for_range 0 TIPNAMELENGTH (write_name_log t i) ce).

Definition updateEEPROM_log (s : Settings) (t : TipStore) (e : EEPROM_log) : EEPROM_log :=
  let e := EEPROM_update_log 2 (Z.shiftr (DefaultTemp s) 8) e in
  let e := EEPROM_update_log 3 (Z.land (DefaultTemp s) 0xFF) e in
  let e := EEPROM_update_log 4 (Z.shiftr (SleepTemp s) 8) e in
  let e := EEPROM_update_log 5 (Z.land (SleepTemp s) 0xFF) e in
  let e := EEPROM_update_log 6 (BoostTemp s) e in
  let e := EEPROM_update_log 7 (time2sleep s) e in
  let e := EEPROM_update_log 8 (time2off s) e in
  let e := EEPROM_update_log 9 (timeOfBoost s) e in
  let e := EEPROM_update_log 10 (MainScrType s) e in
  let e := EEPROM_update_log 11 (of_bool (PIDenable s)) e in
  let e := EEPROM_update_log 12 (of_bool (beepEnable s)) e in
  let e := EEPROM_update_log 13 (of_bool (BodyFlip s)) e in
  let e := EEPROM_update_log 14 (of_bool (ECReverse s)) e in
  let e := EEPROM_update_log 15 (CurrentTip t) e in
  let e := EEPROM_update_log 16 (NumberOfTips t) e in
  snd (for_range 0 (NumberOfTips t) (write_tip_log t) (17, e)).

(** The state of the tip loop without the record. *)
Definition erase_log (ce : Z * EEPROM_log) : Z * gmap Z Z := (fst ce, fst (snd ce)).

(** What the record of the writes says of an EEPROM [e0] they started
    from: every write is to a cell in [lo..c-1] that held another byte
    in [e0] and holds the written one now, no cell is written twice, and
    every cell that differs from [e0] was written. *)
Definition log_inv (e0 : gmap Z Z) (lo c : Z) (el : EEPROM_log) : Prop :=
  (forall a v, (a, v) ∈ snd el ->
     lo <= a < c /\ EEPROM_read a e0 <> v /\ EEPROM_read a (fst el) = v) /\
  NoDup (fst <$> snd el) /\
  (forall a, EEPROM_read a (fst el) <> EEPROM_read a e0 -> a ∈ (fst <$> snd el)).

(** Values that fit their C types, and arrays of the declared dimensions. *)
Definition is_uint8 (z : Z) : Prop := 0 <= z < 256.
Definition is_uint16 (z : Z) : Prop := 0 <= z < 65536.

Definition array_dims (rows cols : Z) (A : list (list Z)) : Prop :=
  Z.of_nat (length A) = rows /\
  Forall (fun row => Z.of_nat (length row) = cols) A.

Definition Settings_wf (s : Settings) : Prop :=
  is_uint16 (DefaultTemp s) /\ is_uint16 (SleepTemp s) /\
  is_uint8 (BoostTemp s) /\ is_uint8 (time2sleep s) /\ is_uint8 (time2off s) /\
  is_uint8 (timeOfBoost s) /\ is_uint8 (MainScrType s).

Definition TipStore_dims (t : TipStore) : Prop :=
  array_dims TIPMAX 4 (CalTemp t) /\ array_dims TIPMAX TIPNAMELENGTH (TipName t).

Definition TipStore_wf (t : TipStore) : Prop :=
  TipStore_dims t /\
  Forall (Forall is_uint16) (CalTemp t) /\
  Forall (Forall is_uint8) (TipName t) /\
  is_uint8 (CurrentTip t) /\
  0 <= NumberOfTips t <= TIPMAX.

(** The first [n] tip profiles of two stores are the same. *)
Definition same_tips (n : Z) (t t' : TipStore) : Prop :=
  forall i, 0 <= i < n ->
    (forall j, 0 <= j < TIPNAMELENGTH -> get2 (TipName t') i j = get2 (TipName t) i j) /\
    (forall j, 0 <= j < 4 -> get2 (CalTemp t') i j = get2 (CalTemp t) i j).

(* ===================================================================== *)
(** * Operations of the tip menu *)
(* ===================================================================== *)

(** The screens below are interactive; the model takes what the user
    enters as an argument and gives the effect on the tip store. *)

Definition with_TipName (names : list (list Z)) (t : TipStore) : TipStore :=
  {| CalTemp := CalTemp t; TipName := names;
     CurrentTip := CurrentTip t; NumberOfTips := NumberOfTips t |}.

Definition with_CalTemp (cals : list (list Z)) (t : TipStore) : TipStore :=
  {| CalTemp := cals; TipName := TipName t;
     CurrentTip := CurrentTip t; NumberOfTips := NumberOfTips t |}.

(** [void InputNameScreen()]; [entered digit] is the [uint8_t value] at
    the button press that ends the entry of character [digit]. *)
Definition InputNameScreen (entered : Z -> Z) (t : TipStore) : TipStore :=
  let names :=
    for_range 0 (TIPNAMELENGTH - 1)
      (fun digit names => set2 names (CurrentTip t) digit (uint8 (entered digit)))
      (TipName t) in
  with_TipName (set2 names (CurrentTip t) (TIPNAMELENGTH - 1) 0) t.

(** The body of the compaction loop of [DeleteTipScreen]. *)
Definition shift_tip (i : Z) (t : TipStore) : TipStore :=
  let t1 :=
    for_range 0 TIPNAMELENGTH
      (fun j t => with_TipName (set2 (TipName t) i j (get2 (TipName t) (i + 1) j)) t) t in
  for_range 0 4
    (fun j t => with_CalTemp (set2 (CalTemp t) i j (get2 (CalTemp t) (i + 1) j)) t) t1.

(** [void DeleteTipScreen()]; [sure] is the answer of the
    ["Are you sure ?"] menu (0: No, 1: Yes), asked only when more than one
    tip is left. *)
Definition DeleteTipScreen (sure : Z) (t : TipStore) : TipStore :=
  if NumberOfTips t =? 1 then
    t (* MessageScreen(DeleteMessage, ...) *)
  else if to_bool sure then
    let t1 :=
      if CurrentTip t =? NumberOfTips t - 1 then
        {| CalTemp := CalTemp t; TipName := TipName t;
           CurrentTip := uint8 (CurrentTip t - 1); NumberOfTips := NumberOfTips t |}
      else
        for_range (CurrentTip t) (NumberOfTips t - 1) shift_tip t in
    {| CalTemp := CalTemp t1; TipName := TipName t1;
       CurrentTip := CurrentTip t1; NumberOfTips := uint8 (NumberOfTips t1 - 1) |}
  else t.

(** [void AddTipScreen()]. *)
Definition AddTipScreen (entered : Z -> Z) (t : TipStore) : TipStore :=
  if NumberOfTips t <? TIPMAX then
    let t1 :=
      {| CalTemp := CalTemp t; TipName := TipName t;
         CurrentTip := NumberOfTips t; NumberOfTips := uint8 (NumberOfTips t + 1) |} in
    let t2 := InputNameScreen entered t1 in
    let cals := set2 (CalTemp t2) (CurrentTip t2) 0 TEMP200 in
    let cals := set2 cals (CurrentTip t2) 1 TEMP280 in
    let cals := set2 cals (CurrentTip t2) 2 TEMP360 in
    let cals := set2 cals (CurrentTip t2) 3 TEMPCHP in
    with_CalTemp cals t2
  else
    t (* MessageScreen(MaxTipMessage, ...) *).

(** The candidate of a calibration: [CalTempNew[0..2]] are the values of
    [getRotary()] at the end of the three steps, [CalTempNew[3]] is
    [getChipTemp()]; all four are stored in [uint16_t]. *)
Definition CalTempNew (r0 r1 r2 : Z) (chipADC : Z -> Z) : list Z :=
  [uint16 r0; uint16 r1; uint16 r2; uint16 (Qtruncate (getChipTemp chipADC))].

(** The check of the candidate in [CalibrationScreen]
    ([CalTempNew[0] + 10 < CalTempNew[1] && CalTempNew[1] + 10 < CalTempNew[2]],
    in [unsigned int]). *)
Definition calibration_valid (new : list Z) : bool :=
  (uint16 (new !!! 0%nat + 10) <? new !!! 1%nat) &&
  (uint16 (new !!! 1%nat + 10) <? new !!! 2%nat).

(** [void CalibrationScreen()] from the end of its three steps on;
    [store] is the answer of the ["Store Settings ?"] menu (0: No,
    1: Yes), asked only for a valid candidate. *)
Definition CalibrationScreen (r0 r1 r2 : Z) (chipADC : Z -> Z) (store : Z) (t : TipStore)
  : TipStore :=
  let new := CalTempNew r0 r1 r2 chipADC in
  if calibration_valid new then
    if to_bool store then
      with_CalTemp
        (for_range 0 4
           (fun i cals => set2 cals (CurrentTip t) i (new !!! Z.to_nat i))
           (CalTemp t)) t
    else t
  else t.

(** The acceptance test as the specification words it, on the candidate
    points as mathematical integers. *)
Definition spec_accepts (p0 p1 p2 : Z) : bool :=
  (p0 + 10 <? p1) && (p1 + 10 <? p2).

(** The calibration row of the selected tip. *)
Definition selected_cal (t : TipStore) : list Z :=
  CalTemp t !!! Z.to_nat (CurrentTip t).

(* ===================================================================== *)
(** * Temperature sensing and heater control *)
(* ===================================================================== *)

(** The tunings of the PID controller [ctrl], as [SetTunings] leaves them. *)
Record PID := { Kp : Q; Ki : Q; Kd : Q }.

(** [double aggKp = 11, aggKi = 0.5, aggKd = 1;
     double consKp = 11, consKi = 3, consKd = 5;]. *)
Definition aggKp : Q := 11.
Definition aggKi : Q := 1 # 2.
Definition aggKd : Q := 1.
Definition consKp : Q := 11.
Definition consKi : Q := 3.
Definition consKd : Q := 5.

Definition agg_tunings : PID := {| Kp := aggKp; Ki := aggKi; Kd := aggKd |}.
Definition cons_tunings : PID := {| Kp := consKp; Ki := consKi; Kd := consKd |}.

(** The globals of the control loop.  [CONTROL_PIN] is the duty last
    written with [analogWrite(CONTROL_PIN, _)], [heater_writes] every duty
    written so far (oldest first), [beeps] the number of beeps sounded. *)
Record Ctl := {
  SetTemp : Z;
  ShowTemp : Z;
  Input : Q;
  Output : Q;
  Setpoint : Q;
  RawTemp : Q;
  CurrentTemp : Q;
  CJTemp : Q;
  Vcc : Z;
  Vin : Z;
  inSleepMode : bool;
  inOffMode : bool;
  inBoostMode : bool;
  isWorky : bool;
  beepIfWorky : bool;
  TipIsPresent : bool;
  SensorCounter : Z;
  ctrl : PID;
  CONTROL_PIN : Z;
  heater_writes : list Z;
  beeps : nat
}.

(** The conversions of the acquisitions of one [SENSORCheck], per channel. *)
Record Readings := {
  reed_ADC : Z -> Z;
  sensor_ADC : Z -> Z;
  coldj_ADC : Z -> Z;
  vin_ADC : Z -> Z
}.

(** The globals as their initialisers leave them; nothing has been
    written to the heater yet. *)
Definition boot_Ctl : Ctl :=
  {| SetTemp := 0; ShowTemp := 0; Input := 0; Output := 0; Setpoint := 0;
     RawTemp := 0; CurrentTemp := 0; CJTemp := 0; Vcc := 0; Vin := 0;
     inSleepMode := false; inOffMode := false; inBoostMode := false;
     isWorky := true; beepIfWorky := true; TipIsPresent := true;
     SensorCounter := 255; ctrl := agg_tunings;
     CONTROL_PIN := 0; heater_writes := []; beeps := 0 |}.

(** Readings whose conversions all have the same value on each channel. *)
Definition steady_Readings (reed sensor coldj vin : Z) : Readings :=
  {| reed_ADC := fun _ => reed; sensor_ADC := fun _ => sensor;
     coldj_ADC := fun _ => coldj; vin_ADC := fun _ => vin |}.

(** [analogWrite(CONTROL_PIN, val)]. *)
Definition analogWrite (val : Z) (st : Ctl) : Ctl :=
  {| SetTemp := SetTemp st; ShowTemp := ShowTemp st; Input := Input st;
     Output := Output st; Setpoint := Setpoint st; RawTemp := RawTemp st;
     CurrentTemp := CurrentTemp st; CJTemp := CJTemp st; Vcc := Vcc st; Vin := Vin st;
     inSleepMode := inSleepMode st; inOffMode := inOffMode st;
     inBoostMode := inBoostMode st; isWorky := isWorky st;
     beepIfWorky := beepIfWorky st; TipIsPresent := TipIsPresent st;
     SensorCounter := SensorCounter st; ctrl := ctrl st;
     CONTROL_PIN := val;
     heater_writes := heater_writes st ++ [val];
     beeps := beeps st |}.

(** [void beep()]. *)
Definition beep (cfg : Settings) (st : Ctl) : Ctl :=
  {| SetTemp := SetTemp st; ShowTemp := ShowTemp st; Input := Input st;
     Output := Output st; Setpoint := Setpoint st; RawTemp := RawTemp st;
     CurrentTemp := CurrentTemp st; CJTemp := CJTemp st; Vcc := Vcc st; Vin := Vin st;
     inSleepMode := inSleepMode st; inOffMode := inOffMode st;
     inBoostMode := inBoostMode st; isWorky := isWorky st;
     beepIfWorky := beepIfWorky st; TipIsPresent := TipIsPresent st;
     SensorCounter := SensorCounter st; ctrl := ctrl st;
     CONTROL_PIN := CONTROL_PIN st;
     heater_writes := heater_writes st;
     beeps := if beepEnable cfg then S (beeps st) else beeps st |}.

(** The assignments of [SLEEPCheck] to the three mode flags. *)
Definition set_modes (present sleep off : bool) (st : Ctl) : Ctl :=
  {| SetTemp := SetTemp st; ShowTemp := ShowTemp st; Input := Input st;
     Output := Output st; Setpoint := Setpoint st; RawTemp := RawTemp st;
     CurrentTemp := CurrentTemp st; CJTemp := CJTemp st; Vcc := Vcc st; Vin := Vin st;
     inSleepMode := sleep; inOffMode := off;
     inBoostMode := inBoostMode st; isWorky := isWorky st;
     beepIfWorky := beepIfWorky st; TipIsPresent := present;
     SensorCounter := SensorCounter st; ctrl := ctrl st;
     CONTROL_PIN := CONTROL_PIN st;
     heater_writes := heater_writes st;
     beeps := beeps st |}.

(** [void SLEEPCheck()]. *)
Definition SLEEPCheck (reed : Z -> Z) (st : Ctl) : Ctl :=
  let reedValue := denoiseAnalog reed in
  if reedValue <? 32 then set_modes true true false st
  else if reedValue <? 192 then set_modes true false false st
  else set_modes false true true st.

(** [if (!SensorCounter--) { CJTemp = getColdJ(); Vin = getVIN(); }]. *)
Definition refresh_supply (r : Readings) (st : Ctl) : Ctl :=
  let due := SensorCounter st =? 0 in
  {| SetTemp := SetTemp st; ShowTemp := ShowTemp st; Input := Input st;
     Output := Output st; Setpoint := Setpoint st; RawTemp := RawTemp st;
     CurrentTemp := CurrentTemp st;
     CJTemp := if due then inject_Z (getColdJ (coldj_ADC r)) else CJTemp st;
     Vcc := Vcc st;
     Vin := if due then getVIN (Vcc st) (vin_ADC r) else Vin st;
     inSleepMode := inSleepMode st; inOffMode := inOffMode st;
     inBoostMode := inBoostMode st; isWorky := isWorky st;
     beepIfWorky := beepIfWorky st; TipIsPresent := TipIsPresent st;
     SensorCounter := uint8 (SensorCounter st - 1); ctrl := ctrl st;
     CONTROL_PIN := CONTROL_PIN st;
     heater_writes := heater_writes st;
     beeps := beeps st |}.

(** [if (Vin > 11000) analogWrite(CONTROL_PIN, HEATER_PWM);]. *)
Definition drive_heater (st : Ctl) : Ctl :=
  if 11000 <? Vin st
  then analogWrite (Qtruncate (HEATER_PWM (Output st))) st
  else st.

(** The first, live statement of [calculateTemp] (the function returns
    right after it). *)
Definition calculateTemp (RawTemp CJTemp : Q) : Q :=
  RawTemp * (836 # 1000) + (891 # 100) + (CJTemp - 25).

(** [void setup()], as far as the control globals go: the heater is shut
    off, the supply voltages, the cold junction and the tip are read,
    [SetTemp] is the default temperature of the loaded settings [cfg], and
    two beeps end the set-up. *)
Definition setup (cfg : Settings) (vcc_ADC vin_ADC coldj_ADC sensor_ADC : Z -> Z) : Ctl :=
  let st := analogWrite HEATER_OFF boot_Ctl in
  let vcc := getVCC vcc_ADC in
  let cj := inject_Z (getColdJ coldj_ADC) in
  let raw := inject_Z (denoiseAnalog sensor_ADC) in
  beep cfg (beep cfg
    {| SetTemp := DefaultTemp cfg; ShowTemp := ShowTemp st; Input := Input st;
       Output := Output st; Setpoint := Setpoint st; RawTemp := raw;
       CurrentTemp := calculateTemp raw cj;
       CJTemp := cj; Vcc := vcc; Vin := getVIN vcc vin_ADC;
       inSleepMode := inSleepMode st; inOffMode := inOffMode st;
       inBoostMode := inBoostMode st; isWorky := isWorky st;
       beepIfWorky := beepIfWorky st; TipIsPresent := TipIsPresent st;
       SensorCounter := SensorCounter st; ctrl := ctrl st;
       CONTROL_PIN := CONTROL_PIN st;
       heater_writes := heater_writes st;
       beeps := beeps st |}).

(** The displayed temperature: [ShowTemp] after the two [if]s that
    stabilise it around the setpoint. *)
Definition stabilise (ShowTemp : Z) (Setpoint CurrentTemp : Q) : Z :=
  let show1 :=
    if negb (Qeq_bool (inject_Z ShowTemp) Setpoint)
       || Qltb 5 (Qabs (inject_Z ShowTemp - CurrentTemp)%Q)
    then uint16 (Qtruncate CurrentTemp)
    else ShowTemp in
  if Qle_bool (Qabs (inject_Z show1 - Setpoint)%Q) 1
  then uint16 (Qtruncate Setpoint)
  else show1.

(** [RawTemp += (temp - RawTemp); calculateTemp();] and the update of
    [ShowTemp], [isWorky] and [beepIfWorky]. *)
Definition measure (cfg : Settings) (temp : Z) (st : Ctl) : Ctl :=
  let raw := (RawTemp st + (inject_Z temp - RawTemp st))%Q in
  let current := calculateTemp raw (CJTemp st) in
  let show := stabilise (ShowTemp st) (Setpoint st) current in
  let gap := uint16 (Qtruncate (Qabs (inject_Z (SetTemp st) - current)%Q)) in
  let worky := gap <? 5 in
  {| SetTemp := SetTemp st; ShowTemp := show; Input := Input st;
     Output := Output st; Setpoint := Setpoint st; RawTemp := raw;
     CurrentTemp := current; CJTemp := CJTemp st; Vcc := Vcc st; Vin := Vin st;
     inSleepMode := inSleepMode st; inOffMode := inOffMode st;
     inBoostMode := inBoostMode st;
     isWorky := worky;
     beepIfWorky := if worky then false else beepIfWorky st;
     TipIsPresent := TipIsPresent st;
     SensorCounter := SensorCounter st; ctrl := ctrl st;
     CONTROL_PIN := CONTROL_PIN st;
     heater_writes := heater_writes st;
     beeps := if worky && negb (isWorky st) && beepIfWorky st && beepEnable cfg
              then S (beeps st) else beeps st |}.

(** [SENSORCheck] up to the [while] loop at its end. *)
Definition SENSORCheck_measure (cfg : Settings) (r : Readings) (st : Ctl) : Ctl :=
  let st := analogWrite HEATER_OFF st in
  let st := SLEEPCheck (reed_ADC r) st in
  let temp := denoiseAnalog (sensor_ADC r) in
  let st := refresh_supply r st in
  let st := drive_heater st in
  measure cfg temp st.

(** The body of [while (ShowTemp > 500) { analogWrite(CONTROL_PIN,
    HEATER_OFF); beep(); }]. *)
Definition fault_body (cfg : Settings) (st : Ctl) : Ctl :=
  beep cfg (analogWrite HEATER_OFF st).

(** The [while] loop, run for at most [fuel] iterations: [None] when the
    loop is still running after them. *)
Fixpoint fault_loop (fuel : nat) (cfg : Settings) (st : Ctl) : option Ctl :=
  if 500 <? ShowTemp st then
    match fuel with
    | O => None
    | S fuel' => fault_loop fuel' cfg (fault_body cfg st)
    end
  else Some st.

(** [void SENSORCheck()]. *)
Definition SENSORCheck (fuel : nat) (cfg : Settings) (r : Readings) (st : Ctl) : option Ctl :=
  fault_loop fuel cfg (SENSORCheck_measure cfg r st).

(** The setpoint of the current working mode. *)
Definition mode_Setpoint (cfg : Settings) (st : Ctl) : Q :=
  if inOffMode st then 0%Q
  else if inSleepMode st then inject_Z (SleepTemp cfg)
  else if inBoostMode st then inject_Z (uint16 (SetTemp st + BoostTemp cfg))
  else inject_Z (SetTemp st).

(** The direct control of [Thermostat]: the [else] branch of
    [if (PIDenable)]. *)
Definition direct_Output (CurrentTemp Setpoint : Q) : Q :=
  (if Qltb (CurrentTemp + 50) Setpoint then 255
   else if Qltb (CurrentTemp + 25) Setpoint then 128
   else if Qltb (CurrentTemp + 5) Setpoint then 32
   else if Qltb (CurrentTemp + (1 # 2)) Setpoint then 8
   else 0)%Q.

(** The tunings [Thermostat] selects before [ctrl.Compute()]. *)
Definition scheduled_tunings (Setpoint CurrentTemp : Q) : PID :=
  let gap := uint16 (Qtruncate (Qabs (Setpoint - CurrentTemp)%Q)) in
  if gap <? 30 then cons_tunings else agg_tunings.

(** [Thermostat] up to the write to the heater.  [pid_out] is the value
    [ctrl.Compute()] of the PID library leaves in [Output]. *)
Definition Thermostat_control (cfg : Settings) (pid_out : Q) (st : Ctl) : Ctl :=
  let setpoint := mode_Setpoint cfg st in
  {| SetTemp := SetTemp st; ShowTemp := ShowTemp st;
     Input := if PIDenable cfg then CurrentTemp st else Input st;
     Output := if PIDenable cfg then pid_out
               else direct_Output (CurrentTemp st) setpoint;
     Setpoint := setpoint; RawTemp := RawTemp st;
     CurrentTemp := CurrentTemp st; CJTemp := CJTemp st; Vcc := Vcc st; Vin := Vin st;
     inSleepMode := inSleepMode st; inOffMode := inOffMode st;
     inBoostMode := inBoostMode st; isWorky := isWorky st;
     beepIfWorky := beepIfWorky st; TipIsPresent := TipIsPresent st;
     SensorCounter := SensorCounter st;
     ctrl := if PIDenable cfg then scheduled_tunings setpoint (CurrentTemp st)
             else ctrl st;
     CONTROL_PIN := CONTROL_PIN st;
     heater_writes := heater_writes st;
     beeps := beeps st |}.

(** [void Thermostat()]. *)
Definition Thermostat (cfg : Settings) (pid_out : Q) (st : Ctl) : Ctl :=
  drive_heater (Thermostat_control cfg pid_out st).

(** [SENSORCheck(); Thermostat();], the part of [loop()] (and of a
    calibration step) that drives the heater. *)
Definition tick (fuel : nat) (cfg : Settings) (r : Readings) (pid_out : Q) (st : Ctl)
  : option Ctl :=
  match SENSORCheck fuel cfg r st with
  | Some st' => Some (Thermostat cfg pid_out st')
  | None => None
  end.

(** The ladder of the direct strategy as the specification words it, on a
    gap [g]. *)
Definition spec_ladder (g : Q) : Q :=
  (if Qltb 50 g then 255
   else if Qltb 25 g then 128
   else if Qltb 5 g then 32
   else if Qltb (1 # 2) g then 8
   else 0)%Q.

(** The duties written to the heater since the state [st0]. *)
Definition writes_since (st0 st : Ctl) : list Z :=
  drop (length (heater_writes st0)) (heater_writes st).

(* ===================================================================== *)
(** * Main screen, button and boost timer *)
(* ===================================================================== *)

(** The status [MainScreen] prints next to the setpoint: ["ERROR"],
    ["  OFF"], ["SLEEP"], ["BOOST"], ["WORKY"], [" HEAT"] or [" HOLD"]. *)
Inductive Status := ERROR | OFF | SLEEP | BOOST | WORKY | HEAT | HOLD.

(** The chain of [if]s of [MainScreen] that selects the status. *)
Definition MainScreen_status (st : Ctl) : Status :=
  if 500 <? ShowTemp st then ERROR
  else if inOffMode st then OFF
  else if inSleepMode st then SLEEP
  else if inBoostMode st then BOOST
  else if isWorky st then WORKY
  else if Qltb (Output st) 180 then HEAT
  else HOLD.

(** The temperature field of [MainScreen]: [None] when it prints ["000"],
    else the number printed.  On the detailed screen ([MainScrType] not
    0) the test is [false && ShowTemp > 500]. *)
Definition MainScreen_temperature (cfg : Settings) (st : Ctl) : option Z :=
  if to_bool (MainScrType cfg) then
    if false && (500 <? ShowTemp st) then None else Some (ShowTemp st)
  else
    if 500 <? ShowTemp st then None else Some (ShowTemp st).

(** Conversion to the 32-bit [unsigned long] of [millis()]. *)
Definition uint32 (z : Z) : Z := z mod 4294967296.

(** The button and timing globals of [ROTARYCheck]
    ([volatile uint8_t c0; uint32_t buttonmillis, boostmillis;
      uint8_t goneSeconds]). *)
Record Buttons := {
  c0 : Z;
  buttonmillis : Z;
  boostmillis : Z;
  goneSeconds : Z
}.

(** What the successive calls of [millis()] in one [ROTARYCheck] return:
    at the button press, after the wait for the release, at the entry
    into boost mode, and at the check of the boost timer. *)
Record Clock := {
  at_press : Z;
  after_wait : Z;
  at_boost : Z;
  at_timer : Z
}.

(** [SetTemp = v]. *)
Definition set_SetTemp (v : Z) (st : Ctl) : Ctl :=
  {| SetTemp := v; ShowTemp := ShowTemp st; Input := Input st;
     Output := Output st; Setpoint := Setpoint st; RawTemp := RawTemp st;
     CurrentTemp := CurrentTemp st; CJTemp := CJTemp st; Vcc := Vcc st; Vin := Vin st;
     inSleepMode := inSleepMode st; inOffMode := inOffMode st;
     inBoostMode := inBoostMode st; isWorky := isWorky st;
     beepIfWorky := beepIfWorky st; TipIsPresent := TipIsPresent st;
     SensorCounter := SensorCounter st; ctrl := ctrl st;
     CONTROL_PIN := CONTROL_PIN st;
     heater_writes := heater_writes st;
     beeps := beeps st |}.

(** [inBoostMode = boost; beepIfWorky = armed]. *)
Definition set_boost (boost armed : bool) (st : Ctl) : Ctl :=
  {| SetTemp := SetTemp st; ShowTemp := ShowTemp st; Input := Input st;
     Output := Output st; Setpoint := Setpoint st; RawTemp := RawTemp st;
     CurrentTemp := CurrentTemp st; CJTemp := CJTemp st; Vcc := Vcc st; Vin := Vin st;
     inSleepMode := inSleepMode st; inOffMode := inOffMode st;
     inBoostMode := boost; isWorky := isWorky st;
     beepIfWorky := armed; TipIsPresent := TipIsPresent st;
     SensorCounter := SensorCounter st; ctrl := ctrl st;
     CONTROL_PIN := CONTROL_PIN st;
     heater_writes := heater_writes st;
     beeps := beeps st |}.

(** The last part of [ROTARYCheck]: the check of the boost timer, with
    [now] the value of [millis()]. *)
Definition boost_timer (cfg : Settings) (now : Z) (st : Ctl) (b : Buttons)
  : Ctl * Buttons :=
  if inBoostMode st && to_bool (timeOfBoost cfg) then
    let gone := uint8 (uint32 (now - boostmillis b) / 1000) in
    let b' := {| c0 := c0 b; buttonmillis := buttonmillis b;
                 boostmillis := boostmillis b; goneSeconds := gone |} in
    if timeOfBoost cfg <=? gone
    then (set_boost false true (beep cfg (set_boost false (beepIfWorky st) st)), b')
    else (st, b')
  else (st, b).

(** [void ROTARYCheck()].  [enc] is the encoder as [getRotary()] finds
    it, [c] the level [digitalRead(BUTTON_PIN)] returns, [clk] the clock.
    The loop that waits for the release of the button changes no
    variable; what it leaves is the time [after_wait clk].  [SetupScreen]
    stands for the set-up menu, a function of the settings and the
    control globals. *)
Definition ROTARYCheck
    (SetupScreen : Settings -> Ctl -> Settings * Ctl)
    (enc : Encoder) (c : Z) (clk : Clock)
    (cfg : Settings) (st : Ctl) (b : Buttons) : Settings * Ctl * Buttons :=
  let st := set_SetTemp (uint16 (getRotary enc)) st in
  let '(cfg, st, b) :=
    if negb (to_bool c) && to_bool (c0 b) then
      let st := beep cfg st in
      let b := {| c0 := c0 b; buttonmillis := at_press clk;
                  boostmillis := boostmillis b; goneSeconds := goneSeconds b |} in
      if 500 <=? uint32 (after_wait clk - buttonmillis b) then
        let '(cfg', st') := SetupScreen cfg st in (cfg', st', b)
      else
        let st := set_boost (negb (inBoostMode st)) (beepIfWorky st) st in
        (cfg, st,
         if inBoostMode st
         then {| c0 := c0 b; buttonmillis := buttonmillis b;
                 boostmillis := at_boost clk; goneSeconds := goneSeconds b |}
         else b)
    else (cfg, st, b) in
  let b := {| c0 := c; buttonmillis := buttonmillis b;
              boostmillis := boostmillis b; goneSeconds := goneSeconds b |} in
  let '(st, b) := boost_timer cfg (at_timer clk) st b in
  (cfg, st, b).

(** [loop()] run over several rounds of [SENSORCheck(); Thermostat();],
    each with its readings and the output of the PID library; [None]
    when a round does not return. *)
Fixpoint run_ticks (fuel : nat) (cfg : Settings) (inputs : list (Readings * Q)) (st : Ctl)
  : option Ctl :=
  match inputs with
  | [] => Some st
  | rp :: inputs' =>
      match tick fuel cfg (fst rp) (snd rp) st with
      | Some st' => run_ticks fuel cfg inputs' st'
      | None => None
      end
  end.

(* ===================================================================== *)
(** * Menus driven by the encoder *)
(* ===================================================================== *)

(** The screens poll the encoder in a [do ... while] loop until the
    button is pressed, while the interrupt handler runs on every edge.
    The model takes the edges that arrive before each pass of the loop
    (at least one pass is made) and those that arrive after the last
    pass, before the screen returns. *)

(** One pass of the loop of [MenuScreen] and [ChangeTipScreen]:
    [selected = getRotary(); arrow = constrain(arrow + selected -
    lastselected, 0, 2); lastselected = selected;].  The state is
    [(selected, arrow)]; between passes [lastselected] is [selected]. *)
Definition menu_poll (e : Encoder) (sa : Z * Z) : Z * Z :=
  let selected := uint8 (getRotary e) in
  (selected, constrain (snd sa + selected - fst sa) 0 2).

Fixpoint menu_polls (polls : list (list (Z * Z))) (e : Encoder) (sa : Z * Z)
  : Encoder * (Z * Z) :=
  match polls with
  | [] => (e, sa)
  | edges :: polls' =>
      let e' := run_edges edges e in
      menu_polls polls' e' (menu_poll e' sa)
  end.

(** [uint8_t MenuScreen(const char *Items[], uint8_t numberOfItems,
    uint8_t selected)]: the selection returned, the arrow at the last
    pass, and the encoder.  [numberOfItems] is [sizeof(Items)], two bytes
    per entry. *)
Definition MenuScreen (reverse : bool) (numberOfItems selected : Z)
    (first : list (Z * Z)) (rest : list (list (Z * Z))) (after : list (Z * Z))
    (e : Encoder) : Z * Z * Encoder :=
  let arrow := if to_bool selected then 1 else 0 in
  let numberOfItems := Z.shiftr (uint8 numberOfItems) 1 in
  let e := setRotary reverse 0 (numberOfItems - 2) 1 selected e in
  let r := menu_polls (first :: rest) e (selected, arrow) in
  (fst (snd r), snd (snd r), run_edges after (fst r)).

(** The entry of [Items] that [MenuScreen] draws on line [i + 1]
    ([i] from 0 to 2), if any: [drawnumber = selected + i + 1 - arrow] as
    a [uint8_t] must be below [numberOfItems]. *)
Definition MenuScreen_line (numberOfItems selected arrow i : Z) : option Z :=
  if uint8 (selected + i + 1 - arrow) <? numberOfItems
  then Some (selected + i + 1 - arrow)
  else None.

(** [void ChangeTipScreen()]. *)
Definition ChangeTipScreen (reverse : bool)
    (first : list (Z * Z)) (rest : list (list (Z * Z))) (after : list (Z * Z))
    (e : Encoder) (t : TipStore) : TipStore * Encoder :=
  let selected := CurrentTip t in
  let arrow := if to_bool selected then 1 else 0 in
  let e := setRotary reverse 0 (NumberOfTips t - 1) 1 selected e in
  let r := menu_polls (first :: rest) e (selected, arrow) in
  ({| CalTemp := CalTemp t; TipName := TipName t;
      CurrentTip := fst (snd r); NumberOfTips := NumberOfTips t |},
   run_edges after (fst r)).

(** [uint16_t InputScreen(const char *Items[])]: the value of the last
    pass. *)
Definition InputScreen (before after : list (Z * Z)) (e : Encoder) : Z * Encoder :=
  let e1 := run_edges before e in
  (uint16 (getRotary e1), run_edges after e1).

(** One pass of the loop of [InputNameScreen]: the ends of the range wrap
    around to the other end. *)
Definition name_poll (reverse : bool) (e : Encoder) : Z * Encoder :=
  let value := uint8 (getRotary e) in
  let ve1 := if value =? 31 then (95, setRotary reverse 31 96 1 95 e) else (value, e) in
  if fst ve1 =? 96 then (32, setRotary reverse 31 96 1 32 (snd ve1)) else ve1.

Fixpoint name_polls (reverse : bool) (polls : list (list (Z * Z))) (ve : Z * Encoder)
  : Z * Encoder :=
  match polls with
  | [] => ve
  | edges :: polls' =>
      name_polls reverse polls' (name_poll reverse (run_edges edges (snd ve)))
  end.

(** The entry of one character in [InputNameScreen]: the [value] stored in
    the name, and the encoder.  ([value] is assigned in the first pass.) *)
Definition InputNameScreen_digit (reverse : bool)
    (first : list (Z * Z)) (rest : list (list (Z * Z))) (after : list (Z * Z))
    (e : Encoder) : Z * Encoder :=
  let e := setRotary reverse 31 96 1 65 e in
  let ve := name_polls reverse (first :: rest) (0, e) in
  (fst ve, run_edges after (snd ve)).

(** What the user does in one round of a settings menu: the edges during
    the menu and those during the input screen it leads to. *)
Record Turn := {
  menu_first : list (Z * Z);
  menu_rest : list (list (Z * Z));
  menu_after : list (Z * Z);
  input_before : list (Z * Z);
  input_after : list (Z * Z)
}.

Definition with_temps (default sleep boost : Z) (s : Settings) : Settings :=
  {| DefaultTemp := default; SleepTemp := sleep; BoostTemp := boost;
     time2sleep := time2sleep s; time2off := time2off s;
     timeOfBoost := timeOfBoost s; MainScrType := MainScrType s;
     PIDenable := PIDenable s; beepEnable := beepEnable s;
     BodyFlip := BodyFlip s; ECReverse := ECReverse s |}.

Definition with_timers (tosleep tooff ofboost : Z) (s : Settings) : Settings :=
  {| DefaultTemp := DefaultTemp s; SleepTemp := SleepTemp s; BoostTemp := BoostTemp s;
     time2sleep := tosleep; time2off := tooff;
     timeOfBoost := ofboost; MainScrType := MainScrType s;
     PIDenable := PIDenable s; beepEnable := beepEnable s;
     BodyFlip := BodyFlip s; ECReverse := ECReverse s |}.

(** [void TempScreen()], over the rounds of its [while (repeat)] loop the
    user goes through; [sizeof(TempItems)] is 10.  The loop ends when the
    selection is none of the three temperatures. *)
Fixpoint TempScreen_loop (turns : list Turn) (selection : Z) (s : Settings) (e : Encoder)
  : Settings * Encoder :=
  match turns with
  | [] => (s, e)
  | u :: turns' =>
      let m := MenuScreen (ECReverse s) 10 selection
                 (menu_first u) (menu_rest u) (menu_after u) e in
      let selection := fst (fst m) in
      let e := snd m in
      if selection =? 0 then
        let e := setRotary (ECReverse s) TEMP_MIN TEMP_MAX TEMP_STEP (DefaultTemp s) e in
        let v := InputScreen (input_before u) (input_after u) e in
        TempScreen_loop turns' selection
          (with_temps (fst v) (SleepTemp s) (BoostTemp s) s) (snd v)
      else if selection =? 1 then
        let e := setRotary (ECReverse s) 20 200 TEMP_STEP (SleepTemp s) e in
        let v := InputScreen (input_before u) (input_after u) e in
        TempScreen_loop turns' selection
          (with_temps (DefaultTemp s) (fst v) (BoostTemp s) s) (snd v)
      else if selection =? 2 then
        let e := setRotary (ECReverse s) 10 100 TEMP_STEP (BoostTemp s) e in
        let v := InputScreen (input_before u) (input_after u) e in
        TempScreen_loop turns' selection
          (with_temps (DefaultTemp s) (SleepTemp s) (uint8 (fst v)) s) (snd v)
      else (s, e)
  end.

Definition TempScreen (turns : list Turn) (s : Settings) (e : Encoder) : Settings * Encoder :=
  TempScreen_loop turns 0 s e.

(** [void TimerScreen()], likewise; [sizeof(TimerItems)] is 10. *)
Fixpoint TimerScreen_loop (turns : list Turn) (selection : Z) (s : Settings) (e : Encoder)
  : Settings * Encoder :=
  match turns with
  | [] => (s, e)
  | u :: turns' =>
      let m := MenuScreen (ECReverse s) 10 selection
                 (menu_first u) (menu_rest u) (menu_after u) e in
      let selection := fst (fst m) in
      let e := snd m in
      if selection =? 0 then
        let e := setRotary (ECReverse s) 0 30 1 (time2sleep s) e in
        let v := InputScreen (input_before u) (input_after u) e in
        TimerScreen_loop turns' selection
          (with_timers (uint8 (fst v)) (time2off s) (timeOfBoost s) s) (snd v)
      else if selection =? 1 then
        let e := setRotary (ECReverse s) 0 60 5 (time2off s) e in
        let v := InputScreen (input_before u) (input_after u) e in
        TimerScreen_loop turns' selection
          (with_timers (time2sleep s) (uint8 (fst v)) (timeOfBoost s) s) (snd v)
      else if selection =? 2 then
        let e := setRotary (ECReverse s) 0 180 10 (timeOfBoost s) e in
        let v := InputScreen (input_before u) (input_after u) e in
        TimerScreen_loop turns' selection
          (with_timers (time2sleep s) (time2off s) (uint8 (fst v)) s) (snd v)
      else (s, e)
  end.

Definition TimerScreen (turns : list Turn) (s : Settings) (e : Encoder)
  : Settings * Encoder :=
  TimerScreen_loop turns 0 s e.

(** The ranges the input screens of the temperature and timer menus are
    set up with. *)
Definition Settings_in_range (s : Settings) : Prop :=
  TEMP_MIN <= DefaultTemp s <= TEMP_MAX /\
  20 <= SleepTemp s <= 200 /\
  10 <= BoostTemp s <= 100 /\
  0 <= time2sleep s <= 30 /\
  0 <= time2off s <= 60 /\
  0 <= timeOfBoost s <= 180.

(* ===================================================================== *)
(** * The tip store as the menus keep it *)
(* ===================================================================== *)

(** The name [InputNameScreen] stores for the characters [entered]. *)
Definition typed_name (entered : Z -> Z) : list Z :=
  [uint8 (entered 0); uint8 (entered 1); uint8 (entered 2);
   uint8 (entered 3); uint8 (entered 4); 0].

(** The encoder is set up for the range from [rmin] to [rmax] and its
    count lies within it. *)
Definition ranged (rmin rmax : Z) (e : Encoder) : Prop :=
  countMin e = 2 * rmin /\ countMax e = 2 * rmax /\ in_bounds e.

(* ===================================================================== *)
(** * The tip menu, driven by the encoder *)
(* ===================================================================== *)

(** The edges that arrive while one screen polls the encoder: before the
    first pass of its loop, before each further pass, and after the last
    pass, before the screen returns. *)
Record Polls := {
  first_edges : list (Z * Z);
  rest_edges : list (list (Z * Z));
  after_edges : list (Z * Z)
}.

(** What happens during one step of a calibration: the readings and the
    output of the PID library of each round of its loop (at least one
    round is made), the edges up to the reading of the encoder after
    the loop, and the edges from there to the next step. *)
Record Passes := {
  first_round : Readings * Q;
  rest_rounds : list (Readings * Q);
  edges_before : list (Z * Z);
  edges_after : list (Z * Z)
}.

(** The control globals at the head of the loop of a calibration step:
    [SetTemp = CalTemp[CurrentTip][CalStep]; ... beepIfWorky = true;]. *)
Definition CalibrationScreen_entry (CalStep : Z) (t : TipStore) (st : Ctl) : Ctl :=
  set_boost (inBoostMode st) true
    (set_SetTemp (get2 (CalTemp t) (CurrentTip t) CalStep) st).

(** One step of [CalibrationScreen]: [SetTemp = CalTemp[CurrentTip][CalStep];
    setRotary(100, 500, 1, SetTemp); beepIfWorky = true;], the loop
    [do { SENSORCheck(); Thermostat(); ... } while (...)] until the button
    is pressed, [CalTempNew[CalStep] = getRotary();] and [beep()].  The
    rounds of the loop work on the control globals, the interrupt
    handler on the encoder.  The result is the value read, the encoder
    and the control globals; [None] when a [SENSORCheck] of the loop does
    not return. *)
Definition CalibrationScreen_step (fuel : nat) (cfg : Settings) (CalStep : Z)
    (u : Passes) (t : TipStore) (e : Encoder) (st : Ctl) : option (Z * Encoder * Ctl) :=
  let e :=
    setRotary (ECReverse cfg) 100 500 1 (get2 (CalTemp t) (CurrentTip t) CalStep) e in
  match run_ticks fuel cfg (first_round u :: rest_rounds u)
          (CalibrationScreen_entry CalStep t st) with
  | Some st' =>
      let e1 := run_edges (edges_before u) e in
      Some (getRotary e1, run_edges (edges_after u) e1, beep cfg st')
  | None => None
  end.

(** [void CalibrationScreen()]: its three steps, the heater shut off, the
    chip temperature read, and the ["Store Settings ?"] menu, asked only
    for a valid candidate ([sizeof(StoreItems)] is 6). *)
Definition CalibrationScreen_run (fuel : nat) (cfg : Settings)
    (steps : Z -> Passes) (chipADC : Z -> Z) (prompt : Polls)
    (t : TipStore) (e : Encoder) (st : Ctl) : option (TipStore * Encoder * Ctl) :=
  match CalibrationScreen_step fuel cfg 0 (steps 0) t e st with
  | Some (r0, e0, st0) =>
      match CalibrationScreen_step fuel cfg 1 (steps 1) t e0 st0 with
      | Some (r1, e1, st1) =>
          match CalibrationScreen_step fuel cfg 2 (steps 2) t e1 st1 with
          | Some (r2, e2, st2) =>
              let st3 := analogWrite HEATER_OFF st2 in
              if calibration_valid (CalTempNew r0 r1 r2 chipADC) then
                let m := MenuScreen (ECReverse cfg) 6 0 (first_edges prompt)
                           (rest_edges prompt) (after_edges prompt) e2 in
                Some (CalibrationScreen r0 r1 r2 chipADC (fst (fst m)) t, snd m,
                      beep cfg st3)
              else Some (t, e2, st3)
          | None => None
          end
      | None => None
      end
  | None => None
  end.

(** The loop over the characters of [InputNameScreen]: the [value] at
    the button press of each character, and the encoder. *)
Definition InputNameScreen_entry (reverse : bool) (digits : Z -> Polls) (e : Encoder)
  : (Z -> Z) * Encoder :=
  for_range 0 (TIPNAMELENGTH - 1)
    (fun digit ve =>
       let d := InputNameScreen_digit reverse (first_edges (digits digit))
                  (rest_edges (digits digit)) (after_edges (digits digit)) (snd ve) in
       (fun k => if k =? digit then fst d else fst ve k, snd d))
    (fun _ => 0, e).

(** [void InputNameScreen()], the characters entered with the encoder;
    it beeps after each character. *)
Definition InputNameScreen_run (cfg : Settings) (digits : Z -> Polls)
    (t : TipStore) (e : Encoder) (st : Ctl) : TipStore * Encoder * Ctl :=
  let r := InputNameScreen_entry (ECReverse cfg) digits e in
  (InputNameScreen (fst r) t, snd r,
   Nat.iter (Z.to_nat (TIPNAMELENGTH - 1)) (beep cfg) st).

(** [void DeleteTipScreen()] with its ["Are you sure ?"] menu
    ([sizeof(SureItems)] is 6); [message] are the edges that arrive while
    [MessageScreen] waits for the button.  Both screens end with a
    beep. *)
Definition DeleteTipScreen_run (cfg : Settings) (prompt : Polls) (message : list (Z * Z))
    (t : TipStore) (e : Encoder) (st : Ctl) : TipStore * Encoder * Ctl :=
  if NumberOfTips t =? 1 then (t, run_edges message e, beep cfg st)
  else
    let m := MenuScreen (ECReverse cfg) 6 0 (first_edges prompt) (rest_edges prompt)
               (after_edges prompt) e in
    (DeleteTipScreen (fst (fst m)) t, snd m, beep cfg st).

(** [void AddTipScreen()], the name entered with the encoder. *)
Definition AddTipScreen_run (cfg : Settings) (digits : Z -> Polls) (message : list (Z * Z))
    (t : TipStore) (e : Encoder) (st : Ctl) : TipStore * Encoder * Ctl :=
  if NumberOfTips t <? TIPMAX then
    let r := InputNameScreen_entry (ECReverse cfg) digits e in
    (AddTipScreen (fst r) t, snd r,
     Nat.iter (Z.to_nat (TIPNAMELENGTH - 1)) (beep cfg) st)
  else (t, run_edges message e, beep cfg st).

(** What the user and the iron do in one round of the tip menu: the edges
    during the menu and during the screen it leads to, the rounds of the
    steps of a calibration, and the conversions of the chip temperature
    at its end. *)
Record TipTurn := {
  tip_menu : Polls;
  tip_change : Polls;
  tip_steps : Z -> Passes;
  tip_chip : Z -> Z;
  tip_prompt : Polls;
  tip_digits : Z -> Polls;
  tip_message : list (Z * Z)
}.

(** [void TipScreen()], over the rounds of its [while (repeat)] loop the
    user goes through: the tip store, the encoder and the control
    globals it leaves, [None] when a calibration does not return;
    [sizeof(TipItems)] is 14.  The loop ends when the selection is
    ["Return"].  [MenuScreen] and [ChangeTipScreen] end with a beep. *)
Fixpoint TipScreen_loop (fuel : nat) (cfg : Settings) (turns : list TipTurn)
    (selection : Z) (t : TipStore) (e : Encoder) (st : Ctl)
  : option (TipStore * Encoder * Ctl) :=
  match turns with
  | [] => Some (t, e, st)
  | u :: turns' =>
      let m := MenuScreen (ECReverse cfg) 14 selection (first_edges (tip_menu u))
                 (rest_edges (tip_menu u)) (after_edges (tip_menu u)) e in
      let selection := fst (fst m) in
      let e := snd m in
      let st := beep cfg st in
      if selection =? 0 then
        let r := ChangeTipScreen (ECReverse cfg) (first_edges (tip_change u))
                   (rest_edges (tip_change u)) (after_edges (tip_change u)) e t in
        TipScreen_loop fuel cfg turns' selection (fst r) (snd r) (beep cfg st)
      else if selection =? 1 then
        match CalibrationScreen_run fuel cfg (tip_steps u) (tip_chip u)
                (tip_prompt u) t e st with
        | Some r =>
            TipScreen_loop fuel cfg turns' selection (fst (fst r)) (snd (fst r)) (snd r)
        | None => None
        end
      else if selection =? 2 then
        let r := InputNameScreen_run cfg (tip_digits u) t e st in
        TipScreen_loop fuel cfg turns' selection (fst (fst r)) (snd (fst r)) (snd r)
      else if selection =? 3 then
        let r := DeleteTipScreen_run cfg (tip_prompt u) (tip_message u) t e st in
        TipScreen_loop fuel cfg turns' selection (fst (fst r)) (snd (fst r)) (snd r)
      else if selection =? 4 then
        let r := AddTipScreen_run cfg (tip_digits u) (tip_message u) t e st in
        TipScreen_loop fuel cfg turns' selection (fst (fst r)) (snd (fst r)) (snd r)
      else Some (t, e, st)
  end.

Definition TipScreen (fuel : nat) (cfg : Settings) (turns : list TipTurn)
    (t : TipStore) (e : Encoder) (st : Ctl) : option (TipStore * Encoder * Ctl) :=
  TipScreen_loop fuel cfg turns 0 t e st.

(** The calibration points of a tip lie within the range of the
    calibration screen, more than 10 apart in increasing order. *)
Definition cal_ok (row : list Z) : Prop :=
  100 <= row !!! 0%nat /\
  row !!! 0%nat + 10 < row !!! 1%nat /\
  row !!! 1%nat + 10 < row !!! 2%nat /\
  row !!! 2%nat <= 500.

(** A tip name is a string of at most five characters from space to
    underscore, with its terminating zero inside the array. *)
Definition name_ok (row : list Z) : Prop :=
  row !!! 5%nat = 0 /\
  forall j, 0 <= j < 5 -> row !!! Z.to_nat j = 0 \/ 32 <= row !!! Z.to_nat j <= 95.

(** The tip store as the tip menu keeps it: values that fit their C
    types, at least one tip, the selected tip among the tips, and every
    tip with a valid calibration and name. *)
Definition tips_ok (t : TipStore) : Prop :=
  TipStore_wf t /\
  1 <= NumberOfTips t /\
  0 <= CurrentTip t < NumberOfTips t /\
  forall i, 0 <= i < NumberOfTips t ->
    cal_ok (CalTemp t !!! Z.to_nat i) /\ name_ok (TipName t !!! Z.to_nat i).

(* ===================================================================== *)
(** * The setup menu *)
(* ===================================================================== *)

Definition with_options (scr : Z) (pid buzzer flip reverse : bool) (s : Settings)
  : Settings :=
  {| DefaultTemp := DefaultTemp s; SleepTemp := SleepTemp s; BoostTemp := BoostTemp s;
     time2sleep := time2sleep s; time2off := time2off s;
     timeOfBoost := timeOfBoost s; MainScrType := scr;
     PIDenable := pid; beepEnable := buzzer;
     BodyFlip := flip; ECReverse := reverse |}.

(** [Vcc = vcc; Vin = vin;]. *)
Definition set_supply (vcc vin : Z) (st : Ctl) : Ctl :=
  {| SetTemp := SetTemp st; ShowTemp := ShowTemp st; Input := Input st;
     Output := Output st; Setpoint := Setpoint st; RawTemp := RawTemp st;
     CurrentTemp := CurrentTemp st; CJTemp := CJTemp st; Vcc := vcc; Vin := vin;
     inSleepMode := inSleepMode st; inOffMode := inOffMode st;
     inBoostMode := inBoostMode st; isWorky := isWorky st;
     beepIfWorky := beepIfWorky st; TipIsPresent := TipIsPresent st;
     SensorCounter := SensorCounter st; ctrl := ctrl st;
     CONTROL_PIN := CONTROL_PIN st;
     heater_writes := heater_writes st;
     beeps := beeps st |}.

(** One pass of the loop of [InfoScreen]: [Vcc = getVCC(); Vin = getVIN();]
    (the chip temperature is read and shown only); [adc] are the
    conversions of the reference and of the supply pin. *)
Definition InfoScreen_pass (adc : (Z -> Z) * (Z -> Z)) (st : Ctl) : Ctl :=
  let vcc := getVCC (fst adc) in
  set_supply vcc (getVIN vcc (snd adc)) st.

(** [void InfoScreen()], over the passes of its loop, and its beep. *)
Definition InfoScreen (cfg : Settings) (first : (Z -> Z) * (Z -> Z))
    (rest : list ((Z -> Z) * (Z -> Z))) (st : Ctl) : Ctl :=
  beep cfg (fold_left (fun st adc => InfoScreen_pass adc st) (first :: rest) st).

(** The number of beeps of [TempScreen]: one at the end of each menu and
    one at the end of each input screen. *)
Fixpoint TempScreen_beeps (turns : list Turn) (selection : Z) (s : Settings) (e : Encoder)
  : nat :=
  match turns with
  | [] => 0
  | u :: turns' =>
      let m := MenuScreen (ECReverse s) 10 selection
                 (menu_first u) (menu_rest u) (menu_after u) e in
      let selection := fst (fst m) in
      let e := snd m in
      if selection =? 0 then
        let e := setRotary (ECReverse s) TEMP_MIN TEMP_MAX TEMP_STEP (DefaultTemp s) e in
        let v := InputScreen (input_before u) (input_after u) e in
        S (S (TempScreen_beeps turns' selection
                (with_temps (fst v) (SleepTemp s) (BoostTemp s) s) (snd v)))
      else if selection =? 1 then
        let e := setRotary (ECReverse s) 20 200 TEMP_STEP (SleepTemp s) e in
        let v := InputScreen (input_before u) (input_after u) e in
        S (S (TempScreen_beeps turns' selection
                (with_temps (DefaultTemp s) (fst v) (BoostTemp s) s) (snd v)))
      else if selection =? 2 then
        let e := setRotary (ECReverse s) 10 100 TEMP_STEP (BoostTemp s) e in
        let v := InputScreen (input_before u) (input_after u) e in
        S (S (TempScreen_beeps turns' selection
                (with_temps (DefaultTemp s) (SleepTemp s) (uint8 (fst v)) s) (snd v)))
      else 1%nat
  end.

(** The number of beeps of [TimerScreen], likewise. *)
Fixpoint TimerScreen_beeps (turns : list Turn) (selection : Z) (s : Settings) (e : Encoder)
  : nat :=
  match turns with
  | [] => 0
  | u :: turns' =>
      let m := MenuScreen (ECReverse s) 10 selection
                 (menu_first u) (menu_rest u) (menu_after u) e in
      let selection := fst (fst m) in
      let e := snd m in
      if selection =? 0 then
        let e := setRotary (ECReverse s) 0 30 1 (time2sleep s) e in
        let v := InputScreen (input_before u) (input_after u) e in
        S (S (TimerScreen_beeps turns' selection
                (with_timers (uint8 (fst v)) (time2off s) (timeOfBoost s) s) (snd v)))
      else if selection =? 1 then
        let e := setRotary (ECReverse s) 0 60 5 (time2off s) e in
        let v := InputScreen (input_before u) (input_after u) e in
        S (S (TimerScreen_beeps turns' selection
                (with_timers (time2sleep s) (uint8 (fst v)) (timeOfBoost s) s) (snd v)))
      else if selection =? 2 then
        let e := setRotary (ECReverse s) 0 180 10 (timeOfBoost s) e in
        let v := InputScreen (input_before u) (input_after u) e in
        S (S (TimerScreen_beeps turns' selection
                (with_timers (time2sleep s) (time2off s) (uint8 (fst v)) s) (snd v)))
      else 1%nat
  end.

(** What the user and the iron do in one round of the setup menu: the
    edges during the menu, and what is done in the screen it leads to;
    [setup_option] are the edges during the two-way menus of the cases 3
    to 7, [setup_info] those during [InfoScreen], and [info_first] and
    [info_rest] the conversions of the passes of its loop. *)
Record SetupTurn := {
  setup_menu : Polls;
  setup_tips : list TipTurn;
  setup_temps : list Turn;
  setup_timers : list Turn;
  setup_option : Polls;
  setup_info : list (Z * Z);
  info_first : (Z -> Z) * (Z -> Z);
  info_rest : list ((Z -> Z) * (Z -> Z))
}.

(** The [while (repeat)] loop of [SetupScreen], over the rounds the user
    goes through: the settings, the tip store, the encoder and the
    control globals it leaves, [None] when a calibration does not return;
    [sizeof(SetupItems)] is 22 and that of the two-way menus is 6.  The
    loop ends after [TipScreen] and on ["Return"].  Every menu ends with
    a beep, under the buzzer setting of that moment. *)
Fixpoint SetupScreen_loop (fuel : nat) (turns : list SetupTurn) (selection : Z)
    (s : Settings) (t : TipStore) (e : Encoder) (st : Ctl)
  : option (Settings * TipStore * Encoder * Ctl) :=
  match turns with
  | [] => Some (s, t, e, st)
  | u :: turns' =>
      let m := MenuScreen (ECReverse s) 22 selection (first_edges (setup_menu u))
                 (rest_edges (setup_menu u)) (after_edges (setup_menu u)) e in
      let selection := fst (fst m) in
      let e := snd m in
      let st := beep s st in
      let option := fun selected =>
        MenuScreen (ECReverse s) 6 selected (first_edges (setup_option u))
          (rest_edges (setup_option u)) (after_edges (setup_option u)) e in
      if selection =? 0 then
        match TipScreen fuel s (setup_tips u) t e st with
        | Some r => Some (s, fst (fst r), snd (fst r), snd r)
        | None => None
        end
      else if selection =? 1 then
        let r := TempScreen (setup_temps u) s e in
        SetupScreen_loop fuel turns' selection (fst r) t (snd r)
          (Nat.iter (TempScreen_beeps (setup_temps u) 0 s e) (beep s) st)
      else if selection =? 2 then
        let r := TimerScreen (setup_timers u) s e in
        SetupScreen_loop fuel turns' selection (fst r) t (snd r)
          (Nat.iter (TimerScreen_beeps (setup_timers u) 0 s e) (beep s) st)
      else if selection =? 3 then
        let r := option (of_bool (PIDenable s)) in
        SetupScreen_loop fuel turns' selection
          (with_options (MainScrType s) (to_bool (fst (fst r))) (beepEnable s)
             (BodyFlip s) (ECReverse s) s) t (snd r) (beep s st)
      else if selection =? 4 then
        let r := option (MainScrType s) in
        SetupScreen_loop fuel turns' selection
          (with_options (fst (fst r)) (PIDenable s) (beepEnable s)
             (BodyFlip s) (ECReverse s) s) t (snd r) (beep s st)
      else if selection =? 5 then
        let r := option (of_bool (beepEnable s)) in
        SetupScreen_loop fuel turns' selection
          (with_options (MainScrType s) (PIDenable s) (to_bool (fst (fst r)))
             (BodyFlip s) (ECReverse s) s) t (snd r) (beep s st)
      else if selection =? 6 then
        let r := option (of_bool (BodyFlip s)) in
        SetupScreen_loop fuel turns' selection
          (with_options (MainScrType s) (PIDenable s) (beepEnable s)
             (to_bool (fst (fst r))) (ECReverse s) s) t (snd r) (beep s st)
      else if selection =? 7 then
        let r := option (of_bool (ECReverse s)) in
        SetupScreen_loop fuel turns' selection
          (with_options (MainScrType s) (PIDenable s) (beepEnable s)
             (BodyFlip s) (to_bool (fst (fst r))) s) t (snd r) (beep s st)
      else if selection =? 8 then
        SetupScreen_loop fuel turns' selection s t (run_edges (setup_info u) e)
          (InfoScreen s (info_first u) (info_rest u) st)
      else Some (s, t, e, st)
  end.

(** [void SetupScreen()]: the heater shut off and a beep, the set
    temperature saved, the menu loop, [updateEEPROM()], the set
    temperature restored and the encoder set up for it again.  The
    result is the settings, the tip store, the encoder, the control
    globals and the EEPROM; [None] when a calibration does not return. *)
Definition SetupScreen (fuel : nat) (turns : list SetupTurn)
    (s : Settings) (t : TipStore) (e : Encoder) (st : Ctl) (rom : gmap Z Z)
  : option (Settings * TipStore * Encoder * Ctl * gmap Z Z) :=
  let SaveSetTemp := SetTemp st in
  match SetupScreen_loop fuel turns 0 s t e (beep s (analogWrite HEATER_OFF st)) with
  | Some (s', t', e', st') =>
      Some (s', t',
            setRotary (ECReverse s') TEMP_MIN TEMP_MAX TEMP_STEP SaveSetTemp e',
            set_SetTemp SaveSetTemp st',
            updateEEPROM s' t' rom)
  | None => None
  end.


(* ===================================================================== *)
(** * Facts about loops and machine integers *)
(* ===================================================================== *)

Lemma for_loop_last {St : Type} (n : nat) (i : Z) (body : Z -> St -> St) (s : St) :
  for_loop (S n) i body s = body (i + Z.of_nat n) (for_loop n i body s).
Proof.
  revert i s. induction n as [|n IH]; intros i s.
  - simpl. by rewrite Z.add_0_r.
  - change (for_loop (S (S n)) i body s) with (for_loop (S n) (i + 1) body (body i s)).
    rewrite IH. simpl for_loop at 2.
    f_equal. lia.
Qed.

Lemma uint16_small (z : Z) : 0 <= z < 65536 -> uint16 z = z.
Proof. intros H. unfold uint16. by apply Z.mod_small. Qed.

Lemma uint8_small (z : Z) : 0 <= z < 256 -> uint8 z = z.
Proof. intros H. unfold uint8. by apply Z.mod_small. Qed.

Lemma int16_small (z : Z) : -32768 <= z < 32768 -> int16 z = z.
Proof. intros H. unfold int16. rewrite Z.mod_small; lia. Qed.

Lemma constrain_bounds (x lo hi : Z) : lo <= hi -> lo <= constrain x lo hi <= hi.
Proof.
  intros H. unfold constrain.
  destruct (Z.ltb_spec x lo); [lia|].
  destruct (Z.ltb_spec hi x); lia.
Qed.

Lemma Qltb_lt (x y : Q) : Qltb x y = true <-> (x < y)%Q.
Proof.
  unfold Qltb. rewrite negb_true_iff.
  split.
  - intros H. apply Qnot_le_lt. intros Hle.
    apply Qle_bool_iff in Hle. congruence.
  - intros H. destruct (Qle_bool y x) eqn:E; [|done].
    apply Qle_bool_iff in E. exfalso. by apply (Qlt_not_le x y).
Qed.

(** Comparing after moving a term across: [c + k < s] iff [k < s - c]. *)
Lemma Qltb_shift (c k s : Q) : Qltb (c + k) s = Qltb k (s - c).
Proof.
  destruct (Qltb (c + k) s) eqn:E1, (Qltb k (s - c)) eqn:E2; try done.
  - apply Qltb_lt in E1. assert (k < s - c)%Q as H by lra.
    apply Qltb_lt in H. congruence.
  - apply Qltb_lt in E2. assert (c + k < s)%Q as H by lra.
    apply Qltb_lt in H. congruence.
Qed.

(* ===================================================================== *)
(** * Analog acquisition: averaging *)
(* ===================================================================== *)

Section Acquisition.

Variable ADC : Z -> Z.

Lemma sample_loop_S (n : nat) :
  sample_loop (S n) ADC = uint16 (sample_loop n ADC + ADC (Z.of_nat n)).
Proof. unfold sample_loop. by rewrite for_loop_last. Qed.

(** The accumulator holds the sum modulo 2^16, whatever the samples. *)
Lemma sample_loop_mod (n : nat) :
  sample_loop n ADC = uint16 (sum_samples n ADC).
Proof.
  induction n as [|n IH]; [done|].
  rewrite sample_loop_S, IH. simpl sum_samples.
  unfold uint16. by rewrite Zplus_mod_idemp_l.
Qed.

Lemma sum_samples_bounds (n : nat) :
  ten_bit ADC -> (n <= 32)%nat ->
  0 <= sum_samples n ADC <= 1023 * Z.of_nat n.
Proof.
  intros Hten. induction n as [|n IH]; intros Hn; [simpl; lia|].
  simpl sum_samples.
  specialize (Hten (Z.of_nat n)). lia.
Qed.

Lemma sample_loop_exact (n : nat) :
  ten_bit ADC -> (n <= 32)%nat -> sample_loop n ADC = sum_samples n ADC.
Proof.
  intros Hten Hn. rewrite sample_loop_mod.
  apply uint16_small.
  pose proof (sum_samples_bounds n Hten Hn). lia.
Qed.

End Acquisition.

(** C10: with ten-bit conversions the 16-bit accumulator of
    [denoiseAnalog] never wraps: before every addition the accumulator is
    the exact sum of the samples taken so far and the addition stays at or
    below 32 * 1023 = 32736 < 2^16; the function returns the floor of the
    arithmetic mean of the 32 samples. *)
Theorem denoiseAnalog_no_overflow (ADC : Z -> Z) :
  ten_bit ADC ->
  (forall n : nat, (n < 32)%nat ->
     sample_loop n ADC = sum_samples n ADC /\
     0 <= sample_loop n ADC + ADC (Z.of_nat n) <= 32736 /\
     sample_loop (S n) ADC = sample_loop n ADC + ADC (Z.of_nat n)) /\
  32736 < 2 ^ 16 /\
  denoiseAnalog ADC = sum_samples 32 ADC / 32.
Proof.
  intros Hten. split; [|split; [done|]].
  - intros n Hn.
    assert (sample_loop n ADC = sum_samples n ADC) as Hex
      by (apply sample_loop_exact; [done | lia]).
    pose proof (sum_samples_bounds ADC (S n) Hten ltac:(lia)) as Hb.
    simpl sum_samples in Hb.
    repeat split; [done | lia | lia |].
    rewrite sample_loop_S. apply uint16_small. lia.
  - unfold denoiseAnalog. rewrite sample_loop_exact by (done || lia).
    by rewrite Z.shiftr_div_pow2.
Qed.

Lemma denoiseAnalog_no_overflow_witness :
  ten_bit (fun i => 1023 - i) /\ denoiseAnalog (fun i => 1023 - i) = 1007.
Proof.
  assert (ten_bit (fun i => 1023 - i)) as H by (intros i Hi; simpl; lia).
  split; [exact H|].
  destruct (denoiseAnalog_no_overflow (fun i => 1023 - i) H) as (_ & _ & ->).
  reflexivity.
Defined.

(** C9, the claim as stated fails on the chip-temperature path: with all
    32 conversions equal to 350 the sum shifted by 5 is 350, but
    [getChipTemp] shifts by 2 and works with 2800. *)
Lemma getChipTemp_shift_counterexample :
  Z.shiftr (sum_samples 32 (fun _ => 350)) 5 = 350 /\
  getChipTemp_result (fun _ => 350) = 2800 /\
  getChipTemp_result (fun _ => 350) <> Z.shiftr (sum_samples 32 (fun _ => 350)) 5.
Proof. repeat split; vm_compute; congruence. Qed.

(** C9 as amended: with ten-bit conversions, [denoiseAnalog] (tip sensor,
    reed switch, cold junction and input voltage) sums 32 conversions and
    shifts the sum by 5, the mean of the 32; [getVCC] sums 16 conversions
    and shifts by 4, the mean of the 16, which it then converts to
    millivolts; [getChipTemp] sums 32 conversions and shifts by 2, a
    quarter of the sum (eight times the mean), which it then converts to
    degrees. *)
Theorem acquisition_paths (ADC : Z -> Z) :
  ten_bit ADC ->
  (denoiseAnalog ADC = Z.shiftr (sum_samples 32 ADC) 5 /\
   denoiseAnalog ADC = sum_samples 32 ADC / 32) /\
  getColdJ ADC =
    uint16 (Qtruncate (inject_Z (sum_samples 32 ADC / 32) * (9 # 10) - (113836 # 1000))%Q) /\
  (getVCC_result ADC = Z.shiftr (sum_samples 16 ADC) 4 /\
   getVCC_result ADC = sum_samples 16 ADC / 16 /\
   getVCC ADC = uint16 (1125300 / (sum_samples 16 ADC / 16))) /\
  (getChipTemp_result ADC = Z.shiftr (sum_samples 32 ADC) 2 /\
   getChipTemp_result ADC = sum_samples 32 ADC / 4 /\
   getChipTemp ADC =
     (inject_Z (uint16 (sum_samples 32 ADC / 4 - 2594)) / (976 # 100))%Q).
Proof.
  intros Hten.
  assert (sample_loop 32 ADC = sum_samples 32 ADC) as H32
    by (apply sample_loop_exact; [done | lia]).
  assert (sample_loop 16 ADC = sum_samples 16 ADC) as H16
    by (apply sample_loop_exact; [done | lia]).
  assert (denoiseAnalog ADC = sum_samples 32 ADC / 32) as Hd
    by (unfold denoiseAnalog; rewrite H32; by rewrite Z.shiftr_div_pow2).
  assert (getVCC_result ADC = sum_samples 16 ADC / 16) as Hv
    by (unfold getVCC_result; rewrite H16; by rewrite Z.shiftr_div_pow2).
  assert (getChipTemp_result ADC = sum_samples 32 ADC / 4) as Hc
    by (unfold getChipTemp_result; rewrite H32; by rewrite Z.shiftr_div_pow2).
  repeat split; try done.
  - unfold denoiseAnalog. by rewrite H32.
  - unfold getColdJ. by rewrite Hd.
  - unfold getVCC_result. by rewrite H16.
  - unfold getVCC. by rewrite Hv.
  - unfold getChipTemp_result. by rewrite H32.
  - unfold getChipTemp. by rewrite Hc.
Qed.

Lemma acquisition_paths_witness :
  ten_bit (fun _ => 350) /\
  denoiseAnalog (fun _ => 350) = 350 /\
  getVCC_result (fun _ => 350) = 350 /\
  getChipTemp_result (fun _ => 350) = 2800.
Proof.
  assert (ten_bit (fun _ => 350)) as H by (intros i Hi; simpl; lia).
  split; [exact H|].
  destruct (acquisition_paths (fun _ => 350) H)
    as ((_ & Hd) & _ & (_ & Hv & _) & (_ & Hc & _)).
  rewrite Hd, Hv, Hc. repeat split; reflexivity.
Defined.

(* ===================================================================== *)
(** * Rotary encoder: range and clamping *)
(* ===================================================================== *)

Lemma getRotary_setRotary (reverse : bool) (rmin rmax rstep v : Z) (e : Encoder) :
  -16384 <= v <= 16383 ->
  getRotary (setRotary reverse rmin rmax rstep v e) = v.
Proof.
  intros Hv. unfold getRotary, setRotary, ROTARY_TYPE. simpl.
  rewrite Z.shiftl_mul_pow2 by lia.
  rewrite int16_small by lia.
  rewrite Z.shiftr_div_pow2 by lia.
  change (2 ^ 1) with 2. by rewrite Z.div_mul.
Qed.

(** C6, the claim as stated fails: [setRotary] stores the initial value
    as it is, so an initial value above the maximum is read back
    unchanged; and an initial value whose double does not fit the 16-bit
    [int] is not read back at all, also when it lies within the range. *)
Lemma setRotary_counterexample :
  (getRotary (setRotary false 0 10 1 20 boot_Encoder) = 20 /\
   clamp 20 0 10 = 10 /\
   getRotary (setRotary false 0 10 1 20 boot_Encoder) <> clamp 20 0 10) /\
  (getRotary (setRotary false 0 20000 1 20000 boot_Encoder) = -12768 /\
   clamp 20000 0 20000 = 20000).
Proof. repeat split; vm_compute; congruence. Qed.

(** C6 as amended: for [min <= max] and every [v] whose double fits the
    16-bit [int], [setRotary(min, max, step, v)] followed by
    [getRotary()] returns [v] itself; this is [clamp(v, min, max)] if and
    only if [min <= v <= max]: a value outside the range is not clamped. *)
Theorem setRotary_then_getRotary (reverse : bool) (rmin rmax rstep v : Z) (e : Encoder) :
  rmin <= rmax ->
  -16384 <= v <= 16383 ->
  getRotary (setRotary reverse rmin rmax rstep v e) = v /\
  (getRotary (setRotary reverse rmin rmax rstep v e) = clamp v rmin rmax <->
   rmin <= v <= rmax).
Proof.
  intros Hr Hv. rewrite getRotary_setRotary by done.
  split; [done|]. unfold clamp. lia.
Qed.

Lemma setRotary_then_getRotary_witness :
  getRotary (setRotary false TEMP_MIN TEMP_MAX TEMP_STEP 320 boot_Encoder) = 320 /\
  getRotary (setRotary false TEMP_MIN TEMP_MAX TEMP_STEP 320 boot_Encoder)
    = clamp 320 TEMP_MIN TEMP_MAX.
Proof.
  assert (TEMP_MIN <= TEMP_MAX) as Hr by (by vm_compute).
  destruct (setRotary_then_getRotary false TEMP_MIN TEMP_MAX TEMP_STEP 320
              boot_Encoder Hr ltac:(lia)) as [Hv Hiff].
  split; [exact Hv|]. apply Hiff. by vm_compute.
Defined.

Lemma PCINT0_vect_config (PINB PIND : Z) (e : Encoder) :
  countMin (PCINT0_vect PINB PIND e) = countMin e /\
  countMax (PCINT0_vect PINB PIND e) = countMax e /\
  countStep (PCINT0_vect PINB PIND e) = countStep e.
Proof.
  unfold PCINT0_vect.
  destruct (negb (Z.land PINB 1 =? a0 e)); [|done].
  by destruct (negb (Z.land (Z.shiftr PIND 7) 1 =? b0 e)).
Qed.

(** An edge on which the handler steps leaves the count within bounds. *)
Lemma PCINT0_vect_step_in_bounds (PINB PIND : Z) (e : Encoder) :
  countMin e <= countMax e ->
  Z.land PINB 1 <> a0 e ->
  Z.land (Z.shiftr PIND 7) 1 <> b0 e ->
  in_bounds (PCINT0_vect PINB PIND e).
Proof.
  intros Hle Ha Hb. unfold PCINT0_vect, in_bounds.
  apply Z.eqb_neq in Ha, Hb. rewrite Ha, Hb. simpl negb. cbv iota.
  simpl countMin. simpl countMax. simpl count.
  match goal with |- context [if ?c then _ else _] => destruct c end;
    by apply constrain_bounds.
Qed.

(** Every edge keeps a count that is within bounds within bounds. *)
Lemma PCINT0_vect_in_bounds (PINB PIND : Z) (e : Encoder) :
  countMin e <= countMax e ->
  in_bounds e ->
  in_bounds (PCINT0_vect PINB PIND e).
Proof.
  intros Hle Hin.
  destruct (Z.eq_dec (Z.land PINB 1) (a0 e)) as [Ha|Ha].
  - unfold PCINT0_vect. apply Z.eqb_eq in Ha. by rewrite Ha.
  - destruct (Z.eq_dec (Z.land (Z.shiftr PIND 7) 1) (b0 e)) as [Hb|Hb].
    + unfold PCINT0_vect. apply Z.eqb_neq in Ha. apply Z.eqb_eq in Hb.
      by rewrite Ha, Hb.
    + by apply PCINT0_vect_step_in_bounds.
Qed.

Lemma run_edges_in_bounds (edges : list (Z * Z)) (e : Encoder) :
  countMin e <= countMax e ->
  in_bounds e ->
  countMin (run_edges edges e) = countMin e /\
  countMax (run_edges edges e) = countMax e /\
  in_bounds (run_edges edges e).
Proof.
  revert e. induction edges as [|[PINB PIND] edges IH]; intros e Hle Hin; [done|].
  unfold run_edges. simpl fold_left.
  destruct (PCINT0_vect_config PINB PIND e) as (Hmin & Hmax & _).
  destruct (IH (PCINT0_vect PINB PIND e)) as (IH1 & IH2 & IH3).
  - by rewrite Hmin, Hmax.
  - by apply PCINT0_vect_in_bounds.
  - unfold run_edges in IH1, IH2. by rewrite IH1, IH2, Hmin, Hmax.
Qed.

(** C7, the claim as stated fails: a position that [setRotary] placed
    above the maximum stays there on an edge on which phase A changed and
    phase B did not, since the handler takes no step on it. *)
Lemma encoder_edge_counterexample :
  let e := PCINT0_vect 1 0 (setRotary false 0 10 1 20 boot_Encoder) in
  getRotary e = 20 /\ ~ (0 <= getRotary e <= 10) /\ ~ in_bounds e.
Proof.
  vm_compute. repeat split; [intros [_ H] | intros [_ H]]; by apply H.
Qed.

(** An edge on which one of the phases reads as recorded moves nothing. *)
Lemma PCINT0_vect_no_step (PINB PIND : Z) (e : Encoder) :
  Z.land PINB 1 = a0 e \/ Z.land (Z.shiftr PIND 7) 1 = b0 e ->
  count (PCINT0_vect PINB PIND e) = count e.
Proof.
  intros Hsame. unfold PCINT0_vect.
  destruct (Z.eqb_spec (Z.land PINB 1) (a0 e)) as [Ha|Ha]; [done|].
  destruct (Z.eqb_spec (Z.land (Z.shiftr PIND 7) 1) (b0 e)) as [Hb|Hb]; [done|].
  by destruct Hsame.
Qed.

(** C7 as amended: when the encoder is set up with [min <= v <= max]
    (all within the range whose double fits the 16-bit [int]), the
    position stays within [[min, max]] after every sequence of edges;
    every edge on which the handler takes a step (both phases differ from
    their recorded values) leaves the count within the configured bounds,
    wherever it was before; and an edge on which it takes no step (one of
    the phases reads as recorded) leaves the count, and so the position,
    as it was. *)
Theorem encoder_position_bounded
    (reverse : bool) (rmin rmax rstep v : Z) (e0 : Encoder) (edges : list (Z * Z)) :
  -16384 <= rmin -> rmin <= v <= rmax -> rmax <= 16383 ->
  rmin <= getRotary (run_edges edges (setRotary reverse rmin rmax rstep v e0)) <= rmax /\
  (forall (PINB PIND : Z) (e : Encoder),
     countMin e <= countMax e ->
     Z.land PINB 1 <> a0 e ->
     Z.land (Z.shiftr PIND 7) 1 <> b0 e ->
     in_bounds (PCINT0_vect PINB PIND e)) /\
  (forall (PINB PIND : Z) (e : Encoder),
     Z.land PINB 1 = a0 e \/ Z.land (Z.shiftr PIND 7) 1 = b0 e ->
     count (PCINT0_vect PINB PIND e) = count e /\
     getRotary (PCINT0_vect PINB PIND e) = getRotary e).
Proof.
  intros Hmin Hv Hmax. split; [|split].
  - set (e := setRotary reverse rmin rmax rstep v e0).
    assert (countMin e = 2 * rmin /\ countMax e = 2 * rmax /\ count e = 2 * v)
      as (Hcmin & Hcmax & Hc).
    { unfold e, setRotary, ROTARY_TYPE. simpl.
      rewrite !Z.shiftl_mul_pow2 by lia. change (2 ^ 1) with 2.
      rewrite !int16_small by lia. lia. }
    destruct (run_edges_in_bounds edges e) as (H1 & H2 & H3).
    + lia.
    + unfold in_bounds. lia.
    + unfold in_bounds in H3. rewrite H1, H2, Hcmin, Hcmax in H3.
      unfold getRotary, ROTARY_TYPE. rewrite Z.shiftr_div_pow2 by lia.
      change (2 ^ 1) with 2.
      split.
      * apply Z.div_le_lower_bound; lia.
      * apply Z.div_le_upper_bound; lia.
  - intros PINB PIND e. apply PCINT0_vect_step_in_bounds.
  - intros PINB PIND e Hsame.
    pose proof (PCINT0_vect_no_step PINB PIND e Hsame) as Hc.
    split; [done|]. unfold getRotary. by rewrite Hc.
Qed.

Lemma encoder_position_bounded_witness :
  150 <= getRotary (run_edges [(1, 128); (0, 0); (1, 0)]
                      (setRotary false 150 400 10 400 boot_Encoder)) <= 400.
Proof.
  exact (proj1 (encoder_position_bounded false 150 400 10 400 boot_Encoder
                  [(1, 128); (0, 0); (1, 0)] ltac:(lia) ltac:(lia) ltac:(lia))).
Defined.

(* ===================================================================== *)
(** * Two-dimensional arrays *)
(* ===================================================================== *)

Lemma array_dims_row (rows cols : Z) (A : list (list Z)) (i : Z) :
  array_dims rows cols A -> 0 <= i < rows ->
  (Z.to_nat i < length A)%nat /\ Z.of_nat (length (A !!! Z.to_nat i)) = cols.
Proof.
  intros [Hlen Hrows] Hi.
  assert (Z.to_nat i < length A)%nat as Hlt by lia.
  split; [done|].
  by apply (Forall_lookup_total_1 _ A (Z.to_nat i)) in Hrows.
Qed.

Lemma set2_dims (rows cols : Z) (A : list (list Z)) (i j v : Z) :
  array_dims rows cols A -> array_dims rows cols (set2 A i j v).
Proof.
  intros [Hlen Hrows]. unfold set2. split.
  - by rewrite length_insert.
  - destruct (decide (Z.to_nat i < length A)%nat) as [Hlt|Hge].
    + apply Forall_insert; [done|].
      rewrite length_insert.
      by apply (Forall_lookup_total_1 _ A (Z.to_nat i)) in Hrows.
    + rewrite list_insert_ge by lia. done.
Qed.

Lemma get2_set2_eq (rows cols : Z) (A : list (list Z)) (i j v : Z) :
  array_dims rows cols A -> 0 <= i < rows -> 0 <= j < cols ->
  get2 (set2 A i j v) i j = v.
Proof.
  intros Hd Hi Hj.
  destruct (array_dims_row rows cols A i Hd Hi) as [Hlt Hrow].
  unfold get2, set2.
  rewrite list_lookup_total_insert_eq by done.
  rewrite list_lookup_total_insert_eq by lia. done.
Qed.

Lemma get2_set2_ne (A : list (list Z)) (i j v i' j' : Z) :
  0 <= i -> 0 <= j -> 0 <= i' -> 0 <= j' ->
  i <> i' \/ j <> j' ->
  get2 (set2 A i j v) i' j' = get2 A i' j'.
Proof.
  intros Hi Hj Hi' Hj' Hne. unfold get2, set2.
  destruct (decide (i = i')) as [<-|Hii].
  - destruct (decide (Z.to_nat i < length A)%nat) as [Hlt|Hge].
    + rewrite list_lookup_total_insert_eq by done.
      rewrite list_lookup_total_insert_ne by lia. done.
    + rewrite list_insert_ge by lia. done.
  - rewrite list_lookup_total_insert_ne by lia. done.
Qed.

(** Writing the four cells of a row one by one replaces the row. *)
Lemma set_row4 (A : list (list Z)) (i v0 v1 v2 v3 : Z) :
  array_dims TIPMAX 4 A -> 0 <= i < TIPMAX ->
  for_range 0 4 (fun k cals => set2 cals i k ([v0; v1; v2; v3] !!! Z.to_nat k)) A =
  <[Z.to_nat i := [v0; v1; v2; v3]]> A.
Proof.
  intros Hd Hi.
  destruct (array_dims_row TIPMAX 4 A i Hd Hi) as [Hlt Hrow].
  unfold for_range. simpl. unfold set2.
  rewrite !list_lookup_total_insert_eq by (rewrite ?length_insert; done).
  rewrite !list_insert_insert_eq.
  destruct (A !!! Z.to_nat i) as [|x0 [|x1 [|x2 [|x3 [|x4 row]]]]];
    simpl in Hrow; try lia.
  done.
Qed.

(* ===================================================================== *)
(** * Tip menu: calibration, add and delete *)
(* ===================================================================== *)

Lemma calibration_valid_spec (r0 r1 r2 : Z) (chipADC : Z -> Z) :
  0 <= r0 < 65526 -> 0 <= r1 < 65526 -> 0 <= r2 < 65536 ->
  calibration_valid (CalTempNew r0 r1 r2 chipADC) = spec_accepts r0 r1 r2.
Proof.
  intros H0 H1 H2. unfold calibration_valid, CalTempNew, spec_accepts.
  simpl.
  by rewrite (uint16_small r0), (uint16_small r1), (uint16_small r2),
    (uint16_small (r0 + 10)), (uint16_small (r1 + 10)) by lia.
Qed.

(** C4, the claim as stated fails: a candidate that passes the check is
    stored only when the user answers Yes to ["Store Settings ?"]; on No
    the stored points stay as they were. *)
Lemma calibration_declined_counterexample :
  spec_accepts 220 310 395 = true /\
  selected_cal (CalibrationScreen 220 310 395 (fun _ => 350) 0 boot_TipStore)
    = [216; 308; 390; 30] /\
  selected_cal (CalibrationScreen 220 310 395 (fun _ => 350) 0 boot_TipStore)
    <> CalTempNew 220 310 395 (fun _ => 350).
Proof. repeat split; vm_compute; congruence. Qed.

(** C4 as amended: for candidate points in the 16-bit range (no wrap of
    [point + 10]) and a selected tip inside the store, [CalibrationScreen]
    replaces the calibration row of the selected tip by the three points
    and the chip temperature read at that time if and only if
    [point0 + 10 < point1], [point1 + 10 < point2] and the user confirms
    the store prompt; otherwise the store is unchanged.  With the prompt
    confirmed (216,308,390) is stored, (216,220,390) and (216,308,315)
    leave the store unchanged. *)
Theorem CalibrationScreen_stores_iff
    (r0 r1 r2 : Z) (chipADC : Z -> Z) (store : Z) (t : TipStore) :
  0 <= r0 < 65526 -> 0 <= r1 < 65526 -> 0 <= r2 < 65536 ->
  TipStore_dims t -> 0 <= CurrentTip t < TIPMAX ->
  (spec_accepts r0 r1 r2 = true -> store <> 0 ->
     CalibrationScreen r0 r1 r2 chipADC store t =
       with_CalTemp
         (<[Z.to_nat (CurrentTip t) :=
              [r0; r1; r2; uint16 (Qtruncate (getChipTemp chipADC))]]> (CalTemp t)) t /\
     selected_cal (CalibrationScreen r0 r1 r2 chipADC store t) =
       [r0; r1; r2; uint16 (Qtruncate (getChipTemp chipADC))]) /\
  (spec_accepts r0 r1 r2 = false \/ store = 0 ->
     CalibrationScreen r0 r1 r2 chipADC store t = t) /\
  (spec_accepts 216 308 390 = true /\
   spec_accepts 216 220 390 = false /\
   spec_accepts 216 308 315 = false).
Proof.
  intros H0 H1 H2 [Hcal Hname] Htip.
  pose proof (calibration_valid_spec r0 r1 r2 chipADC H0 H1 H2) as Hvalid.
  split; [|split; [|done]].
  - intros Hacc Hstore.
    assert (CalibrationScreen r0 r1 r2 chipADC store t =
            with_CalTemp
              (<[Z.to_nat (CurrentTip t) :=
                   [r0; r1; r2; uint16 (Qtruncate (getChipTemp chipADC))]]> (CalTemp t)) t)
      as Heq.
    { unfold CalibrationScreen. rewrite Hvalid, Hacc.
      unfold to_bool. apply Z.eqb_neq in Hstore. rewrite Hstore. simpl negb. cbv iota.
      f_equal. unfold CalTempNew.
      rewrite (uint16_small r0), (uint16_small r1), (uint16_small r2) by lia.
      by apply set_row4. }
    split; [done|].
    rewrite Heq. unfold selected_cal, with_CalTemp. simpl.
    destruct (array_dims_row TIPMAX 4 (CalTemp t) (CurrentTip t) Hcal Htip) as [Hlt _].
    by rewrite list_lookup_total_insert_eq.
  - intros [Hrej | ->]; unfold CalibrationScreen.
    + by rewrite Hvalid, Hrej.
    + by destruct (calibration_valid _).
Qed.

Lemma CalibrationScreen_stores_iff_witness :
  selected_cal (CalibrationScreen 216 308 390 (fun _ => 350) 1 boot_TipStore)
    = [216; 308; 390; 21] /\
  CalibrationScreen 216 220 390 (fun _ => 350) 1 boot_TipStore = boot_TipStore /\
  CalibrationScreen 216 308 315 (fun _ => 350) 1 boot_TipStore = boot_TipStore.
Proof.
  assert (TipStore_dims boot_TipStore) as Hd.
  { repeat split; repeat constructor. }
  assert (0 <= CurrentTip boot_TipStore < TIPMAX) as Ht by (vm_compute; split; congruence).
  split; [|split].
  - destruct (CalibrationScreen_stores_iff 216 308 390 (fun _ => 350) 1 boot_TipStore
                ltac:(lia) ltac:(lia) ltac:(lia) Hd Ht) as ((_ & H) & _).
    + reflexivity.
    + lia.
    + rewrite H. reflexivity.
  - apply (CalibrationScreen_stores_iff 216 220 390 (fun _ => 350) 1 boot_TipStore
             ltac:(lia) ltac:(lia) ltac:(lia) Hd Ht).
    left. reflexivity.
  - apply (CalibrationScreen_stores_iff 216 308 315 (fun _ => 350) 1 boot_TipStore
             ltac:(lia) ltac:(lia) ltac:(lia) Hd Ht).
    left. reflexivity.
Defined.

(** C5: [AddTipScreen] on a store that holds [TIPMAX] = 8 tips and
    [DeleteTipScreen] on a store that holds one tip return the store as it
    was: the count, the selected tip and every name and calibration value
    are unchanged. *)
Theorem add_full_delete_last_rejected (entered : Z -> Z) (sure : Z) (t : TipStore) :
  (NumberOfTips t = TIPMAX -> AddTipScreen entered t = t) /\
  (NumberOfTips t = 1 -> DeleteTipScreen sure t = t).
Proof.
  split; intros Hn.
  - unfold AddTipScreen. rewrite Hn. done.
  - unfold DeleteTipScreen. rewrite Hn. done.
Qed.

Lemma add_full_delete_last_rejected_witness :
  let full := Nat.iter 7 (AddTipScreen (fun d => 65 + d)) boot_TipStore in
  NumberOfTips full = 8 /\
  AddTipScreen (fun d => 70 + d) full = full /\
  DeleteTipScreen 1 boot_TipStore = boot_TipStore.
Proof.
  intros full.
  assert (NumberOfTips full = TIPMAX) as Hfull by reflexivity.
  split; [exact Hfull|]. split.
  - exact (proj1 (add_full_delete_last_rejected (fun d => 70 + d) 1 full) Hfull).
  - exact (proj2 (add_full_delete_last_rejected (fun d => 70 + d) 1 boot_TipStore)
             eq_refl).
Defined.

(* ===================================================================== *)
(** * Heater control *)
(* ===================================================================== *)

Lemma Qltb_false (x y : Q) : Qltb x y = false <-> (y <= x)%Q.
Proof.
  rewrite <- not_true_iff_false, Qltb_lt.
  split; [apply Qnot_lt_le | apply Qle_not_lt].
Qed.

(** Settle every comparison of the ladder with linear arithmetic. *)
Ltac ladder :=
  repeat match goal with
    | |- context [Qltb ?a ?b] =>
        let E := fresh "E" in
        destruct (Qltb a b) eqn:E;
        [apply Qltb_lt in E | apply Qltb_false in E];
        try (exfalso; lra)
    end;
  try reflexivity.

Lemma direct_Output_ladder (current setpoint : Q) :
  direct_Output current setpoint = spec_ladder (setpoint - current).
Proof. unfold direct_Output, spec_ladder. by rewrite !Qltb_shift. Qed.

(** C3, the claim as stated fails when the ladder is selected by the
    magnitude of the gap: with the tip 60 degrees above the setpoint the
    magnitude is 60 > 50, and the direct control turns the heater off.
    So does [Thermostat] on the state [setup] leaves with a tip reading of
    415: the setpoint is 320, the temperature 360.85, the magnitude of
    the gap 40.85 > 25, and the duty is 0, not 128. *)
Lemma direct_overshoot_counterexample :
  ((Qabs (300 - 360) == 60)%Q /\
   spec_ladder (Qabs (300 - 360)) = 255%Q /\
   direct_Output 360 300 = 0%Q /\
   direct_Output 360 300 <> spec_ladder (Qabs (300 - 360))) /\
  (let st := Thermostat boot_Settings 0
               (setup boot_Settings (fun _ => 225) (fun _ => 700) (fun _ => 160)
                  (fun _ => 415)) in
   (Setpoint st == 320)%Q /\
   (CurrentTemp st == 36085 # 100)%Q /\
   spec_ladder (Qabs (Setpoint st - CurrentTemp st)) = 128%Q /\
   Output st = 0%Q /\
   Output st <> spec_ladder (Qabs (Setpoint st - CurrentTemp st))).
Proof. repeat split; vm_compute; congruence. Qed.

(** C3 as amended: under the direct strategy the duty computed by
    [Thermostat] is the ladder applied to the signed gap
    [Setpoint - CurrentTemp] (setpoint of the current mode minus current
    temperature), so that a tip at or above the setpoint gets 0; it
    depends on nothing else in the state.  A gap of 20 gives 32, of 26
    gives 128, of 51 gives 255 and of 0.3 gives 0. *)
Theorem direct_ladder_signed_gap (cfg : Settings) (pid_out : Q) (st : Ctl) :
  PIDenable cfg = false ->
  Output (Thermostat cfg pid_out st) =
    spec_ladder (mode_Setpoint cfg st - CurrentTemp st) /\
  Setpoint (Thermostat cfg pid_out st) = mode_Setpoint cfg st /\
  CurrentTemp (Thermostat cfg pid_out st) = CurrentTemp st /\
  (forall current setpoint : Q,
     ((setpoint - current == 20)%Q -> direct_Output current setpoint = 32%Q) /\
     ((setpoint - current == 26)%Q -> direct_Output current setpoint = 128%Q) /\
     ((setpoint - current == 51)%Q -> direct_Output current setpoint = 255%Q) /\
     ((setpoint - current == 3 # 10)%Q -> direct_Output current setpoint = 0%Q) /\
     ((setpoint <= current)%Q -> direct_Output current setpoint = 0%Q)).
Proof.
  intros Hdirect.
  assert (forall s, Output (drive_heater s) = Output s /\
                    Setpoint (drive_heater s) = Setpoint s /\
                    CurrentTemp (drive_heater s) = CurrentTemp s) as Hdrive.
  { intros s. unfold drive_heater. by destruct (11000 <? Vin s). }
  unfold Thermostat.
  destruct (Hdrive (Thermostat_control cfg pid_out st)) as (-> & -> & ->).
  unfold Thermostat_control. simpl. rewrite Hdirect.
  split; [apply direct_Output_ladder|].
  split; [done|]. split; [done|].
  intros current setpoint.
  repeat split; intros Hgap; unfold direct_Output; ladder.
Qed.

Lemma direct_ladder_signed_gap_witness :
  Output (Thermostat boot_Settings 0 boot_Ctl) = 0%Q /\
  direct_Output 300 320 = 32%Q.
Proof.
  destruct (direct_ladder_signed_gap boot_Settings 0 boot_Ctl eq_refl)
    as (H & _ & _ & Hex).
  split.
  - rewrite H. reflexivity.
  - apply (Hex 300%Q 320%Q). reflexivity.
Defined.

(** The fault loop never changes what it tests. *)
Lemma fault_body_fields (cfg : Settings) (st : Ctl) :
  ShowTemp (fault_body cfg st) = ShowTemp st /\
  Vin (fault_body cfg st) = Vin st /\
  CONTROL_PIN (fault_body cfg st) = HEATER_OFF /\
  heater_writes (fault_body cfg st) = heater_writes st ++ [HEATER_OFF].
Proof. done. Qed.

Lemma fault_iter_fields (cfg : Settings) (n : nat) (st : Ctl) :
  ShowTemp (Nat.iter n (fault_body cfg) st) = ShowTemp st /\
  Vin (Nat.iter n (fault_body cfg) st) = Vin st /\
  (CONTROL_PIN st = HEATER_OFF ->
   CONTROL_PIN (Nat.iter n (fault_body cfg) st) = HEATER_OFF) /\
  heater_writes (Nat.iter n (fault_body cfg) st) =
    heater_writes st ++ replicate n HEATER_OFF.
Proof.
  induction n as [|n (IH1 & IH2 & IH3 & IH4)].
  - simpl. by rewrite app_nil_r.
  - simpl Nat.iter.
    destruct (fault_body_fields cfg (Nat.iter n (fault_body cfg) st))
      as (-> & -> & -> & ->).
    rewrite IH4, <- app_assoc.
    repeat split; try done.
    f_equal. change [HEATER_OFF] with (replicate 1 HEATER_OFF).
    rewrite <- replicate_add. f_equal. lia.
Qed.

(** While the displayed temperature is above 500 the loop does not end. *)
Lemma fault_loop_diverges (fuel : nat) (cfg : Settings) (st : Ctl) :
  500 < ShowTemp st -> fault_loop fuel cfg st = None.
Proof.
  revert st. induction fuel as [|fuel IH]; intros st Hshow; simpl.
  - apply Z.ltb_lt in Hshow. by rewrite Hshow.
  - pose proof Hshow as Hb. apply Z.ltb_lt in Hb. rewrite Hb.
    apply IH. by destruct (fault_body_fields cfg st) as (-> & _).
Qed.

(** At or below 500 the loop is not entered. *)
Lemma fault_loop_skipped (fuel : nat) (cfg : Settings) (st : Ctl) :
  ShowTemp st <= 500 -> fault_loop fuel cfg st = Some st.
Proof.
  intros Hshow. apply Z.ltb_ge in Hshow.
  destruct fuel; simpl; by rewrite Hshow.
Qed.

(** A loop that ends has run its body some number of times. *)
Lemma fault_loop_Some (fuel : nat) (cfg : Settings) (st st' : Ctl) :
  fault_loop fuel cfg st = Some st' ->
  exists n : nat, st' = Nat.iter n (fault_body cfg) st.
Proof.
  destruct (Z.le_gt_cases (ShowTemp st) 500) as [Hle|Hgt].
  - rewrite fault_loop_skipped by done. intros [= <-]. by exists 0%nat.
  - rewrite fault_loop_diverges by lia. done.
Qed.

(** C1 at a failing input: the station is set up with a healthy iron
    (tip reading 300, supply 19.5 V) and default settings; then the tip
    sensor opens and every conversion of the next [SENSORCheck] reads
    1023.  The displayed temperature becomes 869; [SENSORCheck] stays in
    its loop whatever the number of iterations allowed, with the heater
    off, and neither it nor the tick returns: nothing in the loop reads
    the sensor again. *)
Theorem SENSORCheck_fault_never_returns (fuel : nat) (pid_out : Q) :
  let st0 := setup boot_Settings (fun _ => 225) (fun _ => 700) (fun _ => 160)
               (fun _ => 300) in
  let r := steady_Readings 100 1023 160 700 in
  let st := SENSORCheck_measure boot_Settings r st0 in
  Vin st0 = 19505 /\
  ShowTemp st = 869 /\
  SENSORCheck fuel boot_Settings r st0 = None /\
  tick fuel boot_Settings r pid_out st0 = None /\
  (forall n : nat,
     ShowTemp (Nat.iter n (fault_body boot_Settings) st) = 869 /\
     CONTROL_PIN (Nat.iter (S n) (fault_body boot_Settings) st) = HEATER_OFF).
Proof.
  intros st0 r st.
  assert (Vin st0 = 19505) as Hvin by (vm_compute; reflexivity).
  assert (ShowTemp st = 869) as Hshow by (vm_compute; reflexivity).
  assert (500 < ShowTemp st) as Hfault by (rewrite Hshow; lia).
  assert (SENSORCheck fuel boot_Settings r st0 = None) as Hnone.
  { unfold SENSORCheck. fold st. by apply fault_loop_diverges. }
  split; [done|]. split; [done|]. split; [done|]. split.
  - unfold tick. by rewrite Hnone.
  - intros n.
    destruct (fault_iter_fields boot_Settings n st) as (-> & _ & _ & _).
    split; [done|]. simpl Nat.iter.
    by destruct (fault_body_fields boot_Settings
                   (Nat.iter n (fault_body boot_Settings) st)) as (_ & _ & -> & _).
Qed.

Lemma drive_heater_low (st : Ctl) : Vin st <= 11000 -> drive_heater st = st.
Proof. intros H. unfold drive_heater. apply Z.ltb_ge in H. by rewrite H. Qed.

Lemma drive_heater_Vin (st : Ctl) : Vin (drive_heater st) = Vin st.
Proof. unfold drive_heater. by destruct (11000 <? Vin st). Qed.

Lemma SLEEPCheck_heater (reed : Z -> Z) (st : Ctl) :
  CONTROL_PIN (SLEEPCheck reed st) = CONTROL_PIN st /\
  heater_writes (SLEEPCheck reed st) = heater_writes st.
Proof.
  unfold SLEEPCheck.
  destruct (denoiseAnalog reed <? 32); [done|].
  by destruct (denoiseAnalog reed <? 192).
Qed.

Lemma measure_heater (cfg : Settings) (temp : Z) (st : Ctl) :
  Vin (measure cfg temp st) = Vin st /\
  CONTROL_PIN (measure cfg temp st) = CONTROL_PIN st /\
  heater_writes (measure cfg temp st) = heater_writes st.
Proof. done. Qed.

Lemma refresh_supply_heater (r : Readings) (st : Ctl) :
  CONTROL_PIN (refresh_supply r st) = CONTROL_PIN st /\
  heater_writes (refresh_supply r st) = heater_writes st.
Proof. done. Qed.

(** With the supply at or below 11000 mV the sensing part of
    [SENSORCheck] writes the heater once, to shut it off. *)
Lemma SENSORCheck_measure_low (cfg : Settings) (r : Readings) (st : Ctl) :
  Vin (SENSORCheck_measure cfg r st) <= 11000 ->
  CONTROL_PIN (SENSORCheck_measure cfg r st) = HEATER_OFF /\
  heater_writes (SENSORCheck_measure cfg r st) = heater_writes st ++ [HEATER_OFF].
Proof.
  unfold SENSORCheck_measure. cbv zeta.
  destruct (measure_heater cfg (denoiseAnalog (sensor_ADC r))
              (drive_heater (refresh_supply r (SLEEPCheck (reed_ADC r)
                 (analogWrite HEATER_OFF st))))) as (-> & -> & ->).
  rewrite drive_heater_Vin. intros Hvin.
  rewrite (drive_heater_low _ Hvin).
  destruct (refresh_supply_heater r (SLEEPCheck (reed_ADC r)
              (analogWrite HEATER_OFF st))) as (-> & ->).
  by destruct (SLEEPCheck_heater (reed_ADC r) (analogWrite HEATER_OFF st)) as [-> ->].
Qed.

(** The supply voltage [SENSORCheck] works with: measured anew when the
    counter has run down, the stored value otherwise. *)
Lemma SENSORCheck_measure_Vin (cfg : Settings) (r : Readings) (st : Ctl) :
  Vin (SENSORCheck_measure cfg r st) =
    if SensorCounter st =? 0 then getVIN (Vcc st) (vin_ADC r) else Vin st.
Proof.
  unfold SENSORCheck_measure. cbv zeta.
  destruct (measure_heater cfg (denoiseAnalog (sensor_ADC r))
              (drive_heater (refresh_supply r (SLEEPCheck (reed_ADC r)
                 (analogWrite HEATER_OFF st))))) as (-> & _).
  rewrite drive_heater_Vin.
  set (s1 := SLEEPCheck (reed_ADC r) (analogWrite HEATER_OFF st)).
  assert (Vin (refresh_supply r s1) =
          if SensorCounter s1 =? 0 then getVIN (Vcc s1) (vin_ADC r) else Vin s1)
    as -> by done.
  assert (SensorCounter s1 = SensorCounter st /\ Vcc s1 = Vcc st /\ Vin s1 = Vin st)
    as (-> & -> & ->).
  { unfold s1, SLEEPCheck.
    destruct (denoiseAnalog (reed_ADC r) <? 32); [done|].
    by destruct (denoiseAnalog (reed_ADC r) <? 192). }
  done.
Qed.

(** C2, the claim as stated fails for the supply voltage itself: the
    firmware compares the variable [Vin], which [SENSORCheck] measures
    only on every 256th call.  After a start-up at 19.5 V the supply pin
    reads 100 (2786 mV, below the threshold), but the counter stands at
    255, [Vin] stays at 19505, and the tick drives the heater at full
    duty. *)
Lemma low_supply_stale_counterexample :
  let st0 := setup boot_Settings (fun _ => 225) (fun _ => 700) (fun _ => 160)
               (fun _ => 300) in
  let r := steady_Readings 100 300 160 100 in
  let st' := Thermostat boot_Settings 0 (SENSORCheck_measure boot_Settings r st0) in
  getVIN (Vcc st0) (vin_ADC r) = 2786 /\
  SensorCounter st0 = 255 /\
  tick 0 boot_Settings r 0 st0 = Some st' /\
  Vin st' = 19505 /\
  Output st' = 255%Q /\
  CONTROL_PIN st' = HEATER_ON /\
  writes_since st0 st' = [HEATER_OFF; HEATER_OFF; HEATER_ON].
Proof. by vm_compute. Qed.

(** C2: on every tick, when the supply voltage as the firmware last
    measured it does not exceed 11000 mV, every write to the heater
    during the tick shuts it off: the heater is off all through the
    sensing part and its fault loop, and a tick that completes ends with
    the heater off, whatever duty [Thermostat] computed, by the ladder or
    by the PID controller.  The supply voltage the tick works with is
    the one [getVIN] measures in this tick when [SensorCounter] has run
    down to 0, and the stored [Vin] on the other ticks.  Without a sensor
    fault the tick completes. *)
Theorem low_supply_heater_off (cfg : Settings) (r : Readings) (pid_out : Q) (st : Ctl) :
  let vin := if SensorCounter st =? 0 then getVIN (Vcc st) (vin_ADC r) else Vin st in
  vin <= 11000 ->
  Vin (SENSORCheck_measure cfg r st) = vin /\
  (forall n : nat,
     CONTROL_PIN (Nat.iter n (fault_body cfg) (SENSORCheck_measure cfg r st)) = HEATER_OFF /\
     writes_since st (Nat.iter n (fault_body cfg) (SENSORCheck_measure cfg r st)) =
       replicate (S n) HEATER_OFF) /\
  (forall (fuel : nat) (st' : Ctl),
     tick fuel cfg r pid_out st = Some st' ->
     CONTROL_PIN st' = HEATER_OFF /\
     writes_since st st' <> [] /\
     Forall (eq HEATER_OFF) (writes_since st st')) /\
  (ShowTemp (SENSORCheck_measure cfg r st) <= 500 ->
   forall fuel : nat,
     tick fuel cfg r pid_out st =
       Some (Thermostat cfg pid_out (SENSORCheck_measure cfg r st)) /\
     Thermostat cfg pid_out (SENSORCheck_measure cfg r st) =
       Thermostat_control cfg pid_out (SENSORCheck_measure cfg r st)).
Proof.
  cbv zeta. intros Hvin.
  rewrite <- SENSORCheck_measure_Vin with (cfg := cfg) in Hvin.
  split; [apply SENSORCheck_measure_Vin|].
  destruct (SENSORCheck_measure_low cfg r st Hvin) as [Hpin Hlog].
  set (s := SENSORCheck_measure cfg r st) in *.
  assert (forall n : nat,
            CONTROL_PIN (Nat.iter n (fault_body cfg) s) = HEATER_OFF /\
            writes_since st (Nat.iter n (fault_body cfg) s) = replicate (S n) HEATER_OFF)
    as Hloop.
  { intros n. destruct (fault_iter_fields cfg n s) as (_ & _ & Hp & Hw).
    split; [by apply Hp|].
    unfold writes_since. rewrite Hw, Hlog, <- app_assoc.
    by rewrite drop_app_length. }
  assert (forall s', Vin s' <= 11000 ->
            Thermostat cfg pid_out s' = Thermostat_control cfg pid_out s') as Hthermo.
  { intros s' Hs'. unfold Thermostat. by apply drive_heater_low. }
  split; [done|]. split.
  - intros fuel st' Htick. unfold tick, SENSORCheck in Htick. fold s in Htick.
    destruct (fault_loop fuel cfg s) as [s'|] eqn:Hfault; [|done].
    injection Htick as <-.
    destruct (fault_loop_Some fuel cfg s s' Hfault) as [n ->].
    destruct (Hloop n) as [Hp Hw].
    rewrite Hthermo
      by (by destruct (fault_iter_fields cfg n s) as (_ & -> & _)).
    change (CONTROL_PIN (Nat.iter n (fault_body cfg) s) = HEATER_OFF /\
            writes_since st (Nat.iter n (fault_body cfg) s) <> [] /\
            Forall (eq HEATER_OFF) (writes_since st (Nat.iter n (fault_body cfg) s))).
    rewrite Hw. split; [done|]. split; [done|].
    by apply Forall_replicate.
  - intros Hshow fuel. split.
    + unfold tick, SENSORCheck. fold s. by rewrite fault_loop_skipped.
    + by apply Hthermo.
Qed.

Lemma low_supply_heater_off_witness :
  let st0 := setup boot_Settings (fun _ => 225) (fun _ => 300) (fun _ => 160)
               (fun _ => 300) in
  let r := steady_Readings 100 300 160 300 in
  Vin (SENSORCheck_measure boot_Settings r st0) = 8359 /\
  (forall fuel : nat,
     tick fuel boot_Settings r 0 st0 =
       Some (Thermostat boot_Settings 0 (SENSORCheck_measure boot_Settings r st0))) /\
  Output (Thermostat boot_Settings 0 (SENSORCheck_measure boot_Settings r st0)) = 255%Q /\
  CONTROL_PIN (Thermostat boot_Settings 0 (SENSORCheck_measure boot_Settings r st0))
    = HEATER_OFF.
Proof.
  intros st0 r.
  assert ((if SensorCounter st0 =? 0 then getVIN (Vcc st0) (vin_ADC r) else Vin st0)
          <= 11000) as Hvin by (vm_compute; congruence).
  assert (ShowTemp (SENSORCheck_measure boot_Settings r st0) <= 500) as Hshow
    by (vm_compute; congruence).
  destruct (low_supply_heater_off boot_Settings r 0 st0 Hvin)
    as (Hused & _ & Hdone & Hrun).
  split; [rewrite Hused; by vm_compute|]. split; [|split].
  - intros fuel. exact (proj1 (Hrun Hshow fuel)).
  - vm_compute. reflexivity.
  - exact (proj1 (Hdone 0%nat _ (proj1 (Hrun Hshow 0%nat)))).
Defined.

(* ===================================================================== *)
(** * EEPROM image: what [updateEEPROM] writes *)
(* ===================================================================== *)

Lemma EEPROM_read_update_eq (a v : Z) (e : gmap Z Z) :
  EEPROM_read a (EEPROM_update a v e) = uint8 v.
Proof.
  unfold EEPROM_update.
  destruct (Z.eqb_spec (EEPROM_read a e) (uint8 v)) as [Heq|Hne]; [done|].
  unfold EEPROM_read. by rewrite lookup_insert_eq.
Qed.

Lemma EEPROM_read_update_ne (a b v : Z) (e : gmap Z Z) :
  a <> b -> EEPROM_read a (EEPROM_update b v e) = EEPROM_read a e.
Proof.
  intros Hne. unfold EEPROM_update.
  destruct (EEPROM_read b e =? uint8 v); [done|].
  unfold EEPROM_read. by rewrite lookup_insert_ne.
Qed.

(** Splitting a 16-bit value into two bytes and joining them again. *)
Lemma word_join (v : Z) :
  Z.lor (Z.shiftl (Z.shiftr v 8) 8) (Z.land v 255) = v.
Proof.
  apply Z.bits_inj'. intros n Hn.
  rewrite Z.lor_spec, Z.land_spec.
  change 255 with (Z.ones 8).
  destruct (Z.lt_ge_cases n 8) as [Hlt|Hge].
  - rewrite Z.shiftl_spec_low by done.
    rewrite Z.ones_spec_low by lia.
    by rewrite andb_true_r.
  - rewrite Z.shiftl_spec by done.
    rewrite Z.shiftr_spec by lia.
    rewrite Z.ones_spec_high by lia.
    rewrite andb_false_r, orb_false_r.
    f_equal. lia.
Qed.

Lemma word_bytes (v : Z) :
  is_uint16 v ->
  uint8 (Z.shiftr v 8) = Z.shiftr v 8 /\
  uint8 (Z.land v 255) = Z.land v 255 /\
  uint16 (Z.shiftl (Z.shiftr v 8) 8) = Z.shiftl (Z.shiftr v 8) 8.
Proof.
  intros Hv. unfold is_uint16 in Hv.
  rewrite Z.shiftl_mul_pow2, Z.shiftr_div_pow2 by lia.
  change 255 with (Z.ones 8). rewrite Z.land_ones by lia.
  change (2 ^ 8) with 256.
  assert (0 <= v / 256 < 256) as Hq
    by (split; [apply Z.div_pos | apply Z.div_lt_upper_bound]; lia).
  pose proof (Z.mod_pos_bound v 256 ltac:(lia)) as Hr.
  pose proof (Z.mul_div_le v 256 ltac:(lia)) as Hm.
  repeat split.
  - by apply uint8_small.
  - by apply uint8_small.
  - apply uint16_small. lia.
Qed.

(** The word read back from the two cells a 16-bit value was written to. *)
Lemma word_roundtrip (v : Z) :
  is_uint16 v ->
  uint16 (Z.lor (Z.shiftl (uint8 (Z.shiftr v 8)) 8) (uint8 (Z.land v 255))) = v /\
  Z.lor (uint16 (Z.shiftl (uint8 (Z.shiftr v 8)) 8)) (uint8 (Z.land v 255)) = v.
Proof.
  intros Hv. destruct (word_bytes v Hv) as (-> & -> & ->).
  rewrite word_join. split; [|done].
  by apply uint16_small.
Qed.

Lemma to_bool_of_bool (b : bool) : to_bool (uint8 (of_bool b)) = b.
Proof. by destruct b. Qed.

(** The name loop of one tip writes the six cells from [counter] on. *)
Lemma write_name_loop (t : TipStore) (i c : Z) (e : gmap Z Z) (n : nat) :
  let ce := for_loop n 0 (write_name t i) (c, e) in
  fst ce = c + Z.of_nat n /\
  (forall a, a < c \/ c + Z.of_nat n <= a -> EEPROM_read a (snd ce) = EEPROM_read a e) /\
  (forall j, 0 <= j < Z.of_nat n ->
     EEPROM_read (c + j) (snd ce) = uint8 (get2 (TipName t) i j)).
Proof.
  induction n as [|n IH].
  - simpl. repeat split; try done; intros; lia.
  - rewrite for_loop_last. cbv zeta in IH.
    destruct IH as (IHc & IHframe & IHrow).
    set (ce := for_loop n 0 (write_name t i) (c, e)) in *.
    cbv zeta. unfold write_name. simpl fst. simpl snd.
    rewrite IHc. rewrite Z.add_0_l.
    split; [lia|]. split.
    + intros a Ha. rewrite EEPROM_read_update_ne by lia. apply IHframe. lia.
    + intros j Hj. destruct (decide (j = Z.of_nat n)) as [->|Hne].
      * by rewrite EEPROM_read_update_eq.
      * rewrite EEPROM_read_update_ne by lia. apply IHrow. lia.
Qed.

(** The calibration loop of one tip writes two cells per value. *)
Lemma write_cal_loop (t : TipStore) (i c : Z) (e : gmap Z Z) (n : nat) :
  let ce := for_loop n 0 (write_cal t i) (c, e) in
  fst ce = c + 2 * Z.of_nat n /\
  (forall a, a < c \/ c + 2 * Z.of_nat n <= a ->
     EEPROM_read a (snd ce) = EEPROM_read a e) /\
  (forall j, 0 <= j < Z.of_nat n ->
     EEPROM_read (c + 2 * j) (snd ce) = uint8 (Z.shiftr (get2 (CalTemp t) i j) 8) /\
     EEPROM_read (c + 2 * j + 1) (snd ce) = uint8 (Z.land (get2 (CalTemp t) i j) 255)).
Proof.
  induction n as [|n IH].
  - simpl. repeat split; try done; intros; lia.
  - rewrite for_loop_last. cbv zeta in IH.
    destruct IH as (IHc & IHframe & IHrow).
    set (ce := for_loop n 0 (write_cal t i) (c, e)) in *.
    cbv zeta. unfold write_cal. simpl fst. simpl snd.
    rewrite IHc. rewrite Z.add_0_l.
    split; [lia|]. split.
    + intros a Ha. rewrite !EEPROM_read_update_ne by lia. apply IHframe. lia.
    + intros j Hj. destruct (decide (j = Z.of_nat n)) as [->|Hne].
      * rewrite EEPROM_read_update_ne by lia.
        by rewrite !EEPROM_read_update_eq.
      * rewrite !EEPROM_read_update_ne by lia. apply IHrow. lia.
Qed.

(** One tip takes fourteen cells: six of the name, eight of the values. *)
Lemma write_tip_spec (t : TipStore) (i c : Z) (e : gmap Z Z) :
  let ce := write_tip t i (c, e) in
  fst ce = c + 14 /\
  (forall a, a < c \/ c + 14 <= a -> EEPROM_read a (snd ce) = EEPROM_read a e) /\
  (forall j, 0 <= j < 6 ->
     EEPROM_read (c + j) (snd ce) = uint8 (get2 (TipName t) i j)) /\
  (forall j, 0 <= j < 4 ->
     EEPROM_read (c + 6 + 2 * j) (snd ce) = uint8 (Z.shiftr (get2 (CalTemp t) i j) 8) /\
     EEPROM_read (c + 6 + 2 * j + 1) (snd ce) = uint8 (Z.land (get2 (CalTemp t) i j) 255)).
Proof.
  unfold write_tip, for_range.
  change (Z.to_nat (TIPNAMELENGTH - 0)) with 6%nat.
  change (Z.to_nat (4 - 0)) with 4%nat.
  pose proof (write_name_loop t i c e 6) as H1.
  cbv zeta in H1. change (Z.of_nat 6) with 6 in H1.
  destruct (for_loop 6 0 (write_name t i) (c, e)) as [c1 e1].
  destruct H1 as (Hc1 & Hf1 & Hr1). simpl in Hc1, Hf1, Hr1. subst c1.
  pose proof (write_cal_loop t i (c + 6) e1 4) as H2.
  cbv zeta in H2. change (Z.of_nat 4) with 4 in H2.
  destruct (for_loop 4 0 (write_cal t i) (c + 6, e1)) as [c2 e2].
  destruct H2 as (Hc2 & Hf2 & Hr2). simpl in Hc2, Hf2, Hr2. subst c2.
  cbv zeta. simpl fst. simpl snd.
  split; [lia|]. split; [|split].
  - intros a Ha. rewrite Hf2 by lia. apply Hf1. lia.
  - intros j Hj. rewrite Hf2 by lia. apply Hr1. lia.
  - intros j Hj. apply (Hr2 j). lia.
Qed.

(** The tip loop of [updateEEPROM] lays the tips out from cell 17 on. *)
Lemma write_tips_spec (t : TipStore) (e : gmap Z Z) (n : nat) :
  let ce := for_loop n 0 (write_tip t) (17, e) in
  fst ce = 17 + 14 * Z.of_nat n /\
  (forall a, a < 17 \/ 17 + 14 * Z.of_nat n <= a ->
     EEPROM_read a (snd ce) = EEPROM_read a e) /\
  (forall i, 0 <= i < Z.of_nat n ->
     (forall j, 0 <= j < 6 ->
        EEPROM_read (17 + 14 * i + j) (snd ce) = uint8 (get2 (TipName t) i j)) /\
     (forall j, 0 <= j < 4 ->
        EEPROM_read (17 + 14 * i + 6 + 2 * j) (snd ce)
          = uint8 (Z.shiftr (get2 (CalTemp t) i j) 8) /\
        EEPROM_read (17 + 14 * i + 6 + 2 * j + 1) (snd ce)
          = uint8 (Z.land (get2 (CalTemp t) i j) 255))).
Proof.
  induction n as [|n IH].
  - simpl. repeat split; try done; intros; lia.
  - rewrite for_loop_last. cbv zeta in IH. rewrite Z.add_0_l.
    destruct (for_loop n 0 (write_tip t) (17, e)) as [c1 e1].
    destruct IH as (IHc & IHframe & IHtips).
    cbn [fst snd] in IHc, IHframe, IHtips. subst c1.
    pose proof (write_tip_spec t (Z.of_nat n) (17 + 14 * Z.of_nat n) e1) as Htip.
    cbv zeta in Htip. cbv zeta.
    destruct (write_tip t (Z.of_nat n) (17 + 14 * Z.of_nat n, e1)) as [c2 e2].
    cbn [fst snd] in Htip |- *.
    destruct Htip as (Hc & Hframe & Hname & Hcal).
    split; [lia|]. split.
    + intros a Ha. rewrite Hframe by lia. apply IHframe. lia.
    + intros i Hi. destruct (decide (i = Z.of_nat n)) as [->|Hne].
      * split; [apply Hname | apply Hcal].
      * destruct (IHtips i ltac:(lia)) as [IHname IHcal].
        split; intros j Hj.
        -- rewrite Hframe by lia. by apply IHname.
        -- rewrite !Hframe by lia. by apply IHcal.
Qed.

(** The image [updateEEPROM] leaves: the identifier cells are untouched,
    cells 2 to 16 hold the settings, and the tips follow from cell 17. *)
Lemma updateEEPROM_spec (s : Settings) (t : TipStore) (e : gmap Z Z) :
  0 <= NumberOfTips t ->
  let e' := updateEEPROM s t e in
  (EEPROM_read 0 e' = EEPROM_read 0 e /\ EEPROM_read 1 e' = EEPROM_read 1 e) /\
  (EEPROM_read 2 e' = uint8 (Z.shiftr (DefaultTemp s) 8) /\
   EEPROM_read 3 e' = uint8 (Z.land (DefaultTemp s) 255) /\
   EEPROM_read 4 e' = uint8 (Z.shiftr (SleepTemp s) 8) /\
   EEPROM_read 5 e' = uint8 (Z.land (SleepTemp s) 255) /\
   EEPROM_read 6 e' = uint8 (BoostTemp s) /\
   EEPROM_read 7 e' = uint8 (time2sleep s) /\
   EEPROM_read 8 e' = uint8 (time2off s) /\
   EEPROM_read 9 e' = uint8 (timeOfBoost s) /\
   EEPROM_read 10 e' = uint8 (MainScrType s) /\
   EEPROM_read 11 e' = uint8 (of_bool (PIDenable s)) /\
   EEPROM_read 12 e' = uint8 (of_bool (beepEnable s)) /\
   EEPROM_read 13 e' = uint8 (of_bool (BodyFlip s)) /\
   EEPROM_read 14 e' = uint8 (of_bool (ECReverse s)) /\
   EEPROM_read 15 e' = uint8 (CurrentTip t) /\
   EEPROM_read 16 e' = uint8 (NumberOfTips t)) /\
  (forall i, 0 <= i < NumberOfTips t ->
     (forall j, 0 <= j < 6 ->
        EEPROM_read (17 + 14 * i + j) e' = uint8 (get2 (TipName t) i j)) /\
     (forall j, 0 <= j < 4 ->
        EEPROM_read (17 + 14 * i + 6 + 2 * j) e'
          = uint8 (Z.shiftr (get2 (CalTemp t) i j) 8) /\
        EEPROM_read (17 + 14 * i + 6 + 2 * j + 1) e'
          = uint8 (Z.land (get2 (CalTemp t) i j) 255))).
Proof.
  intros Hn. unfold updateEEPROM, for_range. cbv zeta.
  rewrite Z.sub_0_r.
  match goal with
  | |- context [for_loop _ 0 (write_tip t) (17, ?e16)] =>
      pose proof (write_tips_spec t e16 (Z.to_nat (NumberOfTips t))) as Htips;
      cbv zeta in Htips;
      destruct (for_loop (Z.to_nat (NumberOfTips t)) 0 (write_tip t) (17, e16))
        as [c e']
  end.
  rewrite Z2Nat.id in Htips by done.
  cbn [fst snd] in Htips |- *.
  destruct Htips as (_ & Hframe & Htips).
  split; [|split; [|done]].
  - rewrite !Hframe by lia.
    by rewrite !EEPROM_read_update_ne by lia.
  - rewrite !Hframe by lia.
    repeat split;
      rewrite ?EEPROM_read_update_ne by lia; by rewrite EEPROM_read_update_eq.
Qed.

(* ===================================================================== *)
(** * EEPROM image: what [getEEPROM] reads *)
(* ===================================================================== *)

Lemma read_name_loop (e : gmap Z Z) (i c : Z) (names cals : list (list Z)) (n : nat) :
  array_dims TIPMAX TIPNAMELENGTH names -> 0 <= i < TIPMAX -> (n <= 6)%nat ->
  exists names',
    for_loop n 0 (read_name e i) (c, names, cals) = (c + Z.of_nat n, names', cals) /\
    array_dims TIPMAX TIPNAMELENGTH names' /\
    (forall j, 0 <= j < Z.of_nat n -> get2 names' i j = EEPROM_read (c + j) e) /\
    (forall i' j', 0 <= i' -> 0 <= j' -> i' <> i \/ Z.of_nat n <= j' ->
       get2 names' i' j' = get2 names i' j').
Proof.
  intros Hd Hi. induction n as [|n IH]; intros Hn.
  - exists names. simpl. rewrite Z.add_0_r.
    repeat split; try done; apply Hd || (intros; lia).
  - destruct IH as (names1 & Heq & Hd1 & Hrow & Hframe); [lia|].
    rewrite for_loop_last, Heq, Z.add_0_l. unfold read_name.
    exists (set2 names1 i (Z.of_nat n) (EEPROM_read (c + Z.of_nat n) e)).
    split; [f_equal; f_equal; lia|].
    split; [by apply set2_dims|]. split.
    + intros j Hj. destruct (decide (j = Z.of_nat n)) as [->|Hne].
      * apply (get2_set2_eq TIPMAX TIPNAMELENGTH); [done | done | ].
        unfold TIPNAMELENGTH. lia.
      * rewrite get2_set2_ne by lia. apply Hrow. lia.
    + intros i' j' Hi' Hj' Hne.
      rewrite get2_set2_ne by lia. apply Hframe; lia.
Qed.

(** The word [read_cal] assembles from the two cells at [c]. *)
Lemma read_cal_loop (e : gmap Z Z) (i c : Z) (names cals : list (list Z)) (n : nat) :
  array_dims TIPMAX 4 cals -> 0 <= i < TIPMAX -> (n <= 4)%nat ->
  exists cals',
    for_loop n 0 (read_cal e i) (c, names, cals) = (c + 2 * Z.of_nat n, names, cals') /\
    array_dims TIPMAX 4 cals' /\
    (forall j, 0 <= j < Z.of_nat n ->
       get2 cals' i j =
         Z.lor (uint16 (Z.shiftl (EEPROM_read (c + 2 * j) e) 8))
               (EEPROM_read (c + 2 * j + 1) e)) /\
    (forall i' j', 0 <= i' -> 0 <= j' -> i' <> i \/ Z.of_nat n <= j' ->
       get2 cals' i' j' = get2 cals i' j').
Proof.
  intros Hd Hi. induction n as [|n IH]; intros Hn.
  - exists cals. simpl. rewrite Z.add_0_r.
    repeat split; try done; apply Hd || (intros; lia).
  - destruct IH as (cals1 & Heq & Hd1 & Hrow & Hframe); [lia|].
    rewrite for_loop_last, Heq, Z.add_0_l. unfold read_cal.
    set (hi := uint16 (Z.shiftl (EEPROM_read (c + 2 * Z.of_nat n) e) 8)).
    set (lo := EEPROM_read (c + 2 * Z.of_nat n + 1) e).
    assert (get2 (set2 cals1 i (Z.of_nat n) hi) i (Z.of_nat n) = hi) as Hhi
      by (apply (get2_set2_eq TIPMAX 4); [done | done | lia]).
    rewrite Hhi.
    exists (set2 (set2 cals1 i (Z.of_nat n) hi) i (Z.of_nat n) (Z.lor hi lo)).
    split; [f_equal; f_equal; lia|].
    split; [by do 2 apply set2_dims|]. split.
    + intros j Hj. destruct (decide (j = Z.of_nat n)) as [->|Hne].
      * apply (get2_set2_eq TIPMAX 4); [by apply set2_dims | done | lia].
      * rewrite !get2_set2_ne by lia. apply Hrow. lia.
    + intros i' j' Hi' Hj' Hne.
      rewrite !get2_set2_ne by lia. apply Hframe; lia.
Qed.

Lemma read_tip_spec (e : gmap Z Z) (i c : Z) (names cals : list (list Z)) :
  array_dims TIPMAX TIPNAMELENGTH names -> array_dims TIPMAX 4 cals ->
  0 <= i < TIPMAX ->
  exists names' cals',
    read_tip e i (c, names, cals) = (c + 14, names', cals') /\
    array_dims TIPMAX TIPNAMELENGTH names' /\ array_dims TIPMAX 4 cals' /\
    (forall j, 0 <= j < 6 -> get2 names' i j = EEPROM_read (c + j) e) /\
    (forall j, 0 <= j < 4 ->
       get2 cals' i j =
         Z.lor (uint16 (Z.shiftl (EEPROM_read (c + 6 + 2 * j) e) 8))
               (EEPROM_read (c + 6 + 2 * j + 1) e)) /\
    (forall i' j', 0 <= i' -> 0 <= j' -> i' <> i ->
       get2 names' i' j' = get2 names i' j' /\ get2 cals' i' j' = get2 cals i' j').
Proof.
  intros Hdn Hdc Hi. unfold read_tip, for_range.
  change (Z.to_nat (TIPNAMELENGTH - 0)) with 6%nat.
  change (Z.to_nat (4 - 0)) with 4%nat.
  destruct (read_name_loop e i c names cals 6 Hdn Hi ltac:(lia))
    as (names' & -> & Hdn' & Hrow & Hframe).
  destruct (read_cal_loop e i (c + Z.of_nat 6) names' cals 4 Hdc Hi ltac:(lia))
    as (cals' & -> & Hdc' & Hrowc & Hframec).
  change (Z.of_nat 6) with 6 in *. change (Z.of_nat 4) with 4 in *.
  exists names', cals'.
  split; [f_equal; f_equal; lia|].
  split; [done|]. split; [done|]. split; [done|]. split; [done|].
  intros i' j' Hi' Hj' Hne. split.
  - apply Hframe; lia.
  - apply Hframec; lia.
Qed.

Lemma read_tips_spec (e : gmap Z Z) (names cals : list (list Z)) (n : nat) :
  array_dims TIPMAX TIPNAMELENGTH names -> array_dims TIPMAX 4 cals ->
  Z.of_nat n <= TIPMAX ->
  exists names' cals',
    for_loop n 0 (read_tip e) (17, names, cals)
      = (17 + 14 * Z.of_nat n, names', cals') /\
    array_dims TIPMAX TIPNAMELENGTH names' /\ array_dims TIPMAX 4 cals' /\
    (forall i, 0 <= i < Z.of_nat n ->
       (forall j, 0 <= j < 6 ->
          get2 names' i j = EEPROM_read (17 + 14 * i + j) e) /\
       (forall j, 0 <= j < 4 ->
          get2 cals' i j =
            Z.lor (uint16 (Z.shiftl (EEPROM_read (17 + 14 * i + 6 + 2 * j) e) 8))
                  (EEPROM_read (17 + 14 * i + 6 + 2 * j + 1) e))).
Proof.
  intros Hdn Hdc. induction n as [|n IH]; intros Hn.
  - exists names, cals. simpl. repeat split; try done; apply Hdn || apply Hdc || (intros; lia).
  - destruct IH as (names1 & cals1 & Heq & Hdn1 & Hdc1 & Htips); [lia|].
    rewrite for_loop_last, Heq, Z.add_0_l.
    destruct (read_tip_spec e (Z.of_nat n) (17 + 14 * Z.of_nat n) names1 cals1
                Hdn1 Hdc1 ltac:(lia))
      as (names' & cals' & -> & Hdn' & Hdc' & Hname & Hcal & Hframe).
    exists names', cals'.
    split; [f_equal; f_equal; lia|].
    split; [done|]. split; [done|].
    intros i Hi. destruct (decide (i = Z.of_nat n)) as [->|Hne].
    + split; [apply Hname | apply Hcal].
    + destruct (Htips i ltac:(lia)) as [Hn1 Hc1].
      split; intros j Hj.
      * destruct (Hframe i j ltac:(lia) ltac:(lia) Hne) as [-> _]. by apply Hn1.
      * destruct (Hframe i j ltac:(lia) ltac:(lia) Hne) as [_ ->]. by apply Hc1.
Qed.

(* ===================================================================== *)
(** * Persisting and loading *)
(* ===================================================================== *)

(** Loading the image of [(s, t)] behind a matching identifier. *)
Lemma getEEPROM_updateEEPROM
    (s s0 : Settings) (t t0 : TipStore) (e : gmap Z Z) :
  Settings_wf s -> TipStore_wf t -> TipStore_dims t0 ->
  read_word 0 e = EEPROM_IDENT ->
  exists t' : TipStore,
    getEEPROM s0 t0 (updateEEPROM s t e) = (s, t', updateEEPROM s t e) /\
    CurrentTip t' = CurrentTip t /\
    NumberOfTips t' = NumberOfTips t /\
    same_tips (NumberOfTips t) t t' /\
    TipStore_dims t'.
Proof.
  intros (Hs1 & Hs2 & Hs3 & Hs4 & Hs5 & Hs6 & Hs7)
         ((Hdc & Hdn) & Hcals & Hnames & Htip & Hn) (Hdc0 & Hdn0) Hident.
  destruct (updateEEPROM_spec s t e ltac:(lia)) as ((Hi0 & Hi1) & Hhdr & Htips).
  set (e' := updateEEPROM s t e) in *.
  destruct Hhdr as (H2 & H3 & H4 & H5 & H6 & H7 & H8 & H9 & H10 & H11 & H12 &
                    H13 & H14 & H15 & H16).
  assert (EEPROM_read 16 e' = NumberOfTips t) as Hcount
    by (rewrite H16; apply uint8_small; unfold TIPMAX in Hn; lia).
  destruct (read_tips_spec e' (TipName t0) (CalTemp t0) (Z.to_nat (NumberOfTips t))
              Hdn0 Hdc0 ltac:(lia))
    as (names' & cals' & Hloop & Hdn' & Hdc' & Hread).
  rewrite Z2Nat.id in Hloop, Hread by lia.
  exists {| CalTemp := cals'; TipName := names';
            CurrentTip := CurrentTip t; NumberOfTips := NumberOfTips t |}.
  split; [|split; [done|split; [done|split; [|done]]]].
  - unfold getEEPROM.
    assert (read_word 0 e' = EEPROM_IDENT) as ->.
    { rewrite <- Hident. unfold read_word. change (0 + 1) with 1.
      by rewrite Hi0, Hi1. }
    rewrite Z.eqb_refl. cbv zeta.
    rewrite Hcount. unfold for_range. rewrite Z.sub_0_r, Hloop.
    unfold read_word. change (2 + 1) with 3. change (4 + 1) with 5.
    rewrite H2, H3, H4, H5, H6, H7, H8, H9, H10, H11, H12, H13, H14, H15.
    rewrite !to_bool_of_bool.
    rewrite (proj1 (word_roundtrip _ Hs1)), (proj1 (word_roundtrip _ Hs2)).
    unfold is_uint8 in *.
    rewrite !uint8_small by done.
    by destruct s.
  - intros i Hi. simpl TipName. simpl CalTemp.
    destruct (Hread i Hi) as [Hrn Hrc].
    destruct (Htips i Hi) as [Hwn Hwc].
    assert (Z.to_nat i < length (TipName t))%nat as Hlen_n
      by (destruct Hdn as [Hl _]; lia).
    assert (Z.to_nat i < length (CalTemp t))%nat as Hlen_c
      by (destruct Hdc as [Hl _]; lia).
    split; intros j Hj.
    + rewrite Hrn, Hwn by done.
      apply uint8_small.
      destruct (array_dims_row _ _ _ i Hdn ltac:(lia)) as [_ Hrow].
      unfold get2.
      apply (Forall_lookup_total_1 _ _ (Z.to_nat i)) in Hnames; [|done].
      apply (Forall_lookup_total_1 _ _ (Z.to_nat j)) in Hnames; [done|].
      unfold TIPNAMELENGTH in Hrow, Hj. lia.
    + rewrite Hrc by done.
      destruct (Hwc j Hj) as [-> ->].
      apply word_roundtrip.
      destruct (array_dims_row _ _ _ i Hdc ltac:(lia)) as [_ Hrow].
      unfold get2.
      apply (Forall_lookup_total_1 _ _ (Z.to_nat i)) in Hcals; [|done].
      apply (Forall_lookup_total_1 _ _ (Z.to_nat j)) in Hcals; [done|].
      lia.
Qed.

(** Loading behind any other identifier writes the identifier and the
    image of the globals, and leaves the globals as they are. *)
Lemma getEEPROM_mismatch (s : Settings) (t : TipStore) (e : gmap Z Z) :
  read_word 0 e <> EEPROM_IDENT ->
  getEEPROM s t e =
    (s, t,
     updateEEPROM s t
       (EEPROM_update 1 (Z.land EEPROM_IDENT 255)
          (EEPROM_update 0 (Z.shiftr EEPROM_IDENT 8) e))).
Proof.
  intros Hne. unfold getEEPROM.
  apply Z.eqb_neq in Hne. by rewrite Hne.
Qed.

Lemma boot_wf : Settings_wf boot_Settings /\ TipStore_wf boot_TipStore.
Proof.
  split.
  - unfold Settings_wf, is_uint16, is_uint8. simpl. vm_compute.
    repeat split; congruence.
  - unfold TipStore_wf, TipStore_dims, array_dims, boot_TipStore.
    cbn [CalTemp TipName CurrentTip NumberOfTips]. simpl replicate.
    unfold TIPNAME, TEMP200, TEMP280, TEMP360, TEMPCHP, TIPMAX, TIPNAMELENGTH.
    repeat split; try lia;
      repeat (apply Forall_cons; split; [|]); try apply Forall_nil;
      try reflexivity; unfold is_uint16, is_uint8; try lia.
    all: repeat (apply Forall_cons; split; [lia|]); try apply Forall_nil; try done.
Qed.

(** Writing the identifier makes it the one [getEEPROM] looks for. *)
Lemma identifier_written (e : gmap Z Z) :
  read_word 0
    (EEPROM_update 1 (Z.land EEPROM_IDENT 255)
       (EEPROM_update 0 (Z.shiftr EEPROM_IDENT 8) e)) = EEPROM_IDENT.
Proof.
  unfold read_word. change (0 + 1) with 1.
  rewrite EEPROM_read_update_eq.
  rewrite EEPROM_read_update_ne by lia.
  rewrite EEPROM_read_update_eq.
  reflexivity.
Qed.

(** C8: persisting the settings and the tip store with [updateEEPROM]
    into an EEPROM that carries the identifier and loading it with
    [getEEPROM] gives back every setting and flag, the tip count, the
    selected tip and the name and four calibration values of every tip
    below the count, and leaves the EEPROM as persisted.  Loading from an
    EEPROM with another identifier, as [setup()] does with the globals
    still at their initialisers, leaves the globals at the defaults (the
    settings below and the single tip WMRT with 216, 308, 390, 30),
    writes the identifier and persists those defaults, so that a later
    load reads the defaults back. *)
Theorem persist_then_load :
  (forall (s s0 : Settings) (t t0 : TipStore) (e : gmap Z Z),
     Settings_wf s -> TipStore_wf t -> TipStore_dims t0 ->
     read_word 0 e = EEPROM_IDENT ->
     let loaded := getEEPROM s0 t0 (updateEEPROM s t e) in
     fst (fst loaded) = s /\
     CurrentTip (snd (fst loaded)) = CurrentTip t /\
     NumberOfTips (snd (fst loaded)) = NumberOfTips t /\
     same_tips (NumberOfTips t) t (snd (fst loaded)) /\
     snd loaded = updateEEPROM s t e) /\
  (forall e : gmap Z Z,
     read_word 0 e <> EEPROM_IDENT ->
     let e' :=
       updateEEPROM boot_Settings boot_TipStore
         (EEPROM_update 1 (Z.land EEPROM_IDENT 255)
            (EEPROM_update 0 (Z.shiftr EEPROM_IDENT 8) e)) in
     getEEPROM boot_Settings boot_TipStore e = (boot_Settings, boot_TipStore, e') /\
     read_word 0 e' = EEPROM_IDENT /\
     (forall (s0 : Settings) (t0 : TipStore),
        TipStore_dims t0 ->
        let again := getEEPROM s0 t0 e' in
        fst (fst again) = boot_Settings /\
        CurrentTip (snd (fst again)) = 0 /\
        NumberOfTips (snd (fst again)) = 1 /\
        same_tips 1 boot_TipStore (snd (fst again)))) /\
  (boot_Settings =
     {| DefaultTemp := 320; SleepTemp := 150; BoostTemp := 50;
        time2sleep := 5; time2off := 15; timeOfBoost := 40;
        MainScrType := 1; PIDenable := false; beepEnable := true;
        BodyFlip := false; ECReverse := false |} /\
   NumberOfTips boot_TipStore = 1 /\
   CurrentTip boot_TipStore = 0 /\
   TipName boot_TipStore !! 0%nat = Some [87; 77; 82; 84; 0; 0] /\
   CalTemp boot_TipStore !! 0%nat = Some [216; 308; 390; 30]).
Proof.
  split; [|split; [|done]].
  - intros s s0 t t0 e Hs Ht Ht0 Hident.
    destruct (getEEPROM_updateEEPROM s s0 t t0 e Hs Ht Ht0 Hident)
      as (t' & Heq & Htip & Hn & Hsame & _).
    cbv zeta. by rewrite Heq.
  - intros e Hne. cbv zeta.
    split; [by apply getEEPROM_mismatch|].
    set (e1 := EEPROM_update 1 (Z.land EEPROM_IDENT 255)
                 (EEPROM_update 0 (Z.shiftr EEPROM_IDENT 8) e)).
    pose proof (identifier_written e) as Hident. fold e1 in Hident.
    destruct boot_wf as [Hs Ht].
    split.
    + destruct (updateEEPROM_spec boot_Settings boot_TipStore e1 ltac:(done))
        as ((Hi0 & Hi1) & _).
      rewrite <- Hident. unfold read_word. change (0 + 1) with 1.
      by rewrite Hi0, Hi1.
    + intros s0 t0 Ht0.
      destruct (getEEPROM_updateEEPROM boot_Settings s0 boot_TipStore t0 e1
                  Hs Ht Ht0 Hident)
        as (t' & Heq & Htip & Hn & Hsame & _).
      by rewrite Heq.
Qed.

Lemma persist_then_load_witness :
  let e : gmap Z Z := {[0 := 231; 1 := 108]} in
  let s := {| DefaultTemp := 350; SleepTemp := 120; BoostTemp := 30;
              time2sleep := 10; time2off := 20; timeOfBoost := 60;
              MainScrType := 0; PIDenable := true; beepEnable := false;
              BodyFlip := true; ECReverse := true |} in
  fst (fst (getEEPROM boot_Settings boot_TipStore (updateEEPROM s boot_TipStore e))) = s /\
  getEEPROM boot_Settings boot_TipStore ∅ =
    (boot_Settings, boot_TipStore,
     updateEEPROM boot_Settings boot_TipStore
       (EEPROM_update 1 (Z.land EEPROM_IDENT 255)
          (EEPROM_update 0 (Z.shiftr EEPROM_IDENT 8) ∅))).
Proof.
  intros e s.
  assert (Settings_wf s) as Hs
    by (unfold Settings_wf, is_uint16, is_uint8; simpl; lia).
  assert (read_word 0 e = EEPROM_IDENT) as Hident by reflexivity.
  assert (read_word 0 (∅ : gmap Z Z) <> EEPROM_IDENT) as Hne
    by (vm_compute; congruence).
  destruct persist_then_load as (Hload & Hreset & _).
  split.
  - exact (proj1 (Hload s boot_Settings boot_TipStore boot_TipStore e
                    Hs (proj2 boot_wf) (proj1 (proj2 boot_wf)) Hident)).
  - exact (proj1 (Hreset ∅ Hne)).
Defined.

(* ===================================================================== *)
(** * More on the control loop *)
(* ===================================================================== *)

Lemma drive_heater_fields (st : Ctl) :
  ShowTemp (drive_heater st) = ShowTemp st /\
  SetTemp (drive_heater st) = SetTemp st /\
  Setpoint (drive_heater st) = Setpoint st /\
  Output (drive_heater st) = Output st /\
  CurrentTemp (drive_heater st) = CurrentTemp st /\
  (inSleepMode (drive_heater st) = inSleepMode st /\
   inOffMode (drive_heater st) = inOffMode st /\
   inBoostMode (drive_heater st) = inBoostMode st /\
   TipIsPresent (drive_heater st) = TipIsPresent st) /\
  (isWorky (drive_heater st) = isWorky st /\
   beepIfWorky (drive_heater st) = beepIfWorky st /\
   beeps (drive_heater st) = beeps st).
Proof. unfold drive_heater. by destruct (11000 <? Vin st). Qed.

Lemma SLEEPCheck_fields (reed : Z -> Z) (st : Ctl) :
  SetTemp (SLEEPCheck reed st) = SetTemp st /\
  inBoostMode (SLEEPCheck reed st) = inBoostMode st /\
  isWorky (SLEEPCheck reed st) = isWorky st /\
  beepIfWorky (SLEEPCheck reed st) = beepIfWorky st /\
  beeps (SLEEPCheck reed st) = beeps st.
Proof.
  unfold SLEEPCheck.
  destruct (denoiseAnalog reed <? 32); [done|].
  by destruct (denoiseAnalog reed <? 192).
Qed.

(** The three bands of the reed reading. *)
Lemma SLEEPCheck_modes (reed : Z -> Z) (st : Ctl) :
  let v := denoiseAnalog reed in
  let st' := SLEEPCheck reed st in
  (v < 32 ->
   TipIsPresent st' = true /\ inSleepMode st' = true /\ inOffMode st' = false) /\
  (32 <= v < 192 ->
   TipIsPresent st' = true /\ inSleepMode st' = false /\ inOffMode st' = false) /\
  (192 <= v ->
   TipIsPresent st' = false /\ inSleepMode st' = true /\ inOffMode st' = true).
Proof.
  cbv zeta. unfold SLEEPCheck.
  destruct (Z.ltb_spec (denoiseAnalog reed) 32);
    destruct (Z.ltb_spec (denoiseAnalog reed) 192);
    repeat split; intros; (done || lia).
Qed.

(** What the sensing part of [SENSORCheck] does to the modes: they are
    those [SLEEPCheck] sets; the set temperature and the boost mode are
    left alone. *)
Lemma SENSORCheck_measure_modes (cfg : Settings) (r : Readings) (st : Ctl) :
  let s1 := SLEEPCheck (reed_ADC r) (analogWrite HEATER_OFF st) in
  let st' := SENSORCheck_measure cfg r st in
  SetTemp st' = SetTemp st /\
  inBoostMode st' = inBoostMode st /\
  inSleepMode st' = inSleepMode s1 /\
  inOffMode st' = inOffMode s1 /\
  TipIsPresent st' = TipIsPresent s1.
Proof.
  cbv zeta. unfold SENSORCheck_measure. cbv zeta.
  set (s1 := SLEEPCheck (reed_ADC r) (analogWrite HEATER_OFF st)).
  set (s2 := refresh_supply r s1).
  assert (forall temp s,
            SetTemp (measure cfg temp s) = SetTemp s /\
            inBoostMode (measure cfg temp s) = inBoostMode s /\
            inSleepMode (measure cfg temp s) = inSleepMode s /\
            inOffMode (measure cfg temp s) = inOffMode s /\
            TipIsPresent (measure cfg temp s) = TipIsPresent s) as Hm by done.
  destruct (Hm (denoiseAnalog (sensor_ADC r)) (drive_heater s2))
    as (-> & -> & -> & -> & ->).
  destruct (drive_heater_fields s2) as (_ & -> & _ & _ & _ & (-> & -> & -> & ->) & _).
  assert (SetTemp s2 = SetTemp s1 /\ inBoostMode s2 = inBoostMode s1 /\
          inSleepMode s2 = inSleepMode s1 /\ inOffMode s2 = inOffMode s1 /\
          TipIsPresent s2 = TipIsPresent s1) as (-> & -> & -> & -> & ->) by done.
  destruct (SLEEPCheck_fields (reed_ADC r) (analogWrite HEATER_OFF st))
    as (Hs & Hb & _).
  fold s1 in Hs, Hb. by rewrite Hs, Hb.
Qed.

Lemma Thermostat_Setpoint (cfg : Settings) (pid_out : Q) (st : Ctl) :
  Setpoint (Thermostat cfg pid_out st) = mode_Setpoint cfg st /\
  ShowTemp (Thermostat cfg pid_out st) = ShowTemp st /\
  TipIsPresent (Thermostat cfg pid_out st) = TipIsPresent st /\
  isWorky (Thermostat cfg pid_out st) = isWorky st /\
  beepIfWorky (Thermostat cfg pid_out st) = beepIfWorky st /\
  beeps (Thermostat cfg pid_out st) = beeps st.
Proof.
  unfold Thermostat.
  by destruct (drive_heater_fields (Thermostat_control cfg pid_out st))
    as (-> & _ & -> & _ & _ & (_ & _ & _ & ->) & (-> & -> & ->)).
Qed.

(** A [SENSORCheck] that returns has not run its loop. *)
Lemma SENSORCheck_Some (fuel : nat) (cfg : Settings) (r : Readings) (st st' : Ctl) :
  SENSORCheck fuel cfg r st = Some st' ->
  st' = SENSORCheck_measure cfg r st /\ ShowTemp st' <= 500.
Proof.
  unfold SENSORCheck. intros Hret.
  destruct (Z.le_gt_cases (ShowTemp (SENSORCheck_measure cfg r st)) 500) as [Hle|Hgt].
  - rewrite fault_loop_skipped in Hret by done. by injection Hret as <-.
  - rewrite fault_loop_diverges in Hret by lia. done.
Qed.

(** X1: [SENSORCheck] returns only with a displayed temperature of at
    most 500, and then without having run its loop; so after a
    [SENSORCheck] that returned, and after the [Thermostat] that
    follows, [MainScreen] never shows the status ERROR nor 000 for the
    temperature.  With a displayed temperature of at most 500 it returns
    whatever the fuel. *)
Theorem SENSORCheck_returns_plausible
    (fuel : nat) (cfg : Settings) (r : Readings) (pid_out : Q) (st st' : Ctl) :
  SENSORCheck fuel cfg r st = Some st' ->
  st' = SENSORCheck_measure cfg r st /\
  ShowTemp st' <= 500 /\
  (forall fuel', SENSORCheck fuel' cfg r st = Some st') /\
  MainScreen_status st' <> ERROR /\
  MainScreen_status (Thermostat cfg pid_out st') <> ERROR /\
  MainScreen_temperature cfg (Thermostat cfg pid_out st') = Some (ShowTemp st').
Proof.
  unfold SENSORCheck. intros Hret.
  destruct (Z.le_gt_cases (ShowTemp (SENSORCheck_measure cfg r st)) 500) as [Hle|Hgt].
  - rewrite fault_loop_skipped in Hret by done. injection Hret as <-.
    destruct (Thermostat_Setpoint cfg pid_out (SENSORCheck_measure cfg r st))
      as (_ & Hshow & _).
    pose proof Hle as Hb. apply Z.ltb_ge in Hb.
    split; [done|]. split; [done|].
    split; [intros fuel'; by apply fault_loop_skipped|].
    unfold MainScreen_status, MainScreen_temperature. rewrite Hshow, Hb.
    split; [|split].
    + by repeat match goal with |- context [if ?c then _ else _] => destruct c end.
    + by repeat match goal with |- context [if ?c then _ else _] => destruct c end.
    + by destruct (to_bool (MainScrType cfg)).
  - rewrite fault_loop_diverges in Hret by lia. done.
Qed.

Lemma SENSORCheck_returns_plausible_witness :
  let st0 := setup boot_Settings (fun _ => 225) (fun _ => 700) (fun _ => 160)
               (fun _ => 300) in
  let r := steady_Readings 100 300 160 700 in
  ShowTemp (SENSORCheck_measure boot_Settings r st0) <= 500 /\
  MainScreen_status
    (Thermostat boot_Settings 0 (SENSORCheck_measure boot_Settings r st0)) <> ERROR.
Proof.
  intros st0 r.
  assert (SENSORCheck 0 boot_Settings r st0 =
          Some (SENSORCheck_measure boot_Settings r st0)) as Hret
    by (vm_compute; reflexivity).
  destruct (SENSORCheck_returns_plausible 0 boot_Settings r 0 st0 _ Hret)
    as (_ & Hle & _ & _ & Hstatus & _).
  split; [exact Hle | exact Hstatus].
Defined.

(** X2: the reed reading decides the setpoint of a round that returns.
    Below 32 (iron in the stand) the tip counts as present and the
    setpoint is the sleep temperature, boost mode or not; from 32 to 191
    the tip is present and the setpoint is the set temperature, plus the
    boost temperature in boost mode; from 192 on no tip is present and
    the setpoint is 0. *)
Theorem presence_decides_setpoint
    (fuel : nat) (cfg : Settings) (r : Readings) (pid_out : Q) (st st' : Ctl) :
  tick fuel cfg r pid_out st = Some st' ->
  let v := denoiseAnalog (reed_ADC r) in
  (v < 32 ->
   TipIsPresent st' = true /\ Setpoint st' = inject_Z (SleepTemp cfg)) /\
  (32 <= v < 192 ->
   TipIsPresent st' = true /\
   Setpoint st' =
     if inBoostMode st then inject_Z (uint16 (SetTemp st + BoostTemp cfg))
     else inject_Z (SetTemp st)) /\
  (192 <= v -> TipIsPresent st' = false /\ Setpoint st' = 0%Q).
Proof.
  unfold tick. intros Htick.
  destruct (SENSORCheck fuel cfg r st) as [s|] eqn:Hsens; [|done].
  injection Htick as <-.
  destruct (SENSORCheck_Some fuel cfg r st s Hsens) as (-> & _).
  destruct (Thermostat_Setpoint cfg pid_out (SENSORCheck_measure cfg r st))
    as (-> & _ & -> & _).
  destruct (SENSORCheck_measure_modes cfg r st) as (Hset & Hboost & Hsleep & Hoff & Htip).
  cbv zeta in Hset, Hboost, Hsleep, Hoff, Htip.
  unfold mode_Setpoint. rewrite Hset, Hboost, Hsleep, Hoff, Htip.
  destruct (SLEEPCheck_modes (reed_ADC r) (analogWrite HEATER_OFF st))
    as (Hlow & Hmid & Hhigh).
  cbv zeta in Hlow, Hmid, Hhigh |- *.
  split; [|split].
  - intros Hv. by destruct (Hlow Hv) as (-> & -> & ->).
  - intros Hv. by destruct (Hmid Hv) as (-> & -> & ->).
  - intros Hv. by destruct (Hhigh Hv) as (-> & -> & ->).
Qed.

Lemma presence_decides_setpoint_witness :
  let st0 := setup boot_Settings (fun _ => 225) (fun _ => 700) (fun _ => 160)
               (fun _ => 300) in
  Setpoint (Thermostat boot_Settings 0
              (SENSORCheck_measure boot_Settings (steady_Readings 10 300 160 700) st0))
    = inject_Z 150.
Proof.
  intros st0.
  assert (tick 0 boot_Settings (steady_Readings 10 300 160 700) 0 st0 =
          Some (Thermostat boot_Settings 0
                  (SENSORCheck_measure boot_Settings (steady_Readings 10 300 160 700) st0)))
    as Htick by (vm_compute; reflexivity).
  destruct (presence_decides_setpoint 0 boot_Settings _ 0 st0 _ Htick) as (Hlow & _).
  apply Hlow. vm_compute. reflexivity.
Defined.

(** The beeps sounded so far, plus one while the beep for the working
    temperature is armed, never grow in [measure]. *)
Lemma measure_beep_budget (cfg : Settings) (temp : Z) (st : Ctl) :
  (beeps (measure cfg temp st) + (if beepIfWorky (measure cfg temp st) then 1 else 0)
   <= beeps st + (if beepIfWorky st then 1 else 0))%nat.
Proof.
  unfold measure. cbv zeta. cbn [beeps beepIfWorky].
  match goal with |- context [?g <? 5] => destruct (g <? 5) end;
    destruct (isWorky st), (beepIfWorky st), (beepEnable cfg); simpl; lia.
Qed.

Lemma refresh_supply_beeps (r : Readings) (st : Ctl) :
  beepIfWorky (refresh_supply r st) = beepIfWorky st /\
  beeps (refresh_supply r st) = beeps st.
Proof. done. Qed.

Lemma analogWrite_beeps (val : Z) (st : Ctl) :
  beepIfWorky (analogWrite val st) = beepIfWorky st /\
  beeps (analogWrite val st) = beeps st.
Proof. done. Qed.

(** Up to [measure], [SENSORCheck] neither beeps nor arms the beep. *)
Lemma before_measure_beeps (r : Readings) (st : Ctl) :
  let s := drive_heater
             (refresh_supply r (SLEEPCheck (reed_ADC r) (analogWrite HEATER_OFF st))) in
  beepIfWorky s = beepIfWorky st /\ beeps s = beeps st.
Proof.
  cbv zeta.
  destruct (drive_heater_fields
              (refresh_supply r (SLEEPCheck (reed_ADC r) (analogWrite HEATER_OFF st))))
    as (_ & _ & _ & _ & _ & _ & (_ & -> & ->)).
  destruct (refresh_supply_beeps r (SLEEPCheck (reed_ADC r) (analogWrite HEATER_OFF st)))
    as (-> & ->).
  destruct (SLEEPCheck_fields (reed_ADC r) (analogWrite HEATER_OFF st))
    as (_ & _ & _ & -> & ->).
  apply analogWrite_beeps.
Qed.

Lemma measure_beeps_mono (cfg : Settings) (temp : Z) (st : Ctl) :
  (beeps st <= beeps (measure cfg temp st))%nat.
Proof.
  unfold measure. cbv zeta. cbn [beeps].
  match goal with |- context [if ?c then _ else _] => destruct c end; lia.
Qed.

Lemma SENSORCheck_measure_beep_budget (cfg : Settings) (r : Readings) (st : Ctl) :
  (beeps (SENSORCheck_measure cfg r st) +
   (if beepIfWorky (SENSORCheck_measure cfg r st) then 1 else 0)
   <= beeps st + (if beepIfWorky st then 1 else 0))%nat /\
  (beeps st <= beeps (SENSORCheck_measure cfg r st))%nat.
Proof.
  unfold SENSORCheck_measure. cbv zeta.
  destruct (before_measure_beeps r st) as (Harm & Hbeeps). cbv zeta in Harm, Hbeeps.
  split.
  - etransitivity; [apply measure_beep_budget|].
    by rewrite Harm, Hbeeps.
  - etransitivity; [|apply measure_beeps_mono]. by rewrite Hbeeps.
Qed.

Lemma run_ticks_cons
    (fuel : nat) (cfg : Settings) (r : Readings) (p : Q)
    (inputs : list (Readings * Q)) (st : Ctl) :
  run_ticks fuel cfg ((r, p) :: inputs) st =
    match SENSORCheck fuel cfg r st with
    | Some s => run_ticks fuel cfg inputs (Thermostat cfg p s)
    | None => None
    end.
Proof. unfold run_ticks at 1. unfold tick. cbn [fst snd]. by destruct (SENSORCheck _ _ _ _). Qed.

(** X3: the beep for the working temperature sounds at most once per
    arming.  Over any number of rounds of [SENSORCheck(); Thermostat();]
    that return, the number of beeps grows by at most one when
    [beepIfWorky] was set at the start and not at all when it was clear,
    and [beepIfWorky] is never set again by these rounds. *)
Theorem working_beep_once
    (fuel : nat) (cfg : Settings) (inputs : list (Readings * Q)) (st st' : Ctl) :
  run_ticks fuel cfg inputs st = Some st' ->
  (beeps st' <= beeps st + (if beepIfWorky st then 1 else 0))%nat /\
  (beepIfWorky st = false -> beepIfWorky st' = false /\ beeps st' = beeps st) /\
  (beeps st <= beeps st')%nat.
Proof.
  revert st. induction inputs as [|[r p] inputs IH]; intros st Hrun.
  - injection Hrun as <-. repeat split; try done. destruct (beepIfWorky st); lia.
  - rewrite run_ticks_cons in Hrun.
    destruct (SENSORCheck fuel cfg r st) as [s0|] eqn:Hsens; [|done].
    destruct (SENSORCheck_Some fuel cfg r st s0 Hsens) as (-> & _).
    destruct (IH _ Hrun) as (IH1 & IH2 & IH3).
    destruct (Thermostat_Setpoint cfg p (SENSORCheck_measure cfg r st))
      as (_ & _ & _ & _ & Harm & Hbeeps).
    rewrite Harm, Hbeeps in IH1. rewrite Harm, Hbeeps in IH2. rewrite Hbeeps in IH3.
    destruct (SENSORCheck_measure_beep_budget cfg r st) as (Hbudget & Hmono).
    clear Hsens Hrun IH Harm Hbeeps.
    set (n1 := beeps (SENSORCheck_measure cfg r st)) in *.
    set (b1 := beepIfWorky (SENSORCheck_measure cfg r st)) in *.
    set (n0 := beeps st) in *. set (b0 := beepIfWorky st) in *.
    set (n2 := beeps st') in *. set (b2 := beepIfWorky st') in *.
    clearbody n1 b1 n0 b0 n2 b2.
    split; [|split].
    + destruct b1, b0; lia.
    + intros ->. destruct b1; [lia|].
      destruct (IH2 eq_refl) as [-> ->]. split; [done|]. lia.
    + lia.
Qed.

Lemma working_beep_once_witness :
  let st0 := setup boot_Settings (fun _ => 225) (fun _ => 700) (fun _ => 160)
               (fun _ => 300) in
  let warm := steady_Readings 100 366 160 700 in
  let cold := steady_Readings 100 300 160 700 in
  match run_ticks 0 boot_Settings
          [(cold, 0%Q); (warm, 0%Q); (cold, 0%Q); (warm, 0%Q)] st0 with
  | Some st' => (beeps st' <= beeps st0 + 1)%nat
  | None => False
  end.
Proof.
  intros st0 warm cold.
  destruct (run_ticks 0 boot_Settings
              [(cold, 0%Q); (warm, 0%Q); (cold, 0%Q); (warm, 0%Q)] st0)
    as [st'|] eqn:Hrun.
  - assert (beepIfWorky st0 = true) as Harm by (vm_compute; reflexivity).
    destruct (working_beep_once 0 boot_Settings _ st0 st' Hrun) as (H & _).
    rewrite Harm in H. exact H.
  - vm_compute in Hrun. discriminate Hrun.
Defined.

Lemma Qtruncate_inject (q : Q) (z : Z) : (q == inject_Z z)%Q -> Qtruncate q = z.
Proof.
  unfold Qeq, Qtruncate. simpl. intros H.
  rewrite Z.mul_1_r in H. rewrite H. by apply Z.quot_mul.
Qed.

(** Truncation of a non-negative value is its integer part. *)
Lemma Qtruncate_bounds (q : Q) :
  (0 <= q)%Q ->
  (inject_Z (Qtruncate q) <= q)%Q /\ (q < inject_Z (Qtruncate q + 1))%Q.
Proof.
  intros Hq.
  assert (Qtruncate q = Qfloor q) as ->.
  { destruct q as [n d]. unfold Qtruncate, Qfloor. simpl.
    apply Z.quot_div_nonneg; [|done].
    unfold Qle in Hq. simpl in Hq. lia. }
  split; [apply Qfloor_le | apply Qlt_floor].
Qed.

Lemma measure_ShowTemp (cfg : Settings) (temp : Z) (st : Ctl) :
  ShowTemp (measure cfg temp st) =
    stabilise (ShowTemp st) (Setpoint st) (CurrentTemp (measure cfg temp st)) /\
  Setpoint (measure cfg temp st) = Setpoint st.
Proof. done. Qed.

(** X4: the displayed temperature around the setpoint.  A display that
    shows the setpoint keeps showing it while the measured temperature
    stays within 5 of it; the display never shows a value within 1 of
    the setpoint other than the setpoint itself; and in every other case,
    that is when the display does not show the setpoint or the measured
    temperature is more than 5 away from what it shows, the display
    takes the measured temperature, provided that is more than 1 away
    from the setpoint. *)
Theorem display_holds_at_setpoint (cfg : Settings) (temp : Z) (st : Ctl) :
  let current := CurrentTemp (measure cfg temp st) in
  let shown := ShowTemp (measure cfg temp st) in
  (is_uint16 (ShowTemp st) ->
   (inject_Z (ShowTemp st) == Setpoint st)%Q ->
   (Qabs (inject_Z (ShowTemp st) - current) <= 5)%Q ->
   shown = ShowTemp st) /\
  ((Qabs (inject_Z shown - Setpoint st) <= 1)%Q ->
   shown = uint16 (Qtruncate (Setpoint st))) /\
  (~ (inject_Z (ShowTemp st) == Setpoint st)%Q \/
   (5 < Qabs (inject_Z (ShowTemp st) - current))%Q ->
   (1 < Qabs (inject_Z (uint16 (Qtruncate current)) - Setpoint st))%Q ->
   shown = uint16 (Qtruncate current)).
Proof.
  cbv zeta. destruct (measure_ShowTemp cfg temp st) as [-> _].
  set (current := CurrentTemp (measure cfg temp st)). clearbody current.
  unfold stabilise. cbv zeta.
  split; [|split].
  - intros Hrange Heq Hnear.
    assert (Qeq_bool (inject_Z (ShowTemp st)) (Setpoint st) = true) as ->
      by (by apply Qeq_bool_iff).
    assert (Qltb 5 (Qabs (inject_Z (ShowTemp st) - current)) = false) as ->
      by (by apply Qltb_false).
    simpl negb. simpl orb. cbv iota.
    assert (Qle_bool (Qabs (inject_Z (ShowTemp st) - Setpoint st)) 1 = true) as ->.
    { apply Qle_bool_iff. apply Qabs_Qle_condition. split; lra. }
    rewrite (Qtruncate_inject (Setpoint st) (ShowTemp st)) by (by symmetry).
    by apply uint16_small.
  - match goal with
    | |- context [Qle_bool (Qabs (inject_Z ?s - _)) 1] =>
        set (show1 := s);
        destruct (Qle_bool (Qabs (inject_Z show1 - Setpoint st)) 1) eqn:E
    end; [done|].
    intros Hnear. apply Qle_bool_iff in Hnear. congruence.
  - intros Hcase Hfar.
    assert (negb (Qeq_bool (inject_Z (ShowTemp st)) (Setpoint st))
            || Qltb 5 (Qabs (inject_Z (ShowTemp st) - current)) = true) as ->.
    { destruct Hcase as [Hne|Hgap].
      - assert (Qeq_bool (inject_Z (ShowTemp st)) (Setpoint st) = false) as ->; [|done].
        apply not_true_iff_false. intros H. by apply Qeq_bool_iff in H.
      - apply Qltb_lt in Hgap. rewrite Hgap. apply orb_true_r. }
    cbv iota.
    assert (Qle_bool (Qabs (inject_Z (uint16 (Qtruncate current)) - Setpoint st)) 1
            = false) as ->; [|done].
    apply not_true_iff_false. intros H. apply Qle_bool_iff in H. lra.
Qed.

Lemma display_holds_at_setpoint_witness :
  let st := Thermostat boot_Settings 0
              (setup boot_Settings (fun _ => 225) (fun _ => 700) (fun _ => 160)
                 (fun _ => 300)) in
  ShowTemp (measure boot_Settings 366 st) = 320 /\
  ShowTemp (measure boot_Settings 370 (measure boot_Settings 366 st)) = 320.
Proof.
  intros st.
  assert (ShowTemp (measure boot_Settings 366 st) = 320) as H1
    by (vm_compute; reflexivity).
  split; [exact H1|].
  destruct (display_holds_at_setpoint boot_Settings 370 (measure boot_Settings 366 st))
    as (Hhold & _).
  rewrite Hhold, H1; [reflexivity | | | ].
  - rewrite H1. unfold is_uint16. lia.
  - vm_compute. reflexivity.
  - vm_compute. congruence.
Defined.

(** X5: the heater under the direct strategy.  With the supply above
    11000 mV, [Thermostat] writes 255 minus the duty of the ladder to the
    heater, a value from 0 to 255, and that value is [HEATER_OFF]
    exactly when the setpoint is no more than half a degree above the
    current temperature. *)
Theorem direct_heater_duty (cfg : Settings) (pid_out : Q) (st : Ctl) :
  PIDenable cfg = false -> 11000 < Vin st ->
  let st' := Thermostat cfg pid_out st in
  CONTROL_PIN st' = 255 - Qtruncate (Output st') /\
  0 <= CONTROL_PIN st' <= 255 /\
  heater_writes st' = heater_writes st ++ [CONTROL_PIN st'] /\
  (CONTROL_PIN st' = HEATER_OFF <->
   (mode_Setpoint cfg st <= CurrentTemp st + (1 # 2))%Q).
Proof.
  intros Hdirect Hvin. cbv zeta.
  unfold Thermostat, drive_heater.
  assert (Vin (Thermostat_control cfg pid_out st) = Vin st) as -> by done.
  apply Z.ltb_lt in Hvin. rewrite Hvin.
  assert (Output (Thermostat_control cfg pid_out st) =
          direct_Output (CurrentTemp st) (mode_Setpoint cfg st)) as HO
    by (unfold Thermostat_control; cbn [Output]; by rewrite Hdirect).
  assert (heater_writes (Thermostat_control cfg pid_out st) = heater_writes st) as HW
    by done.
  cbn [CONTROL_PIN heater_writes Output analogWrite]. rewrite HO, HW.
  set (c := CurrentTemp st). set (s := mode_Setpoint cfg st). clearbody c s.
  unfold direct_Output, HEATER_OFF.
  destruct (Qltb (c + 50) s) eqn:E1;
    [|destruct (Qltb (c + 25) s) eqn:E2;
      [|destruct (Qltb (c + 5) s) eqn:E3;
        [|destruct (Qltb (c + (1 # 2)) s) eqn:E4]]];
    repeat match goal with
      | H : Qltb _ _ = true |- _ => apply Qltb_lt in H
      | H : Qltb _ _ = false |- _ => apply Qltb_false in H
      end;
    (split; [vm_compute; reflexivity|]);
    (split; [vm_compute; split; congruence|]);
    (split; [reflexivity|]);
    (split;
       [intros H; first [lra | vm_compute in H; discriminate H]
       |intros H; first [reflexivity | exfalso; lra]]).
Qed.

Lemma direct_heater_duty_witness :
  let st := setup boot_Settings (fun _ => 225) (fun _ => 700) (fun _ => 160)
              (fun _ => 300) in
  CONTROL_PIN (Thermostat boot_Settings 0 st) = HEATER_ON.
Proof.
  intros st.
  assert (11000 < Vin st) as Hvin by (vm_compute; reflexivity).
  destruct (direct_heater_duty boot_Settings 0 st eq_refl Hvin) as (-> & _).
  vm_compute. reflexivity.
Defined.

(** X6: the PID strategy.  [Thermostat] hands the current temperature to
    the controller, takes its output as it is, and selects the
    conservative tunings exactly when the setpoint and the current
    temperature are less than 30 apart (the truncation of the gap to an
    integer does not move the threshold), the aggressive ones otherwise;
    this for gaps below 65536, which the 16-bit gap holds. *)
Theorem pid_gain_schedule (cfg : Settings) (pid_out : Q) (st : Ctl) :
  PIDenable cfg = true ->
  (Qabs (mode_Setpoint cfg st - CurrentTemp st) < 65536)%Q ->
  let st' := Thermostat cfg pid_out st in
  Output st' = pid_out /\
  Input st' = CurrentTemp st /\
  Setpoint st' = mode_Setpoint cfg st /\
  ((Qabs (mode_Setpoint cfg st - CurrentTemp st) < 30)%Q -> ctrl st' = cons_tunings) /\
  ((30 <= Qabs (mode_Setpoint cfg st - CurrentTemp st))%Q -> ctrl st' = agg_tunings).
Proof.
  intros Hpid Hsmall. cbv zeta.
  assert (forall s, Output (drive_heater s) = Output s /\ Input (drive_heater s) = Input s /\
                    Setpoint (drive_heater s) = Setpoint s /\
                    ctrl (drive_heater s) = ctrl s) as Hdrive.
  { intros s. unfold drive_heater. by destruct (11000 <? Vin s). }
  unfold Thermostat.
  destruct (Hdrive (Thermostat_control cfg pid_out st)) as (-> & -> & -> & ->).
  unfold Thermostat_control. cbn [Output Input Setpoint ctrl]. rewrite Hpid.
  split; [done|]. split; [done|]. split; [done|].
  unfold scheduled_tunings. cbv zeta.
  set (g := Qabs (mode_Setpoint cfg st - CurrentTemp st)) in *.
  assert (0 <= g)%Q as Hpos by apply Qabs_nonneg.
  clearbody g.
  destruct (Qtruncate_bounds g Hpos) as [Hlo Hhi].
  assert (0 <= Qtruncate g < 65536) as Hrange.
  { split.
    - apply Z.lt_succ_r. rewrite Zlt_Qlt. unfold Z.succ.
      change (inject_Z 0) with 0%Q. lra.
    - rewrite Zlt_Qlt. change (inject_Z 65536) with 65536%Q. lra. }
  rewrite (uint16_small _ Hrange).
  split; intros Hg.
  - assert (Qtruncate g < 30) as Hlt
      by (rewrite Zlt_Qlt; change (inject_Z 30) with 30%Q; lra).
    apply Z.ltb_lt in Hlt. by rewrite Hlt.
  - assert (30 <= Qtruncate g) as Hge.
    { apply Z.lt_succ_r. rewrite Zlt_Qlt. unfold Z.succ.
      change (inject_Z 30) with 30%Q. lra. }
    apply Z.ltb_ge in Hge. by rewrite Hge.
Qed.

Lemma pid_gain_schedule_witness :
  let cfg := {| DefaultTemp := 320; SleepTemp := 150; BoostTemp := 50;
                time2sleep := 5; time2off := 15; timeOfBoost := 40;
                MainScrType := 1; PIDenable := true; beepEnable := true;
                BodyFlip := false; ECReverse := false |} in
  let st := setup cfg (fun _ => 225) (fun _ => 700) (fun _ => 160) (fun _ => 340) in
  ctrl (Thermostat cfg 100 st) = cons_tunings /\ Output (Thermostat cfg 100 st) = 100%Q.
Proof.
  intros cfg st.
  assert (Qabs (mode_Setpoint cfg st - CurrentTemp st) < 65536)%Q as Hsmall
    by (vm_compute; reflexivity).
  destruct (pid_gain_schedule cfg 100 st eq_refl Hsmall) as (HO & _ & _ & Hcons & _).
  split; [|exact HO].
  apply Hcons. vm_compute. reflexivity.
Defined.

(* ===================================================================== *)
(** * Button and boost timer *)
(* ===================================================================== *)

Lemma boost_timer_idle (cfg : Settings) (now : Z) (st : Ctl) (b : Buttons) :
  inBoostMode st && to_bool (timeOfBoost cfg) = false ->
  boost_timer cfg now st b = (st, b).
Proof. intros H. unfold boost_timer. by rewrite H. Qed.

(** X7: the boost timer.  In boost mode, with no press of the button and
    a boost time of [T] seconds, [ROTARYCheck] leaves the settings alone
    and ends boost mode exactly when [goneSeconds] has reached [T], where
    [goneSeconds] is the number of whole seconds since the entry into
    boost mode (the time taken modulo 2^32, as the [millis()] counter
    wraps) held in 8 bits, that is modulo 256; it then arms the beep for
    the working temperature.  With [T = 0] boost mode never ends by
    itself.  For less than 256 s since the entry, boost mode ends exactly
    when [1000 * T] ms have passed; in a call that comes 256 s or more
    after the entry the seconds have wrapped, and for a further [T]
    seconds boost mode stays on. *)
Theorem boost_timer_expiry
    (SetupScreen : Settings -> Ctl -> Settings * Ctl)
    (enc : Encoder) (c : Z) (clk : Clock) (cfg : Settings) (st : Ctl) (b : Buttons) :
  negb (to_bool c) && to_bool (c0 b) = false ->
  inBoostMode st = true ->
  0 <= timeOfBoost cfg <= 255 ->
  let elapsed := uint32 (at_timer clk - boostmillis b) in
  let gone := uint8 (elapsed / 1000) in
  let res := ROTARYCheck SetupScreen enc c clk cfg st b in
  fst (fst res) = cfg /\
  SetTemp (snd (fst res)) = uint16 (getRotary enc) /\
  c0 (snd res) = c /\
  boostmillis (snd res) = boostmillis b /\
  (timeOfBoost cfg = 0 -> inBoostMode (snd (fst res)) = true) /\
  (0 < timeOfBoost cfg -> gone < timeOfBoost cfg ->
   inBoostMode (snd (fst res)) = true /\
   beepIfWorky (snd (fst res)) = beepIfWorky st /\
   beeps (snd (fst res)) = beeps st) /\
  (0 < timeOfBoost cfg -> timeOfBoost cfg <= gone ->
   inBoostMode (snd (fst res)) = false /\
   beepIfWorky (snd (fst res)) = true /\
   beeps (snd (fst res)) = if beepEnable cfg then S (beeps st) else beeps st) /\
  (elapsed < 256000 ->
   (timeOfBoost cfg <= gone <-> 1000 * timeOfBoost cfg <= elapsed)) /\
  (256000 <= elapsed < 256000 + 1000 * timeOfBoost cfg -> gone < timeOfBoost cfg).
Proof.
  intros Hidle Hboost HT. cbv zeta.
  unfold ROTARYCheck. rewrite Hidle. cbv zeta. cbv beta iota.
  unfold boost_timer. cbn [inBoostMode set_SetTemp boostmillis].
  rewrite Hboost. simpl andb.
  set (elapsed := uint32 (at_timer clk - boostmillis b)) in *.
  assert (0 <= elapsed) as Hnn by (unfold elapsed, uint32; apply Z.mod_pos_bound; lia).
  clearbody elapsed.
  assert (elapsed < 256000 ->
          (timeOfBoost cfg <= uint8 (elapsed / 1000) <->
           1000 * timeOfBoost cfg <= elapsed)) as Hshort.
  { intros Hlt.
    assert (0 <= elapsed / 1000 < 256) as Hq
      by (split; [apply Z.div_pos | apply Z.div_lt_upper_bound]; lia).
    rewrite (uint8_small _ Hq).
    pose proof (Z.div_mod elapsed 1000 ltac:(lia)).
    pose proof (Z.mod_pos_bound elapsed 1000 ltac:(lia)). lia. }
  assert (256000 <= elapsed < 256000 + 1000 * timeOfBoost cfg ->
          uint8 (elapsed / 1000) < timeOfBoost cfg) as Hwrap.
  { intros Hw.
    pose proof (Z.div_mod elapsed 1000 ltac:(lia)).
    pose proof (Z.mod_pos_bound elapsed 1000 ltac:(lia)).
    assert (256 <= elapsed / 1000 < 256 + timeOfBoost cfg) as Hq by lia.
    unfold uint8.
    replace (elapsed / 1000) with (elapsed / 1000 - 256 + 1 * 256) by lia.
    rewrite Z.mod_add by lia. rewrite Z.mod_small by lia. lia. }
  set (gone := uint8 (elapsed / 1000)) in *. clearbody gone.
  unfold to_bool.
  destruct (Z.eqb_spec (timeOfBoost cfg) 0) as [H0|Hn0]; simpl negb; cbv iota.
  - cbn. repeat split; try done; intros; try lia; by apply Hshort.
  - destruct (Z.leb_spec (timeOfBoost cfg) gone) as [Hle|Hgt]; cbn;
      repeat split; try done; intros; try lia; by apply Hshort.
Qed.

Lemma boost_timer_expiry_witness :
  let st := set_boost true false
              (setup boot_Settings (fun _ => 225) (fun _ => 700) (fun _ => 160)
                 (fun _ => 300)) in
  let b := {| c0 := 1; buttonmillis := 0; boostmillis := 4294960000; goneSeconds := 0 |} in
  let run := fun now =>
    ROTARYCheck (fun cfg st => (cfg, st)) boot_Encoder 1
      {| at_press := 0; after_wait := 0; at_boost := 0; at_timer := now |}
      boot_Settings st b in
  inBoostMode (snd (fst (run 32703))) = true /\
  inBoostMode (snd (fst (run 32704))) = false /\
  inBoostMode (snd (fst (run 248704))) = true.
Proof.
  intros st b run.
  assert (0 <= timeOfBoost boot_Settings <= 255) as HT by (by vm_compute).
  assert (0 < timeOfBoost boot_Settings) as Hpos by (by vm_compute).
  split; [|split].
  - destruct (boost_timer_expiry (fun cfg st => (cfg, st)) boot_Encoder 1
                {| at_press := 0; after_wait := 0; at_boost := 0; at_timer := 32703 |}
                boot_Settings st b eq_refl eq_refl HT)
      as (_ & _ & _ & _ & _ & Hon & _).
    exact (proj1 (Hon Hpos ltac:(by vm_compute))).
  - destruct (boost_timer_expiry (fun cfg st => (cfg, st)) boot_Encoder 1
                {| at_press := 0; after_wait := 0; at_boost := 0; at_timer := 32704 |}
                boot_Settings st b eq_refl eq_refl HT)
      as (_ & _ & _ & _ & _ & _ & Hoff & _).
    exact (proj1 (Hoff Hpos ltac:(vm_compute; congruence))).
  - destruct (boost_timer_expiry (fun cfg st => (cfg, st)) boot_Encoder 1
                {| at_press := 0; after_wait := 0; at_boost := 0; at_timer := 248704 |}
                boot_Settings st b eq_refl eq_refl HT)
      as (_ & _ & _ & _ & _ & Hon & _ & _ & Hwrap).
    exact (proj1 (Hon Hpos (Hwrap ltac:(vm_compute; split; congruence)))).
Defined.

(** X8: a press of the button (the pin reads low after having read
    high).  Released within 500 ms, it toggles boost mode without
    entering the set-up menu and leaves the settings alone: leaving
    boost mode keeps the beep for the working temperature as it was
    armed or not, entering it records the time of entry, and boost mode
    is then on after the call unless a second has already passed.  Held
    for 500 ms or more, it enters the set-up menu and does not toggle
    boost mode. *)
Theorem button_press
    (SetupScreen : Settings -> Ctl -> Settings * Ctl)
    (enc : Encoder) (clk : Clock) (cfg : Settings) (st : Ctl) (b : Buttons) :
  c0 b <> 0 -> 0 <= timeOfBoost cfg ->
  let held := uint32 (after_wait clk - at_press clk) in
  let res := ROTARYCheck SetupScreen enc 0 clk cfg st b in
  (held < 500 ->
   (forall SetupScreen', ROTARYCheck SetupScreen' enc 0 clk cfg st b = res) /\
   fst (fst res) = cfg /\
   c0 (snd res) = 0 /\
   buttonmillis (snd res) = at_press clk /\
   (inBoostMode st = true ->
    inBoostMode (snd (fst res)) = false /\
    beepIfWorky (snd (fst res)) = beepIfWorky st /\
    boostmillis (snd res) = boostmillis b) /\
   (inBoostMode st = false ->
    boostmillis (snd res) = at_boost clk /\
    (uint32 (at_timer clk - at_boost clk) < 1000 ->
     inBoostMode (snd (fst res)) = true))) /\
  (500 <= held ->
   res =
     (let st1 := beep cfg (set_SetTemp (uint16 (getRotary enc)) st) in
      let b1 := {| c0 := 0; buttonmillis := at_press clk;
                   boostmillis := boostmillis b; goneSeconds := goneSeconds b |} in
      let tb := boost_timer (fst (SetupScreen cfg st1)) (at_timer clk)
                  (snd (SetupScreen cfg st1)) b1 in
      (fst (SetupScreen cfg st1), fst tb, snd tb))).
Proof.
  intros Hc0 HT. cbv zeta.
  assert (negb (to_bool 0) && to_bool (c0 b) = true) as Hedge
    by (unfold to_bool; apply Z.eqb_neq in Hc0; by rewrite Hc0).
  split.
  - intros Hshort.
    assert ((500 <=? uint32 (after_wait clk - at_press clk)) = false) as Hlong
      by (apply Z.leb_gt; lia).
    assert (forall S0, ROTARYCheck S0 enc 0 clk cfg st b =
              (let st1 := set_boost (negb (inBoostMode st)) (beepIfWorky st)
                            (beep cfg (set_SetTemp (uint16 (getRotary enc)) st)) in
               let b1 := {| c0 := 0; buttonmillis := at_press clk;
                            boostmillis := if negb (inBoostMode st) then at_boost clk
                                           else boostmillis b;
                            goneSeconds := goneSeconds b |} in
               let tb := boost_timer cfg (at_timer clk) st1 b1 in
               (cfg, fst tb, snd tb))) as Heq.
    { intros S0. unfold ROTARYCheck. rewrite Hedge. cbv zeta.
      cbn [buttonmillis]. rewrite Hlong. cbn [inBoostMode set_boost beep set_SetTemp].
      destruct (inBoostMode st); cbn [negb c0 buttonmillis boostmillis goneSeconds];
        by destruct (boost_timer _ _ _ _). }
    split; [intros S'; by rewrite !Heq|].
    rewrite Heq. cbv zeta. cbn [fst snd].
    split; [done|].
    destruct (inBoostMode st) eqn:Hb; cbn [negb].
    + rewrite boost_timer_idle by done. cbn.
      repeat split; try done.
    + unfold boost_timer. cbn [inBoostMode set_boost boostmillis].
      unfold to_bool.
      destruct (Z.eqb_spec (timeOfBoost cfg) 0) as [H0|Hn0]; cbn.
      * repeat split; try done.
      * set (gone := uint8 (uint32 (at_timer clk - at_boost clk) / 1000)).
        destruct (Z.leb_spec (timeOfBoost cfg) gone) as [Hle|Hgt]; cbn;
          repeat split; try done.
        intros Hsec. exfalso.
        assert (gone = 0); [|lia].
        unfold gone. rewrite Z.div_small; [done|].
        split; [unfold uint32; apply Z.mod_pos_bound|]; lia.
  - intros Hlong. apply Z.leb_le in Hlong.
    unfold ROTARYCheck. rewrite Hedge. cbv zeta. cbn [buttonmillis]. rewrite Hlong.
    destruct (SetupScreen cfg (beep cfg (set_SetTemp (uint16 (getRotary enc)) st)))
      as [cfg1 st1].
    cbn [fst snd c0 buttonmillis boostmillis goneSeconds].
    by destruct (boost_timer _ _ _ _).
Qed.

Lemma button_press_witness :
  let st := setup boot_Settings (fun _ => 225) (fun _ => 700) (fun _ => 160)
              (fun _ => 300) in
  let b := {| c0 := 1; buttonmillis := 0; boostmillis := 0; goneSeconds := 0 |} in
  let clk := {| at_press := 1000; after_wait := 1200; at_boost := 1200;
                at_timer := 1201 |} in
  inBoostMode (snd (fst (ROTARYCheck (fun cfg st => (cfg, st)) boot_Encoder 0 clk
                           boot_Settings st b))) = true.
Proof.
  intros st b clk.
  destruct (button_press (fun cfg st => (cfg, st)) boot_Encoder clk boot_Settings st b)
    as (Hshort & _); [vm_compute; congruence | vm_compute; congruence |].
  destruct Hshort as (_ & _ & _ & _ & _ & Henter); [vm_compute; reflexivity|].
  destruct Henter as (_ & Hon); [vm_compute; reflexivity|].
  apply Hon. vm_compute. reflexivity.
Defined.

(* ===================================================================== *)
(** * Menus: what the encoder can select *)
(* ===================================================================== *)

Lemma setRotary_ranged (reverse : bool) (rmin rmax rstep v : Z) (e : Encoder) :
  -16384 <= rmin -> rmin <= v <= rmax -> rmax <= 16383 ->
  ranged rmin rmax (setRotary reverse rmin rmax rstep v e).
Proof.
  intros Hmin Hv Hmax. unfold ranged, in_bounds, setRotary, ROTARY_TYPE. simpl.
  rewrite !Z.shiftl_mul_pow2 by lia. change (2 ^ 1) with 2.
  rewrite !int16_small by lia. lia.
Qed.

Lemma run_edges_ranged (rmin rmax : Z) (edges : list (Z * Z)) (e : Encoder) :
  rmin <= rmax -> ranged rmin rmax e -> ranged rmin rmax (run_edges edges e).
Proof.
  intros Hle (Hmin & Hmax & Hin).
  destruct (run_edges_in_bounds edges e) as (H1 & H2 & H3); [lia | done |].
  unfold ranged. by rewrite H1, H2.
Qed.

Lemma ranged_getRotary (rmin rmax : Z) (e : Encoder) :
  ranged rmin rmax e -> rmin <= getRotary e <= rmax.
Proof.
  intros (Hmin & Hmax & Hin). unfold in_bounds in Hin. rewrite Hmin, Hmax in Hin.
  unfold getRotary, ROTARY_TYPE. rewrite Z.shiftr_div_pow2 by lia.
  change (2 ^ 1) with 2.
  split; [apply Z.div_le_lower_bound | apply Z.div_le_upper_bound]; lia.
Qed.

(** The passes of a menu keep the selection within the range and the
    arrow on one of the three lines, never below the selection. *)
Lemma menu_polls_invariant (n : Z) (polls : list (list (Z * Z))) (e : Encoder) (sa : Z * Z) :
  2 <= n <= 257 ->
  ranged 0 (n - 2) e ->
  0 <= fst sa <= n - 2 -> 0 <= snd sa <= 2 -> snd sa <= fst sa ->
  let r := menu_polls polls e sa in
  ranged 0 (n - 2) (fst r) /\
  0 <= fst (snd r) <= n - 2 /\
  0 <= snd (snd r) <= 2 /\
  snd (snd r) <= fst (snd r).
Proof.
  intros Hn. revert e sa.
  induction polls as [|edges polls IH]; intros e sa He Hs Ha Has; [done|].
  simpl menu_polls.
  assert (ranged 0 (n - 2) (run_edges edges e)) as He'
    by (apply run_edges_ranged; [lia | done]).
  pose proof (ranged_getRotary _ _ _ He') as Hpos.
  apply IH; [done | | |]; unfold menu_poll; cbn [fst snd];
    rewrite uint8_small by lia; [lia | |].
  - apply constrain_bounds. lia.
  - unfold constrain.
    destruct (Z.ltb_spec (snd sa + getRotary (run_edges edges e) - fst sa) 0); [lia|].
    destruct (Z.ltb_spec 2 (snd sa + getRotary (run_edges edges e) - fst sa)); lia.
Qed.

(** X9: [MenuScreen] on a menu of [n] entries (title included, from 2
    to 128), entered with a selection from 0 to [n - 2]: the selection
    it returns is again from 0 to [n - 2], whatever the encoder does;
    the arrow is on one of the three lines and the entry drawn on its
    line is the selected one; and every line drawn shows an entry from 1
    to [n - 1], never the title and nothing beyond the array. *)
Theorem MenuScreen_selection_in_menu
    (reverse : bool) (numberOfItems selected : Z)
    (first : list (Z * Z)) (rest : list (list (Z * Z))) (after : list (Z * Z))
    (e : Encoder) :
  let n := Z.shiftr (uint8 numberOfItems) 1 in
  2 <= n ->
  0 <= selected <= n - 2 ->
  let m := MenuScreen reverse numberOfItems selected first rest after e in
  let selection := fst (fst m) in
  let arrow := snd (fst m) in
  0 <= selection <= n - 2 /\
  0 <= arrow <= 2 /\
  MenuScreen_line n selection arrow arrow = Some (selection + 1) /\
  (forall i item, 0 <= i <= 2 ->
     MenuScreen_line n selection arrow i = Some item -> 1 <= item <= n - 1).
Proof.
  cbv zeta. intros Hn Hsel.
  assert (Z.shiftr (uint8 numberOfItems) 1 <= 128) as Hmax.
  { rewrite Z.shiftr_div_pow2 by lia. change (2 ^ 1) with 2.
    pose proof (Z.mod_pos_bound numberOfItems 256 ltac:(lia)) as Hb.
    unfold uint8. apply Z.div_le_upper_bound; lia. }
  set (n := Z.shiftr (uint8 numberOfItems) 1) in *.
  unfold MenuScreen. cbv zeta. fold n. cbn [fst snd].
  destruct (menu_polls_invariant n (first :: rest)
              (setRotary reverse 0 (n - 2) 1 selected e)
              (selected, if to_bool selected then 1 else 0))
    as (_ & Hs & Ha & Has).
  - lia.
  - apply setRotary_ranged; lia.
  - done.
  - cbn [snd]. destruct (to_bool selected); lia.
  - cbn [fst snd]. unfold to_bool.
    destruct (Z.eqb_spec selected 0); simpl negb; cbv iota; lia.
  - cbv zeta in Hs, Ha, Has.
    set (r := menu_polls (first :: rest) (setRotary reverse 0 (n - 2) 1 selected e)
                (selected, if to_bool selected then 1 else 0)) in *.
    clearbody r.
    split; [done|]. split; [done|]. split.
    + unfold MenuScreen_line.
      replace (fst (snd r) + snd (snd r) + 1 - snd (snd r)) with (fst (snd r) + 1) by lia.
      rewrite uint8_small by lia.
      assert (fst (snd r) + 1 < n) as Hlt by lia.
      apply Z.ltb_lt in Hlt. by rewrite Hlt.
    + intros i item Hi. unfold MenuScreen_line.
      rewrite uint8_small by lia.
      destruct (Z.ltb_spec (fst (snd r) + i + 1 - snd (snd r)) n); [|done].
      intros [= <-]. lia.
Qed.

Lemma MenuScreen_selection_in_menu_witness :
  fst (fst (MenuScreen false 10 0 [(1, 128); (0, 0); (1, 128)] [[(0, 0)]] []
              boot_Encoder)) <= 3.
Proof.
  refine (proj2 (proj1 (MenuScreen_selection_in_menu false 10 0
            [(1, 128); (0, 0); (1, 128)] [[(0, 0)]] [] boot_Encoder _ _)));
    vm_compute; try split; congruence.
Defined.

(** X10: [ChangeTipScreen] selects one of the tips of the store: on a
    store with the selected tip among its tips, the tip selected when
    the screen returns is again one of them, whatever
    the encoder does, and nothing else in the store changes. *)
Theorem ChangeTipScreen_selects_tip
    (reverse : bool)
    (first : list (Z * Z)) (rest : list (list (Z * Z))) (after : list (Z * Z))
    (e : Encoder) (t : TipStore) :
  1 <= NumberOfTips t <= 255 ->
  0 <= CurrentTip t < NumberOfTips t ->
  let t' := fst (ChangeTipScreen reverse first rest after e t) in
  0 <= CurrentTip t' < NumberOfTips t /\
  NumberOfTips t' = NumberOfTips t /\
  CalTemp t' = CalTemp t /\
  TipName t' = TipName t.
Proof.
  intros Hn Hc. cbv zeta. unfold ChangeTipScreen. cbv zeta. cbn.
  destruct (menu_polls_invariant (NumberOfTips t + 1) (first :: rest)
              (setRotary reverse 0 (NumberOfTips t - 1) 1 (CurrentTip t) e)
              (CurrentTip t, if to_bool (CurrentTip t) then 1 else 0))
    as (_ & Hs & _).
  - lia.
  - replace (NumberOfTips t + 1 - 2) with (NumberOfTips t - 1) by lia.
    apply setRotary_ranged; lia.
  - cbn [fst]. lia.
  - cbn [snd]. destruct (to_bool (CurrentTip t)); lia.
  - cbn [fst snd]. unfold to_bool.
    destruct (Z.eqb_spec (CurrentTip t) 0); simpl negb; cbv iota; lia.
  - cbv zeta in Hs. simpl menu_polls in Hs. repeat split; try done; lia.
Qed.

Lemma ChangeTipScreen_selects_tip_witness :
  let t := AddTipScreen (fun d => 65 + d) boot_TipStore in
  0 <= CurrentTip (fst (ChangeTipScreen false [(1, 0); (0, 128)] [] [] boot_Encoder t)) < 2.
Proof.
  intros t.
  refine (proj1 (ChangeTipScreen_selects_tip false [(1, 0); (0, 128)] [] []
                   boot_Encoder t _ _));
    vm_compute; try split; congruence.
Defined.

Lemma InputScreen_range
    (reverse : bool) (rmin rmax rstep v : Z) (before after : list (Z * Z)) (e : Encoder) :
  0 <= rmin -> rmin <= v <= rmax -> rmax <= 16383 ->
  rmin <= fst (InputScreen before after (setRotary reverse rmin rmax rstep v e)) <= rmax.
Proof.
  intros Hmin Hv Hmax. unfold InputScreen. cbn [fst].
  assert (ranged rmin rmax (run_edges before (setRotary reverse rmin rmax rstep v e))) as Hr
    by (apply run_edges_ranged; [lia | apply setRotary_ranged; lia]).
  apply ranged_getRotary in Hr. rewrite uint16_small by lia. done.
Qed.

Lemma TempScreen_loop_range (turns : list Turn) (selection : Z) (s : Settings) (e : Encoder) :
  Settings_in_range s ->
  let s' := fst (TempScreen_loop turns selection s e) in
  Settings_in_range s' /\
  (time2sleep s' = time2sleep s /\ time2off s' = time2off s /\
   timeOfBoost s' = timeOfBoost s) /\
  (MainScrType s' = MainScrType s /\ PIDenable s' = PIDenable s /\
   beepEnable s' = beepEnable s /\ BodyFlip s' = BodyFlip s /\
   ECReverse s' = ECReverse s).
Proof.
  revert selection s e. induction turns as [|u turns IH]; intros selection s e Hs; [done|].
  cbn [TempScreen_loop].
  set (m := MenuScreen (ECReverse s) 10 selection (menu_first u) (menu_rest u)
              (menu_after u) e). clearbody m.
  destruct Hs as (H1 & H2 & H3 & H4 & H5 & H6).
  unfold TEMP_MIN, TEMP_MAX in H1.
  destruct (fst (fst m) =? 0); [|destruct (fst (fst m) =? 1); [|destruct (fst (fst m) =? 2)]].
  - match goal with |- context [InputScreen ?b ?a (setRotary ?r ?lo ?hi ?st ?v ?e0)] =>
      pose proof (InputScreen_range r lo hi st v b a e0) as Hv;
      set (iv := InputScreen b a (setRotary r lo hi st v e0)) in *; clearbody iv end.
    unfold TEMP_MIN, TEMP_MAX in Hv.
    specialize (Hv ltac:(lia) ltac:(lia) ltac:(lia)).
    destruct (IH (fst (fst m)) (with_temps (fst iv) (SleepTemp s) (BoostTemp s) s) (snd iv))
      as (IH1 & IH2 & IH3); [|done].
    unfold Settings_in_range, TEMP_MIN, TEMP_MAX. cbn. lia.
  - match goal with |- context [InputScreen ?b ?a (setRotary ?r ?lo ?hi ?st ?v ?e0)] =>
      pose proof (InputScreen_range r lo hi st v b a e0) as Hv;
      set (iv := InputScreen b a (setRotary r lo hi st v e0)) in *; clearbody iv end.
    specialize (Hv ltac:(lia) ltac:(lia) ltac:(lia)).
    destruct (IH (fst (fst m)) (with_temps (DefaultTemp s) (fst iv) (BoostTemp s) s) (snd iv))
      as (IH1 & IH2 & IH3); [|done].
    unfold Settings_in_range, TEMP_MIN, TEMP_MAX. cbn. lia.
  - match goal with |- context [InputScreen ?b ?a (setRotary ?r ?lo ?hi ?st ?v ?e0)] =>
      pose proof (InputScreen_range r lo hi st v b a e0) as Hv;
      set (iv := InputScreen b a (setRotary r lo hi st v e0)) in *; clearbody iv end.
    specialize (Hv ltac:(lia) ltac:(lia) ltac:(lia)).
    destruct (IH (fst (fst m))
                (with_temps (DefaultTemp s) (SleepTemp s) (uint8 (fst iv)) s) (snd iv))
      as (IH1 & IH2 & IH3); [|done].
    unfold Settings_in_range, TEMP_MIN, TEMP_MAX. cbn.
    rewrite uint8_small by lia. lia.
  - cbn [fst]. unfold Settings_in_range, TEMP_MIN, TEMP_MAX. done.
Qed.

Lemma TimerScreen_loop_range (turns : list Turn) (selection : Z) (s : Settings) (e : Encoder) :
  Settings_in_range s ->
  let s' := fst (TimerScreen_loop turns selection s e) in
  Settings_in_range s' /\
  (DefaultTemp s' = DefaultTemp s /\ SleepTemp s' = SleepTemp s /\
   BoostTemp s' = BoostTemp s) /\
  (MainScrType s' = MainScrType s /\ PIDenable s' = PIDenable s /\
   beepEnable s' = beepEnable s /\ BodyFlip s' = BodyFlip s /\
   ECReverse s' = ECReverse s).
Proof.
  revert selection s e. induction turns as [|u turns IH]; intros selection s e Hs; [done|].
  cbn [TimerScreen_loop].
  set (m := MenuScreen (ECReverse s) 10 selection (menu_first u) (menu_rest u)
              (menu_after u) e). clearbody m.
  destruct Hs as (H1 & H2 & H3 & H4 & H5 & H6).
  destruct (fst (fst m) =? 0); [|destruct (fst (fst m) =? 1); [|destruct (fst (fst m) =? 2)]].
  - match goal with |- context [InputScreen ?b ?a (setRotary ?r ?lo ?hi ?st ?v ?e0)] =>
      pose proof (InputScreen_range r lo hi st v b a e0) as Hv;
      set (iv := InputScreen b a (setRotary r lo hi st v e0)) in *; clearbody iv end.
    specialize (Hv ltac:(lia) ltac:(lia) ltac:(lia)).
    destruct (IH (fst (fst m))
                (with_timers (uint8 (fst iv)) (time2off s) (timeOfBoost s) s) (snd iv))
      as (IH1 & IH2 & IH3); [|done].
    unfold Settings_in_range. cbn. rewrite uint8_small by lia. lia.
  - match goal with |- context [InputScreen ?b ?a (setRotary ?r ?lo ?hi ?st ?v ?e0)] =>
      pose proof (InputScreen_range r lo hi st v b a e0) as Hv;
      set (iv := InputScreen b a (setRotary r lo hi st v e0)) in *; clearbody iv end.
    specialize (Hv ltac:(lia) ltac:(lia) ltac:(lia)).
    destruct (IH (fst (fst m))
                (with_timers (time2sleep s) (uint8 (fst iv)) (timeOfBoost s) s) (snd iv))
      as (IH1 & IH2 & IH3); [|done].
    unfold Settings_in_range. cbn. rewrite uint8_small by lia. lia.
  - match goal with |- context [InputScreen ?b ?a (setRotary ?r ?lo ?hi ?st ?v ?e0)] =>
      pose proof (InputScreen_range r lo hi st v b a e0) as Hv;
      set (iv := InputScreen b a (setRotary r lo hi st v e0)) in *; clearbody iv end.
    specialize (Hv ltac:(lia) ltac:(lia) ltac:(lia)).
    destruct (IH (fst (fst m))
                (with_timers (time2sleep s) (time2off s) (uint8 (fst iv)) s) (snd iv))
      as (IH1 & IH2 & IH3); [|done].
    unfold Settings_in_range. cbn. rewrite uint8_small by lia. lia.
  - cbn [fst]. unfold Settings_in_range. done.
Qed.

(** X11: the temperature and timer menus keep the settings in range.
    From settings within the ranges of the input screens (default
    temperature 150..400, sleep temperature 20..200, boost temperature
    10..100, sleep timer 0..30, off timer 0..60, boost timer 0..180),
    as the defaults are, [TempScreen] and [TimerScreen] return settings
    within these ranges whatever the user does with the encoder;
    [TempScreen] changes the three temperatures only and [TimerScreen]
    the three timers only. *)
Theorem settings_menus_keep_ranges (turns : list Turn) (s : Settings) (e : Encoder) :
  Settings_in_range s ->
  let s1 := fst (TempScreen turns s e) in
  let s2 := fst (TimerScreen turns s e) in
  Settings_in_range boot_Settings /\
  (Settings_in_range s1 /\
   time2sleep s1 = time2sleep s /\ time2off s1 = time2off s /\
   timeOfBoost s1 = timeOfBoost s /\
   MainScrType s1 = MainScrType s /\ PIDenable s1 = PIDenable s /\
   beepEnable s1 = beepEnable s /\ BodyFlip s1 = BodyFlip s /\
   ECReverse s1 = ECReverse s) /\
  (Settings_in_range s2 /\
   DefaultTemp s2 = DefaultTemp s /\ SleepTemp s2 = SleepTemp s /\
   BoostTemp s2 = BoostTemp s /\
   MainScrType s2 = MainScrType s /\ PIDenable s2 = PIDenable s /\
   beepEnable s2 = beepEnable s /\ BodyFlip s2 = BodyFlip s /\
   ECReverse s2 = ECReverse s).
Proof.
  intros Hs. cbv zeta. unfold TempScreen, TimerScreen.
  destruct (TempScreen_loop_range turns 0 s e Hs)
    as (Ha & (? & ? & ?) & (? & ? & ? & ? & ?)).
  destruct (TimerScreen_loop_range turns 0 s e Hs)
    as (Hb & (? & ? & ?) & (? & ? & ? & ? & ?)).
  split.
  - unfold Settings_in_range. vm_compute. repeat split; congruence.
  - done.
Qed.

Lemma settings_menus_keep_ranges_witness :
  let u := {| menu_first := []; menu_rest := []; menu_after := [];
              input_before := [(1, 128); (0, 0); (1, 128); (0, 0); (1, 128)];
              input_after := [] |} in
  Settings_in_range (fst (TempScreen [u; u] boot_Settings boot_Encoder)) /\
  DefaultTemp (fst (TempScreen [u; u] boot_Settings boot_Encoder)) = 370.
Proof.
  intros u.
  assert (Settings_in_range boot_Settings) as Hs
    by (unfold Settings_in_range; vm_compute; repeat split; congruence).
  split.
  - exact (proj1 (proj1 (proj2
      (settings_menus_keep_ranges [u; u] boot_Settings boot_Encoder Hs)))).
  - vm_compute. reflexivity.
Defined.

(* ===================================================================== *)
(** * Tip names: the characters the encoder can enter *)
(* ===================================================================== *)

Lemma name_poll_spec (reverse : bool) (e : Encoder) :
  ranged 31 96 e ->
  32 <= fst (name_poll reverse e) <= 95 /\
  ranged 31 96 (snd (name_poll reverse e)) /\
  getRotary (snd (name_poll reverse e)) = fst (name_poll reverse e).
Proof.
  intros He. pose proof (ranged_getRotary _ _ _ He) as Hpos.
  unfold name_poll. rewrite uint8_small by lia.
  destruct (Z.eqb_spec (getRotary e) 31) as [H31|H31]; cbn [fst snd].
  - change (95 =? 96) with false. cbn [fst snd].
    split; [lia|]. split; [apply setRotary_ranged; lia|].
    apply getRotary_setRotary; lia.
  - destruct (Z.eqb_spec (getRotary e) 96) as [H96|H96]; cbn [fst snd].
    + split; [lia|]. split; [apply setRotary_ranged; lia|].
      apply getRotary_setRotary; lia.
    + split; [lia|]. done.
Qed.

Lemma name_polls_spec (reverse : bool) (polls : list (list (Z * Z))) (ve : Z * Encoder) :
  32 <= fst ve <= 95 -> ranged 31 96 (snd ve) ->
  getRotary (snd ve) = fst ve ->
  32 <= fst (name_polls reverse polls ve) <= 95 /\
  ranged 31 96 (snd (name_polls reverse polls ve)) /\
  getRotary (snd (name_polls reverse polls ve)) = fst (name_polls reverse polls ve).
Proof.
  revert ve. induction polls as [|edges polls IH]; intros ve Hv He Hg; [done|].
  cbn [name_polls].
  destruct (name_poll_spec reverse (run_edges edges (snd ve))) as (H1 & H2 & H3).
  { apply run_edges_ranged; [lia | done]. }
  by apply IH.
Qed.

(** What one pass of the loop reads: 31 and 96 wrap around to the other
    end of the range, and the encoder is set up again there. *)
Lemma name_poll_cases (reverse : bool) (e : Encoder) :
  (getRotary e = 31 -> name_poll reverse e = (95, setRotary reverse 31 96 1 95 e)) /\
  (getRotary e = 96 -> name_poll reverse e = (32, setRotary reverse 31 96 1 32 e)) /\
  (32 <= getRotary e <= 95 -> name_poll reverse e = (getRotary e, e)).
Proof.
  unfold name_poll. split; [|split].
  - intros ->. done.
  - intros ->. done.
  - intros Hv. rewrite uint8_small by lia.
    destruct (Z.eqb_spec (getRotary e) 31); [lia|]. cbn [fst snd].
    destruct (Z.eqb_spec (getRotary e) 96); [lia|]. done.
Qed.

(** The value after the passes of the loop is the one of the last pass. *)
Lemma name_polls_last (reverse : bool) (polls : list (list (Z * Z))) (ve : Z * Encoder) :
  ranged 31 96 (snd ve) -> polls <> [] ->
  exists e1 : Encoder,
    ranged 31 96 e1 /\ name_polls reverse polls ve = name_poll reverse e1.
Proof.
  revert ve. induction polls as [|edges polls IH]; intros ve He Hne; [done|].
  cbn [name_polls].
  assert (ranged 31 96 (run_edges edges (snd ve))) as He1
    by (apply run_edges_ranged; [lia | done]).
  destruct polls as [|edges' polls'].
  - exists (run_edges edges (snd ve)). done.
  - apply IH; [|done]. by destruct (name_poll_spec reverse _ He1) as (_ & ? & _).
Qed.

(** X12: every character [InputNameScreen] stores in a tip name lies
    between 32 (space) and 95 (underscore), whatever the user does with
    the encoder.  The character is what the last pass of the loop makes
    of the position of the encoder, which lies within 31..96: a position
    of 31 gives 95 and sets the encoder to 95, a position of 96 gives 32
    and sets the encoder to 32, and a position from 32 to 95 is taken as
    it is; so the encoder stands at the character when the loop ends,
    and edges that arrive later leave it within 31..96. *)
Theorem InputNameScreen_digit_printable
    (reverse : bool) (first : list (Z * Z)) (rest : list (list (Z * Z)))
    (after : list (Z * Z)) (e : Encoder) :
  let r := InputNameScreen_digit reverse first rest after e in
  let r0 := InputNameScreen_digit reverse first rest [] e in
  (32 <= fst r <= 95 /\ uint8 (fst r) = fst r /\
   fst r0 = fst r /\ getRotary (snd r0) = fst r /\
   ranged 31 96 (snd r)) /\
  (exists e1 : Encoder,
     31 <= getRotary e1 <= 96 /\
     r0 = name_poll reverse e1 /\
     snd r = run_edges after (snd (name_poll reverse e1)) /\
     fst r = (if getRotary e1 =? 31 then 95
              else if getRotary e1 =? 96 then 32 else getRotary e1)) /\
  (forall e1 : Encoder,
     (getRotary e1 = 31 ->
      name_poll reverse e1 = (95, setRotary reverse 31 96 1 95 e1)) /\
     (getRotary e1 = 96 ->
      name_poll reverse e1 = (32, setRotary reverse 31 96 1 32 e1)) /\
     (32 <= getRotary e1 <= 95 -> name_poll reverse e1 = (getRotary e1, e1))).
Proof.
  cbv zeta. split; [|split; [|intros e1; apply name_poll_cases]].
  - unfold InputNameScreen_digit. cbn [fst snd name_polls].
    destruct (name_poll_spec reverse
                (run_edges first (setRotary reverse 31 96 1 65 e))) as (H1 & H2 & H3).
    { apply run_edges_ranged; [lia|]. apply setRotary_ranged; lia. }
    destruct (name_polls_spec reverse rest _ H1 H2 H3) as (K1 & K2 & K3).
    split; [done|]. split; [apply uint8_small; lia|].
    split; [done|]. split; [done|].
    apply run_edges_ranged; [lia | done].
  - unfold InputNameScreen_digit.
    destruct (name_polls_last reverse (first :: rest)
                (0, setRotary reverse 31 96 1 65 e)) as (e1 & He1 & Heq).
    { cbn [snd]. apply setRotary_ranged; lia. }
    { done. }
    cbv zeta. rewrite Heq. exists e1.
    pose proof (ranged_getRotary _ _ _ He1) as Hpos.
    split; [done|]. split; [by destruct (name_poll reverse e1)|]. split; [done|].
    cbn [fst]. destruct (name_poll_cases reverse e1) as (C1 & C2 & C3).
    destruct (Z.eqb_spec (getRotary e1) 31) as [H31|H31]; [by rewrite C1|].
    destruct (Z.eqb_spec (getRotary e1) 96) as [H96|H96]; [by rewrite C2|].
    rewrite C3 by lia. done.
Qed.

(* ===================================================================== *)
(** * Tip menu: what adding and deleting a tip do to the store *)
(* ===================================================================== *)

Lemma InputNameScreen_row (entered : Z -> Z) (t : TipStore) :
  TipStore_dims t -> 0 <= CurrentTip t < TIPMAX ->
  InputNameScreen entered t =
  with_TipName (<[Z.to_nat (CurrentTip t) := typed_name entered]> (TipName t)) t.
Proof.
  intros [_ Hd] Hc.
  destruct (array_dims_row TIPMAX TIPNAMELENGTH _ _ Hd Hc) as [Hlt Hrow].
  unfold InputNameScreen, typed_name, for_range, TIPNAMELENGTH in *. simpl. unfold set2.
  rewrite !list_lookup_total_insert_eq by (rewrite ?length_insert; done).
  rewrite !list_insert_insert_eq.
  destruct (TipName t !!! Z.to_nat (CurrentTip t))
    as [|x0 [|x1 [|x2 [|x3 [|x4 [|x5 [|x6 row]]]]]]]; simpl in Hrow; try lia.
  done.
Qed.

Lemma shift_tip_rows (i : Z) (t : TipStore) :
  TipStore_dims t -> 0 <= i -> i + 1 < TIPMAX ->
  shift_tip i t =
  {| CalTemp := <[Z.to_nat i := CalTemp t !!! Z.to_nat (i + 1)]> (CalTemp t);
     TipName := <[Z.to_nat i := TipName t !!! Z.to_nat (i + 1)]> (TipName t);
     CurrentTip := CurrentTip t; NumberOfTips := NumberOfTips t |}.
Proof.
  intros [Hc Hn] Hi Hi1.
  destruct (array_dims_row TIPMAX 4 _ i Hc ltac:(lia)) as [Hlt Hrow].
  destruct (array_dims_row TIPMAX 4 _ (i + 1) Hc ltac:(lia)) as [Hlt1 Hrow1].
  destruct (array_dims_row TIPMAX TIPNAMELENGTH _ i Hn ltac:(lia)) as [Hlu Hrou].
  destruct (array_dims_row TIPMAX TIPNAMELENGTH _ (i + 1) Hn ltac:(lia)) as [Hlu1 Hrou1].
  unfold shift_tip, for_range, TIPNAMELENGTH in *. simpl.
  unfold with_TipName, with_CalTemp, get2, set2. simpl.
  rewrite !(list_lookup_total_insert_ne _ (Z.to_nat i) (Z.to_nat (i + 1))) by lia.
  rewrite !list_lookup_total_insert_eq by (rewrite ?length_insert; done).
  rewrite !list_insert_insert_eq.
  destruct (TipName t !!! Z.to_nat i)
    as [|x0 [|x1 [|x2 [|x3 [|x4 [|x5 [|x6 row]]]]]]]; simpl in Hrou; try lia.
  destruct (TipName t !!! Z.to_nat (i + 1))
    as [|y0 [|y1 [|y2 [|y3 [|y4 [|y5 [|y6 row]]]]]]]; simpl in Hrou1; try lia.
  destruct (CalTemp t !!! Z.to_nat i)
    as [|u0 [|u1 [|u2 [|u3 [|u4 row]]]]]; simpl in Hrow; try lia.
  destruct (CalTemp t !!! Z.to_nat (i + 1))
    as [|v0 [|v1 [|v2 [|v3 [|v4 row]]]]]; simpl in Hrow1; try lia.
  done.
Qed.

Lemma insert_row_dims (rows cols : Z) (A : list (list Z)) (n : nat) (row : list Z) :
  array_dims rows cols A -> Z.of_nat (length row) = cols ->
  array_dims rows cols (<[n := row]> A).
Proof.
  intros [Hlen Hrows] Hrow. split.
  - by rewrite length_insert.
  - by apply Forall_insert.
Qed.

Lemma AddTipScreen_rows (entered : Z -> Z) (t : TipStore) :
  TipStore_dims t -> 0 <= NumberOfTips t < TIPMAX ->
  AddTipScreen entered t =
  {| CalTemp := <[Z.to_nat (NumberOfTips t) := [TEMP200; TEMP280; TEMP360; TEMPCHP]]>
                  (CalTemp t);
     TipName := <[Z.to_nat (NumberOfTips t) := typed_name entered]> (TipName t);
     CurrentTip := NumberOfTips t;
     NumberOfTips := NumberOfTips t + 1 |}.
Proof.
  intros Hd Hn. unfold AddTipScreen.
  destruct (Z.ltb_spec (NumberOfTips t) TIPMAX) as [_|]; [|lia].
  cbv zeta. rewrite InputNameScreen_row; [|done|cbn; lia].
  destruct Hd as [Hc _].
  destruct (array_dims_row TIPMAX 4 _ _ Hc Hn) as [Hlt Hrow].
  unfold with_TipName, with_CalTemp. cbn [CalTemp TipName CurrentTip NumberOfTips].
  rewrite uint8_small by (unfold TIPMAX in Hn; lia).
  f_equal. unfold set2. simpl.
  rewrite !list_lookup_total_insert_eq by (rewrite ?length_insert; done).
  rewrite !list_insert_insert_eq.
  destruct (CalTemp t !!! Z.to_nat (NumberOfTips t))
    as [|u0 [|u1 [|u2 [|u3 [|u4 row]]]]]; simpl in Hrow; try lia.
  done.
Qed.

(** The compaction loop of [DeleteTipScreen] after [k] rounds from tip
    [c]: the tips from [c] to [c + k - 1] hold what their successors
    held, the others are as they were. *)
Lemma shift_loop_rows (c : Z) (k : nat) (t : TipStore) :
  TipStore_dims t -> 0 <= c -> c + Z.of_nat k < TIPMAX ->
  let t' := for_loop k c shift_tip t in
  TipStore_dims t' /\
  CurrentTip t' = CurrentTip t /\ NumberOfTips t' = NumberOfTips t /\
  forall i, 0 <= i < TIPMAX ->
    let src := if (c <=? i) && (i <? c + Z.of_nat k) then i + 1 else i in
    CalTemp t' !!! Z.to_nat i = CalTemp t !!! Z.to_nat src /\
    TipName t' !!! Z.to_nat i = TipName t !!! Z.to_nat src.
Proof.
  intros Hd Hc. induction k as [|k IH]; intros Hk.
  - cbn [for_loop]. cbv zeta. split; [done|]. split; [done|]. split; [done|].
    intros i Hi.
    destruct (Z.leb_spec c i); destruct (Z.ltb_spec i (c + Z.of_nat 0)); simpl; try done; lia.
  - rewrite for_loop_last.
    destruct (IH ltac:(lia)) as (Hd' & Hcur & Hnum & Hrows). cbv zeta in Hrows.
    set (tk := for_loop k c shift_tip t) in *. clearbody tk.
    rewrite shift_tip_rows by (try done; lia).
    cbv zeta. cbn [CalTemp TipName CurrentTip NumberOfTips].
    destruct Hd' as [Hdc Hdn].
    destruct (array_dims_row TIPMAX 4 _ (c + Z.of_nat k + 1) Hdc ltac:(lia)) as [Hl1 Hr1].
    destruct (array_dims_row TIPMAX TIPNAMELENGTH _ (c + Z.of_nat k + 1) Hdn ltac:(lia))
      as [Hl2 Hr2].
    split.
    { split; by apply insert_row_dims. }
    split; [done|]. split; [done|].
    intros i Hi.
    destruct (array_dims_row TIPMAX 4 _ i Hdc Hi) as [Hli _].
    destruct (array_dims_row TIPMAX TIPNAMELENGTH _ i Hdn Hi) as [Hlj _].
    destruct (decide (i = c + Z.of_nat k)) as [->|Hne].
    + rewrite !list_lookup_total_insert_eq by done.
      destruct (Hrows (c + Z.of_nat k + 1) ltac:(lia)) as [Hr Hs].
      rewrite Hr, Hs.
      destruct (Z.leb_spec c (c + Z.of_nat k)); [|lia].
      destruct (Z.ltb_spec (c + Z.of_nat k) (c + Z.of_nat (S k))); [|lia].
      destruct (Z.ltb_spec (c + Z.of_nat k + 1) (c + Z.of_nat k)); [lia|].
      rewrite andb_false_r. simpl. done.
    + rewrite !list_lookup_total_insert_ne by lia.
      destruct (Hrows i Hi) as [Hr Hs]. rewrite Hr, Hs.
      destruct (Z.leb_spec c i); destruct (Z.ltb_spec i (c + Z.of_nat k));
        destruct (Z.ltb_spec i (c + Z.of_nat (S k))); simpl; try done; lia.
Qed.

(** X13: [AddTipScreen] on a store with room (fewer than [TIPMAX] tips)
    appends one tip and selects it: the count grows by one, the new tip
    is the last one and the selected one, its name is the five entered
    characters and a terminating zero, its calibration is the default
    one (216, 308, 390, 30), and every other tip keeps its name and
    calibration. *)
Theorem AddTipScreen_appends (entered : Z -> Z) (t : TipStore) :
  TipStore_dims t -> 0 <= NumberOfTips t < TIPMAX ->
  let t' := AddTipScreen entered t in
  NumberOfTips t' = NumberOfTips t + 1 /\
  CurrentTip t' = NumberOfTips t /\
  TipName t' !!! Z.to_nat (CurrentTip t') = typed_name entered /\
  CalTemp t' !!! Z.to_nat (CurrentTip t') = [216; 308; 390; 30] /\
  TipStore_dims t' /\
  forall i, 0 <= i -> i <> NumberOfTips t ->
    TipName t' !!! Z.to_nat i = TipName t !!! Z.to_nat i /\
    CalTemp t' !!! Z.to_nat i = CalTemp t !!! Z.to_nat i.
Proof.
  intros Hd Hn. cbv zeta. rewrite AddTipScreen_rows by done.
  cbn [CalTemp TipName CurrentTip NumberOfTips].
  destruct Hd as [Hc Hnm].
  destruct (array_dims_row TIPMAX 4 _ _ Hc Hn) as [Hlt _].
  destruct (array_dims_row TIPMAX TIPNAMELENGTH _ _ Hnm Hn) as [Hlu _].
  split; [done|]. split; [done|].
  rewrite !list_lookup_total_insert_eq by done.
  split; [done|]. split; [done|]. split.
  - split; by apply insert_row_dims.
  - intros i Hi Hne. by rewrite !list_lookup_total_insert_ne by lia.
Qed.

Lemma AddTipScreen_appends_witness :
  let t' := AddTipScreen (fun d => 65 + d) boot_TipStore in
  NumberOfTips t' = 2 /\
  TipName t' !!! 1%nat = [65; 66; 67; 68; 69; 0] /\
  TipName t' !!! 0%nat = [87; 77; 82; 84; 0; 0].
Proof.
  assert (TipStore_dims boot_TipStore) as Hd by (destruct boot_wf as [_ [Hd _]]; exact Hd).
  assert (0 <= NumberOfTips boot_TipStore < TIPMAX) as Hn by (vm_compute; split; congruence).
  destruct (AddTipScreen_appends (fun d => 65 + d) boot_TipStore Hd Hn)
    as (H1 & H2 & H3 & _ & _ & H6).
  split; [exact H1|]. split.
  - rewrite H2 in H3. exact H3.
  - exact (proj1 (H6 0 ltac:(lia) ltac:(vm_compute; congruence))).
Defined.

(** [DeleteTipScreen] answered with Yes on a store of two or more tips. *)
Lemma DeleteTipScreen_rows (sure : Z) (t : TipStore) :
  TipStore_dims t -> 2 <= NumberOfTips t <= TIPMAX ->
  0 <= CurrentTip t < NumberOfTips t -> sure <> 0 ->
  let t' := DeleteTipScreen sure t in
  NumberOfTips t' = NumberOfTips t - 1 /\
  CurrentTip t' =
    (if CurrentTip t =? NumberOfTips t - 1 then CurrentTip t - 1 else CurrentTip t) /\
  TipStore_dims t' /\
  forall i, 0 <= i < NumberOfTips t - 1 ->
    let src := if i <? CurrentTip t then i else i + 1 in
    TipName t' !!! Z.to_nat i = TipName t !!! Z.to_nat src /\
    CalTemp t' !!! Z.to_nat i = CalTemp t !!! Z.to_nat src.
Proof.
  intros Hd Hn Hc Hsure. cbv zeta. unfold DeleteTipScreen.
  destruct (Z.eqb_spec (NumberOfTips t) 1) as [|_]; [lia|].
  unfold to_bool. apply Z.eqb_neq in Hsure. rewrite Hsure. simpl negb. cbv iota.
  destruct (Z.eqb_spec (CurrentTip t) (NumberOfTips t - 1)) as [Hlast|Hmid].
  - cbn [CalTemp TipName CurrentTip NumberOfTips].
    rewrite !uint8_small by (unfold TIPMAX in Hn; lia).
    split; [done|]. split; [done|]. split; [done|].
    intros i Hi. destruct (Z.ltb_spec i (CurrentTip t)); [done|lia].
  - unfold for_range.
    destruct (shift_loop_rows (CurrentTip t)
                (Z.to_nat (NumberOfTips t - 1 - CurrentTip t)) t Hd ltac:(lia)
                ltac:(unfold TIPMAX in *; lia))
      as (Hd' & Hcur & Hnum & Hrows).
    cbv zeta in Hrows.
    set (t1 := for_loop (Z.to_nat (NumberOfTips t - 1 - CurrentTip t))
                 (CurrentTip t) shift_tip t) in *. clearbody t1.
    cbn [CalTemp TipName CurrentTip NumberOfTips].
    rewrite Hnum, Hcur. rewrite uint8_small by (unfold TIPMAX in Hn; lia).
    split; [done|]. split; [done|]. split; [done|].
    intros i Hi.
    destruct (Hrows i ltac:(unfold TIPMAX in *; lia)) as [Hr Hs]. rewrite Hr, Hs.
    destruct (Z.leb_spec (CurrentTip t) i); destruct (Z.ltb_spec i (CurrentTip t));
      try lia;
      destruct (Z.ltb_spec i
                  (CurrentTip t + Z.of_nat (Z.to_nat (NumberOfTips t - 1 - CurrentTip t))));
      simpl; try done; lia.
Qed.

(** X14: [DeleteTipScreen] confirmed on a store of two or more tips
    removes the selected tip and closes the gap: the count drops by one,
    the tips before the selected one stay, those after it move down by
    one place, and the selection stays at the same place (now the former
    successor) unless the last tip was deleted, when it moves to the new
    last tip; so the selection is again one of the tips.  Answered with
    No, the store is unchanged. *)
Theorem DeleteTipScreen_compacts (sure : Z) (t : TipStore) :
  TipStore_dims t -> 2 <= NumberOfTips t <= TIPMAX ->
  0 <= CurrentTip t < NumberOfTips t ->
  let t' := DeleteTipScreen sure t in
  (sure = 0 -> t' = t) /\
  (sure <> 0 ->
   NumberOfTips t' = NumberOfTips t - 1 /\
   CurrentTip t' =
     (if CurrentTip t =? NumberOfTips t - 1 then CurrentTip t - 1 else CurrentTip t) /\
   0 <= CurrentTip t' < NumberOfTips t' /\
   TipStore_dims t' /\
   forall i, 0 <= i < NumberOfTips t - 1 ->
     let src := if i <? CurrentTip t then i else i + 1 in
     TipName t' !!! Z.to_nat i = TipName t !!! Z.to_nat src /\
     CalTemp t' !!! Z.to_nat i = CalTemp t !!! Z.to_nat src).
Proof.
  intros Hd Hn Hc. cbv zeta. split.
  - intros ->. unfold DeleteTipScreen.
    by destruct (NumberOfTips t =? 1).
  - intros Hsure.
    destruct (DeleteTipScreen_rows sure t Hd Hn Hc Hsure) as (H1 & H2 & H3 & H4).
    split; [done|]. split; [done|]. split; [|done].
    rewrite H1, H2. destruct (Z.eqb_spec (CurrentTip t) (NumberOfTips t - 1)); lia.
Qed.

Lemma DeleteTipScreen_compacts_witness :
  let t := with_CalTemp (CalTemp (AddTipScreen (fun d => 65 + d) boot_TipStore))
             (with_TipName (TipName (AddTipScreen (fun d => 65 + d) boot_TipStore))
                {| CalTemp := []; TipName := []; CurrentTip := 0; NumberOfTips := 2 |}) in
  NumberOfTips (DeleteTipScreen 1 t) = 1 /\
  TipName (DeleteTipScreen 1 t) !!! 0%nat = [65; 66; 67; 68; 69; 0].
Proof.
  intros t.
  assert (TipStore_dims t) as Hd.
  { split; (split; [reflexivity|]); vm_compute; repeat constructor. }
  assert (2 <= NumberOfTips t <= TIPMAX) as Hn by (vm_compute; split; congruence).
  assert (0 <= CurrentTip t < NumberOfTips t) as Hc by (vm_compute; split; congruence).
  destruct (proj2 (DeleteTipScreen_compacts 1 t Hd Hn Hc) ltac:(lia))
    as (H1 & _ & _ & _ & H5).
  split; [exact H1|].
  exact (proj1 (H5 0 ltac:(vm_compute; split; congruence))).
Defined.

(* ===================================================================== *)
(** * The tip menu keeps the tip store consistent *)
(* ===================================================================== *)





(** The fuel of the fault loop decides nothing: the loop is skipped or
    never ends. *)
Lemma fault_loop_fuel (fuel fuel' : nat) (cfg : Settings) (st : Ctl) :
  fault_loop fuel cfg st = fault_loop fuel' cfg st.
Proof.
  destruct (Z.le_gt_cases (ShowTemp st) 500) as [Hle|Hgt].
  - by rewrite !fault_loop_skipped.
  - by rewrite !fault_loop_diverges by lia.
Qed.

Lemma tick_fuel (fuel fuel' : nat) (cfg : Settings) (r : Readings) (p : Q) (st : Ctl) :
  tick fuel cfg r p st = tick fuel' cfg r p st.
Proof. unfold tick, SENSORCheck. by rewrite (fault_loop_fuel fuel fuel'). Qed.

Lemma run_ticks_fuel (fuel fuel' : nat) (cfg : Settings) (inputs : list (Readings * Q))
    (st : Ctl) :
  run_ticks fuel cfg inputs st = run_ticks fuel' cfg inputs st.
Proof.
  revert st. induction inputs as [|rp inputs IH]; intros st; [done|].
  cbn [run_ticks]. rewrite (tick_fuel fuel fuel').
  destruct (tick fuel' cfg (fst rp) (snd rp) st); [apply IH | done].
Qed.

Lemma CalibrationScreen_step_fuel (fuel fuel' : nat) (cfg : Settings) (CalStep : Z)
    (u : Passes) (t : TipStore) (e : Encoder) (st : Ctl) :
  CalibrationScreen_step fuel cfg CalStep u t e st =
  CalibrationScreen_step fuel' cfg CalStep u t e st.
Proof. unfold CalibrationScreen_step. by rewrite (run_ticks_fuel fuel fuel'). Qed.

Lemma CalibrationScreen_run_fuel (fuel fuel' : nat) (cfg : Settings)
    (steps : Z -> Passes) (chipADC : Z -> Z) (prompt : Polls)
    (t : TipStore) (e : Encoder) (st : Ctl) :
  CalibrationScreen_run fuel cfg steps chipADC prompt t e st =
  CalibrationScreen_run fuel' cfg steps chipADC prompt t e st.
Proof.
  unfold CalibrationScreen_run.
  rewrite (CalibrationScreen_step_fuel fuel fuel' cfg 0).
  destruct (CalibrationScreen_step fuel' cfg 0 (steps 0) t e st) as [[[r0 e0] st0]|];
    [|done].
  rewrite (CalibrationScreen_step_fuel fuel fuel' cfg 1).
  destruct (CalibrationScreen_step fuel' cfg 1 (steps 1) t e0 st0) as [[[r1 e1] st1]|];
    [|done].
  by rewrite (CalibrationScreen_step_fuel fuel fuel' cfg 2).
Qed.

Lemma TipScreen_loop_fuel (fuel fuel' : nat) (cfg : Settings) (turns : list TipTurn)
    (selection : Z) (t : TipStore) (e : Encoder) (st : Ctl) :
  TipScreen_loop fuel cfg turns selection t e st =
  TipScreen_loop fuel' cfg turns selection t e st.
Proof.
  revert selection t e st.
  induction turns as [|u turns IH]; intros selection t e st; [done|].
  cbn [TipScreen_loop].
  set (m := MenuScreen (ECReverse cfg) 14 selection (first_edges (tip_menu u))
              (rest_edges (tip_menu u)) (after_edges (tip_menu u)) e). clearbody m.
  destruct (fst (fst m) =? 0); [apply IH|].
  destruct (fst (fst m) =? 1).
  { rewrite (CalibrationScreen_run_fuel fuel fuel').
    destruct (CalibrationScreen_run fuel' cfg _ _ _ _ _ _); [apply IH | done]. }
  destruct (fst (fst m) =? 2); [apply IH|].
  destruct (fst (fst m) =? 3); [apply IH|].
  destruct (fst (fst m) =? 4); [apply IH|].
  done.
Qed.


Lemma tips_ok_set_cal (t : TipStore) (row : list Z) :
  tips_ok t -> Z.of_nat (length row) = 4 -> Forall is_uint16 row -> cal_ok row ->
  tips_ok (with_CalTemp (<[Z.to_nat (CurrentTip t) := row]> (CalTemp t)) t).
Proof.
  intros (((Hdc & Hdn) & Hc16 & Hn8 & Hc8 & Hn) & Hn1 & Hcur & Hrows) Hlen Hrow Hok.
  unfold tips_ok, TipStore_wf, TipStore_dims, with_CalTemp.
  cbn [CalTemp TipName CurrentTip NumberOfTips].
  split; [split; [split; [by apply insert_row_dims | done]|]|].
  - split; [by apply Forall_insert|]. done.
  - split; [done|]. split; [done|].
    intros i Hi. destruct (Hrows i Hi) as [Hci Hni]. split; [|done].
    destruct (decide (i = CurrentTip t)) as [->|Hne].
    + destruct (array_dims_row TIPMAX 4 _ (CurrentTip t) Hdc ltac:(lia)) as [Hlt _].
      by rewrite list_lookup_total_insert_eq.
    + by rewrite list_lookup_total_insert_ne by lia.
Qed.










Lemma boot_tips_ok : tips_ok boot_TipStore.
Proof.
  split; [apply boot_wf|].
  split; [by vm_compute|]. split; [by vm_compute|].
  intros i Hi. change (NumberOfTips boot_TipStore) with 1 in Hi.
  assert (i = 0) as -> by lia.
  split.
  - unfold cal_ok. by vm_compute.
  - split; [done|]. intros j Hj.
    assert (j = 0 \/ j = 1 \/ j = 2 \/ j = 3 \/ j = 4) as Hcase by lia.
    destruct Hcase as [-> | [-> | [-> | [-> | ->]]]]; vm_compute; intuition congruence.
Qed.

(** With the tip sensor open in a calibration, [TipScreen] does not
    return: the first round of the first step reads 1023 on the sensor,
    the displayed temperature is 869, and [SENSORCheck] stays in its
    loop. *)
Lemma TipScreen_calibration_hangs (fuel : nat) :
  let quiet := {| first_edges := []; rest_edges := []; after_edges := [] |} in
  let one := {| first_edges := [(1, 128); (0, 0)]; rest_edges := [];
                after_edges := [] |} in
  let open := {| first_round := (steady_Readings 100 1023 160 700, 0%Q);
                 rest_rounds := []; edges_before := []; edges_after := [] |} in
  let u := {| tip_menu := one; tip_change := quiet;
              tip_steps := fun _ => open; tip_chip := fun _ => 350;
              tip_prompt := quiet; tip_digits := fun _ => quiet;
              tip_message := [] |} in
  let st0 := setup boot_Settings (fun _ => 225) (fun _ => 700) (fun _ => 160)
               (fun _ => 300) in
  TipScreen fuel boot_Settings [u] boot_TipStore boot_Encoder st0 = None.
Proof.
  cbv zeta. unfold TipScreen. rewrite (TipScreen_loop_fuel fuel 0). by vm_compute.
Qed.


(* ===================================================================== *)
(** * The setup menu leaves a consistent configuration, persisted *)
(* ===================================================================== *)










(* ===================================================================== *)
(** * How often the supply voltage is measured *)
(* ===================================================================== *)

Lemma Thermostat_supply (cfg : Settings) (pid_out : Q) (st : Ctl) :
  SensorCounter (Thermostat cfg pid_out st) = SensorCounter st /\
  Vin (Thermostat cfg pid_out st) = Vin st /\
  Vcc (Thermostat cfg pid_out st) = Vcc st /\
  CJTemp (Thermostat cfg pid_out st) = CJTemp st.
Proof.
  unfold Thermostat, drive_heater.
  by destruct (11000 <? Vin (Thermostat_control cfg pid_out st)).
Qed.

Lemma drive_heater_supply (st : Ctl) :
  SensorCounter (drive_heater st) = SensorCounter st /\
  Vin (drive_heater st) = Vin st /\
  Vcc (drive_heater st) = Vcc st /\
  CJTemp (drive_heater st) = CJTemp st.
Proof. unfold drive_heater. by destruct (11000 <? Vin st). Qed.

Lemma SLEEPCheck_supply (reed : Z -> Z) (st : Ctl) :
  SensorCounter (SLEEPCheck reed st) = SensorCounter st /\
  Vin (SLEEPCheck reed st) = Vin st /\
  Vcc (SLEEPCheck reed st) = Vcc st /\
  CJTemp (SLEEPCheck reed st) = CJTemp st.
Proof.
  unfold SLEEPCheck.
  destruct (denoiseAnalog reed <? 32); [done|].
  by destruct (denoiseAnalog reed <? 192).
Qed.

Lemma SENSORCheck_measure_supply (cfg : Settings) (r : Readings) (st : Ctl) :
  let st' := SENSORCheck_measure cfg r st in
  SensorCounter st' = uint8 (SensorCounter st - 1) /\
  Vin st' = (if SensorCounter st =? 0 then getVIN (Vcc st) (vin_ADC r) else Vin st) /\
  Vcc st' = Vcc st /\
  CJTemp st' = (if SensorCounter st =? 0 then inject_Z (getColdJ (coldj_ADC r))
                else CJTemp st).
Proof.
  cbv zeta. unfold SENSORCheck_measure. cbv zeta.
  set (s1 := SLEEPCheck (reed_ADC r) (analogWrite HEATER_OFF st)).
  set (s2 := refresh_supply r s1).
  assert (forall temp s,
            SensorCounter (measure cfg temp s) = SensorCounter s /\
            Vin (measure cfg temp s) = Vin s /\
            Vcc (measure cfg temp s) = Vcc s /\
            CJTemp (measure cfg temp s) = CJTemp s) as Hm by done.
  destruct (Hm (denoiseAnalog (sensor_ADC r)) (drive_heater s2)) as (-> & -> & -> & ->).
  destruct (drive_heater_supply s2) as (-> & -> & -> & ->).
  assert (SensorCounter s2 = uint8 (SensorCounter s1 - 1) /\
          Vin s2 = (if SensorCounter s1 =? 0 then getVIN (Vcc s1) (vin_ADC r)
                    else Vin s1) /\
          Vcc s2 = Vcc s1 /\
          CJTemp s2 = (if SensorCounter s1 =? 0 then inject_Z (getColdJ (coldj_ADC r))
                       else CJTemp s1)) as (-> & -> & -> & ->) by done.
  destruct (SLEEPCheck_supply (reed_ADC r) (analogWrite HEATER_OFF st))
    as (H1 & H2 & H3 & H4).
  fold s1 in H1, H2, H3, H4. rewrite H1, H2, H3, H4. done.
Qed.

Lemma tick_supply (fuel : nat) (cfg : Settings) (r : Readings) (pid_out : Q)
    (st st' : Ctl) :
  tick fuel cfg r pid_out st = Some st' ->
  SensorCounter st' = uint8 (SensorCounter st - 1) /\
  Vin st' = (if SensorCounter st =? 0 then getVIN (Vcc st) (vin_ADC r) else Vin st) /\
  Vcc st' = Vcc st /\
  CJTemp st' = (if SensorCounter st =? 0 then inject_Z (getColdJ (coldj_ADC r))
                else CJTemp st).
Proof.
  unfold tick, SENSORCheck.
  pose proof (SENSORCheck_measure_supply cfg r st) as Hm. cbv zeta in Hm.
  set (m := SENSORCheck_measure cfg r st) in *. clearbody m.
  destruct (Z.le_gt_cases (ShowTemp m) 500) as [Hle|Hgt].
  - rewrite fault_loop_skipped by done. intros [= <-].
    destruct (Thermostat_supply cfg pid_out m) as (-> & -> & -> & ->). done.
  - rewrite fault_loop_diverges by lia. done.
Qed.

Lemma run_ticks_supply (fuel : nat) (cfg : Settings) (inputs : list (Readings * Q))
    (st st' : Ctl) :
  0 <= SensorCounter st <= 255 ->
  Z.of_nat (length inputs) <= SensorCounter st ->
  run_ticks fuel cfg inputs st = Some st' ->
  SensorCounter st' = SensorCounter st - Z.of_nat (length inputs) /\
  Vin st' = Vin st /\ Vcc st' = Vcc st /\ CJTemp st' = CJTemp st.
Proof.
  revert st. induction inputs as [|[r p] inputs IH]; intros st Hc Hlen Hrun.
  - injection Hrun as <-. cbn [length]. split; [lia | done].
  - cbn [length] in Hlen.
    change (run_ticks fuel cfg ((r, p) :: inputs) st)
      with (match tick fuel cfg r p st with
            | Some s => run_ticks fuel cfg inputs s
            | None => None
            end) in Hrun.
    destruct (tick fuel cfg r p st) as [s|] eqn:Htick; [|done].
    destruct (tick_supply fuel cfg r p st s Htick) as (H1 & H2 & H3 & H4).
    destruct (Z.eqb_spec (SensorCounter st) 0) as [H0|_]; [lia|].
    rewrite uint8_small in H1 by lia.
    destruct (IH s ltac:(lia) ltac:(lia) Hrun) as (K1 & K2 & K3 & K4).
    rewrite K1, K2, K3, K4, H1, H2, H3, H4. cbn [length]. split; [lia | done].
Qed.

(** X17: the supply voltage and the cold junction are measured once in
    256 rounds of [SENSORCheck(); Thermostat();].  While the counter
    [SensorCounter] (255 after start-up) has not run down, the rounds
    leave [Vin] and [CJTemp] as they were, so the heater is gated by a
    supply voltage measured up to 255 rounds earlier; the round that
    finds the counter at 0 measures both anew and sets the counter back
    to 255. *)
Theorem supply_measured_every_256
    (fuel : nat) (cfg : Settings) (inputs : list (Readings * Q)) (st st' : Ctl) :
  0 <= SensorCounter st <= 255 ->
  Z.of_nat (length inputs) <= SensorCounter st ->
  run_ticks fuel cfg inputs st = Some st' ->
  SensorCounter boot_Ctl = 255 /\
  (SensorCounter st' = SensorCounter st - Z.of_nat (length inputs) /\
   Vin st' = Vin st /\ CJTemp st' = CJTemp st) /\
  forall (r : Readings) (pid_out : Q) (st'' : Ctl),
    Z.of_nat (length inputs) = SensorCounter st ->
    tick fuel cfg r pid_out st' = Some st'' ->
    SensorCounter st'' = 255 /\
    Vin st'' = getVIN (Vcc st) (vin_ADC r) /\
    CJTemp st'' = inject_Z (getColdJ (coldj_ADC r)).
Proof.
  intros Hc Hlen Hrun.
  destruct (run_ticks_supply fuel cfg inputs st st' Hc Hlen Hrun) as (K1 & K2 & K3 & K4).
  split; [reflexivity|]. split; [exact (conj K1 (conj K2 K4))|].
  intros r pid_out st'' Hfull Htick.
  assert (SensorCounter st' = 0) as H0 by lia.
  destruct (tick_supply fuel cfg r pid_out st' st'' Htick) as (H1 & H2 & _ & H4).
  destruct (Z.eqb_spec (SensorCounter st') 0) as [_|Hne]; [|lia].
  split; [rewrite H1, H0; reflexivity|].
  split; [rewrite H2, K3; reflexivity | exact H4].
Qed.

Lemma supply_measured_every_256_witness :
  let st0 := setup boot_Settings (fun _ => 225) (fun _ => 700) (fun _ => 160)
               (fun _ => 300) in
  let sag := steady_Readings 100 300 160 100 in
  match run_ticks 0 boot_Settings [(sag, 0%Q); (sag, 0%Q); (sag, 0%Q)] st0 with
  | Some st' => Vin st' = Vin st0 /\ SensorCounter st' = 252
  | None => False
  end.
Proof.
  intros st0 sag.
  destruct (run_ticks 0 boot_Settings [(sag, 0%Q); (sag, 0%Q); (sag, 0%Q)] st0)
    as [st'|] eqn:Hrun.
  - assert (SensorCounter st0 = 255) as Hc by (vm_compute; reflexivity).
    assert (0 <= SensorCounter st0 <= 255) as Hr by (rewrite Hc; lia).
    assert (Z.of_nat (length [(sag, 0%Q); (sag, 0%Q); (sag, 0%Q)]) <= SensorCounter st0)
      as Hl by (rewrite Hc; cbn [length]; lia).
    destruct (supply_measured_every_256 0 boot_Settings _ st0 st' Hr Hl Hrun)
      as (_ & (H1 & H2 & _) & _).
    split; [exact H2|]. rewrite H1, Hc. reflexivity.
  - vm_compute in Hrun. discriminate Hrun.
Defined.

(* ===================================================================== *)
(** * What [updateEEPROM] writes *)
(* ===================================================================== *)

Lemma EEPROM_update_same (a v : Z) (e : gmap Z Z) :
  EEPROM_read a e = uint8 v -> EEPROM_update a v e = e.
Proof. intros H. unfold EEPROM_update. by rewrite H, Z.eqb_refl. Qed.

Lemma write_name_loop_same (t : TipStore) (i c : Z) (e : gmap Z Z) (n : nat) :
  (forall j, 0 <= j < Z.of_nat n ->
     EEPROM_read (c + j) e = uint8 (get2 (TipName t) i j)) ->
  for_loop n 0 (write_name t i) (c, e) = (c + Z.of_nat n, e).
Proof.
  induction n as [|n IH]; intros H.
  - simpl. f_equal. lia.
  - rewrite for_loop_last, IH by (intros j Hj; apply H; lia).
    unfold write_name. cbn [fst snd]. rewrite Z.add_0_l.
    rewrite EEPROM_update_same by (apply H; lia).
    f_equal. lia.
Qed.

Lemma write_cal_loop_same (t : TipStore) (i c : Z) (e : gmap Z Z) (n : nat) :
  (forall j, 0 <= j < Z.of_nat n ->
     EEPROM_read (c + 2 * j) e = uint8 (Z.shiftr (get2 (CalTemp t) i j) 8) /\
     EEPROM_read (c + 2 * j + 1) e = uint8 (Z.land (get2 (CalTemp t) i j) 255)) ->
  for_loop n 0 (write_cal t i) (c, e) = (c + 2 * Z.of_nat n, e).
Proof.
  induction n as [|n IH]; intros H.
  - simpl. f_equal. lia.
  - rewrite for_loop_last, IH by (intros j Hj; apply H; lia).
    unfold write_cal. cbn [fst snd]. rewrite Z.add_0_l.
    destruct (H (Z.of_nat n) ltac:(lia)) as [Hhi Hlo].
    rewrite (EEPROM_update_same (c + 2 * Z.of_nat n)) by done.
    rewrite EEPROM_update_same by done.
    f_equal. lia.
Qed.

Lemma write_tip_same (t : TipStore) (i c : Z) (e : gmap Z Z) :
  (forall j, 0 <= j < 6 -> EEPROM_read (c + j) e = uint8 (get2 (TipName t) i j)) ->
  (forall j, 0 <= j < 4 ->
     EEPROM_read (c + 6 + 2 * j) e = uint8 (Z.shiftr (get2 (CalTemp t) i j) 8) /\
     EEPROM_read (c + 6 + 2 * j + 1) e = uint8 (Z.land (get2 (CalTemp t) i j) 255)) ->
  write_tip t i (c, e) = (c + 14, e).
Proof.
  intros Hn Hc. unfold write_tip, for_range.
  change (Z.to_nat (TIPNAMELENGTH - 0)) with 6%nat.
  change (Z.to_nat (4 - 0)) with 4%nat.
  rewrite write_name_loop_same by (change (Z.of_nat 6) with 6; done).
  rewrite write_cal_loop_same.
  - f_equal. change (Z.of_nat 6) with 6. change (Z.of_nat 4) with 4. lia.
  - change (Z.of_nat 6) with 6. change (Z.of_nat 4) with 4. done.
Qed.

Lemma write_tips_same (t : TipStore) (e : gmap Z Z) (n : nat) :
  (forall i, 0 <= i < Z.of_nat n ->
     (forall j, 0 <= j < 6 ->
        EEPROM_read (17 + 14 * i + j) e = uint8 (get2 (TipName t) i j)) /\
     (forall j, 0 <= j < 4 ->
        EEPROM_read (17 + 14 * i + 6 + 2 * j) e
          = uint8 (Z.shiftr (get2 (CalTemp t) i j) 8) /\
        EEPROM_read (17 + 14 * i + 6 + 2 * j + 1) e
          = uint8 (Z.land (get2 (CalTemp t) i j) 255))) ->
  for_loop n 0 (write_tip t) (17, e) = (17 + 14 * Z.of_nat n, e).
Proof.
  induction n as [|n IH]; intros H.
  - simpl. done.
  - rewrite for_loop_last, IH by (intros i Hi; apply H; lia).
    rewrite Z.add_0_l.
    destruct (H (Z.of_nat n) ltac:(lia)) as [Hn Hc].
    rewrite write_tip_same by done.
    f_equal. lia.
Qed.

Lemma updateEEPROM_frame (s : Settings) (t : TipStore) (e : gmap Z Z) (a : Z) :
  0 <= NumberOfTips t ->
  a < 2 \/ 17 + 14 * NumberOfTips t <= a ->
  EEPROM_read a (updateEEPROM s t e) = EEPROM_read a e.
Proof.
  intros Hn Ha. unfold updateEEPROM, for_range. cbv zeta.
  rewrite Z.sub_0_r.
  match goal with
  | |- context [for_loop _ 0 (write_tip t) (17, ?e16)] =>
      pose proof (write_tips_spec t e16 (Z.to_nat (NumberOfTips t))) as Htips;
      cbv zeta in Htips;
      destruct (for_loop (Z.to_nat (NumberOfTips t)) 0 (write_tip t) (17, e16))
        as [c e']
  end.
  rewrite Z2Nat.id in Htips by done.
  cbn [fst snd] in Htips |- *.
  destruct Htips as (_ & Hframe & _).
  rewrite Hframe by lia.
  rewrite !EEPROM_read_update_ne by lia. done.
Qed.

Lemma for_loop_invariant {St : Type} (P : St -> Prop) (n : nat) (i : Z)
    (body : Z -> St -> St) (s : St) :
  P s -> (forall j s, P s -> P (body j s)) -> P (for_loop n i body s).
Proof.
  intros H0 Hstep. induction n as [|n IH]; [done|].
  rewrite for_loop_last. by apply Hstep.
Qed.

Lemma for_loop_erase {St St' : Type} (erase : St -> St') (n : nat) (i : Z)
    (body : Z -> St -> St) (body' : Z -> St' -> St') (s : St) :
  (forall j s, erase (body j s) = body' j (erase s)) ->
  erase (for_loop n i body s) = for_loop n i body' (erase s).
Proof.
  intros Hstep. induction n as [|n IH]; [done|].
  by rewrite !for_loop_last, Hstep, IH.
Qed.

Lemma EEPROM_update_log_fst (idx val : Z) (el : EEPROM_log) :
  fst (EEPROM_update_log idx val el) = EEPROM_update idx val (fst el).
Proof.
  unfold EEPROM_update_log, EEPROM_update.
  by destruct (EEPROM_read idx (fst el) =? uint8 val).
Qed.

Lemma write_tip_log_erase (t : TipStore) (i : Z) (ce : Z * EEPROM_log) :
  erase_log (write_tip_log t i ce) = write_tip t i (erase_log ce).
Proof.
  unfold write_tip_log, write_tip, for_range.
  rewrite (for_loop_erase erase_log _ _ (write_cal_log t i) (write_cal t i)).
  - f_equal.
    apply (for_loop_erase erase_log _ _ (write_name_log t i) (write_name t i)).
    intros j x. unfold erase_log, write_name_log, write_name. cbn [fst snd].
    by rewrite EEPROM_update_log_fst.
  - intros j x. unfold erase_log, write_cal_log, write_cal. cbn [fst snd].
    by rewrite !EEPROM_update_log_fst.
Qed.

Lemma write_tips_log_erase (t : TipStore) (n : nat) (el : EEPROM_log) :
  erase_log (for_loop n 0 (write_tip_log t) (17, el)) =
  for_loop n 0 (write_tip t) (17, fst el).
Proof.
  change (17, fst el) with (erase_log (17, el)).
  apply for_loop_erase. apply write_tip_log_erase.
Qed.

(** Without the record, [updateEEPROM_log] is [updateEEPROM]. *)
Lemma updateEEPROM_log_fst (s : Settings) (t : TipStore) (el : EEPROM_log) :
  fst (updateEEPROM_log s t el) = updateEEPROM s t (fst el).
Proof.
  unfold updateEEPROM_log, updateEEPROM, for_range. cbv zeta.
  match goal with
  | |- fst (snd ?r) = _ => change (fst (snd r)) with (snd (erase_log r))
  end.
  rewrite write_tips_log_erase. by rewrite !EEPROM_update_log_fst.
Qed.

Lemma log_inv_frame (e0 : gmap Z Z) (lo c : Z) (el : EEPROM_log) (a : Z) :
  log_inv e0 lo c el -> c <= a -> EEPROM_read a (fst el) = EEPROM_read a e0.
Proof.
  intros (Hin & _ & Hdiff) Ha.
  destruct (decide (EEPROM_read a (fst el) = EEPROM_read a e0)) as [|Hne]; [done|].
  apply Hdiff in Hne. apply list_elem_of_fmap in Hne as ([a' v] & -> & Hav).
  apply Hin in Hav. cbn [fst] in Ha. lia.
Qed.

Lemma EEPROM_update_log_inv (e0 : gmap Z Z) (lo c idx val : Z) (el : EEPROM_log) :
  log_inv e0 lo c el -> lo <= idx -> c <= idx ->
  log_inv e0 lo (idx + 1) (EEPROM_update_log idx val el).
Proof.
  intros Hinv Hlo Hc.
  pose proof (log_inv_frame e0 lo c el idx Hinv Hc) as Hframe.
  destruct Hinv as (Hin & Hnd & Hdiff).
  unfold EEPROM_update_log.
  destruct (Z.eqb_spec (EEPROM_read idx (fst el)) (uint8 val)) as [Heq|Hne].
  { split; [|done]. intros a v Hav. destruct (Hin a v Hav) as (Ha & H1 & H2).
    split; [lia | done]. }
  unfold log_inv. cbn [fst snd].
  assert (forall a, a <> idx ->
            EEPROM_read a (<[idx := uint8 val]> (fst el)) = EEPROM_read a (fst el))
    as Hother.
  { intros a Ha. unfold EEPROM_read. by rewrite lookup_insert_ne. }
  assert (EEPROM_read idx (<[idx := uint8 val]> (fst el)) = uint8 val) as Hthis.
  { unfold EEPROM_read. by rewrite lookup_insert_eq. }
  split; [|split].
  - intros a v Hav. apply elem_of_app in Hav as [Hav|Hav].
    + destruct (Hin a v Hav) as (Ha & H1 & H2).
      split; [lia|]. split; [done|]. rewrite Hother by lia. done.
    + apply list_elem_of_singleton in Hav. injection Hav as -> ->.
      split; [lia|]. split; [congruence | done].
  - rewrite fmap_app. apply NoDup_app. split; [done|].
    split; [|apply NoDup_singleton].
    intros a Ha Hidx. apply list_elem_of_singleton in Hidx. subst a.
    apply list_elem_of_fmap in Ha as ([a' v] & Heq & Hav).
    apply Hin in Hav. cbn [fst] in Heq. lia.
  - intros a Ha. rewrite fmap_app. apply elem_of_app.
    destruct (decide (a = idx)) as [->|Hai].
    + right. by apply list_elem_of_singleton.
    + left. apply Hdiff. by rewrite <- (Hother a Hai).
Qed.

Lemma write_tip_log_inv (e0 : gmap Z Z) (lo : Z) (t : TipStore) (i : Z)
    (ce : Z * EEPROM_log) :
  lo <= fst ce /\ log_inv e0 lo (fst ce) (snd ce) ->
  lo <= fst (write_tip_log t i ce) /\
  log_inv e0 lo (fst (write_tip_log t i ce)) (snd (write_tip_log t i ce)).
Proof.
  intros H. unfold write_tip_log, for_range.
  apply (for_loop_invariant
           (fun x : Z * EEPROM_log => lo <= fst x /\ log_inv e0 lo (fst x) (snd x))).
  - apply (for_loop_invariant
             (fun x : Z * EEPROM_log => lo <= fst x /\ log_inv e0 lo (fst x) (snd x)));
      [done|].
    intros j x [Hlo Hx]. unfold write_name_log. cbn [fst snd].
    split; [lia|]. apply (EEPROM_update_log_inv e0 lo (fst x)); [done | lia | lia].
  - intros j x [Hlo Hx]. unfold write_cal_log. cbn [fst snd].
    split; [lia|]. replace (fst x + 2) with (fst x + 1 + 1) by lia.
    apply (EEPROM_update_log_inv e0 lo (fst x + 1)); [|lia|lia].
    apply (EEPROM_update_log_inv e0 lo (fst x)); [done | lia | lia].
Qed.

Lemma log_inv_empty (e0 : gmap Z Z) (lo c : Z) : log_inv e0 lo c (e0, []).
Proof.
  split; [|split].
  - intros a v Hav. by apply elem_of_nil in Hav.
  - apply NoDup_nil_2.
  - intros a Ha. by destruct Ha.
Qed.

Lemma write_tips_log_inv (e0 : gmap Z Z) (t : TipStore) (n : nat) (el : EEPROM_log) :
  log_inv e0 2 17 el ->
  log_inv e0 2 (17 + 14 * Z.of_nat n) (snd (for_loop n 0 (write_tip_log t) (17, el))).
Proof.
  intros Hhdr.
  pose proof (write_tips_log_erase t n el) as Herase.
  pose proof (write_tips_spec t (fst el) n) as (Hc & _).
  rewrite <- Herase in Hc.
  assert (2 <= fst (for_loop n 0 (write_tip_log t) (17, el)) /\
          log_inv e0 2 (fst (for_loop n 0 (write_tip_log t) (17, el)))
            (snd (for_loop n 0 (write_tip_log t) (17, el)))) as [_ Hloop].
  { apply (for_loop_invariant
             (fun y : Z * EEPROM_log => 2 <= fst y /\ log_inv e0 2 (fst y) (snd y))).
    - cbn [fst snd]. split; [lia | done].
    - intros j y. apply write_tip_log_inv. }
  set (r := for_loop n 0 (write_tip_log t) (17, el)) in *. clearbody r.
  unfold erase_log in Hc. cbn [fst] in Hc. by rewrite <- Hc.
Qed.

Lemma log_inv_next (e0 : gmap Z Z) (c idx val : Z) (el : EEPROM_log) :
  log_inv e0 2 c el -> 2 <= c -> idx = c ->
  log_inv e0 2 (c + 1) (EEPROM_update_log idx val el).
Proof. intros H Hc ->. apply (EEPROM_update_log_inv e0 2 c); [done | lia | lia]. Qed.

(** The record of one [updateEEPROM] on an EEPROM [e]. *)
Lemma updateEEPROM_log_inv (s : Settings) (t : TipStore) (e : gmap Z Z) :
  0 <= NumberOfTips t ->
  log_inv e 2 (17 + 14 * NumberOfTips t) (updateEEPROM_log s t (e, [])).
Proof.
  intros Hn. unfold updateEEPROM_log, for_range. cbv zeta.
  rewrite Z.sub_0_r.
  rewrite <- (Z2Nat.id (NumberOfTips t)) at 1 by done.
  apply write_tips_log_inv.
  apply (log_inv_next e 16); [|lia|done].
  apply (log_inv_next e 15); [|lia|done].
  apply (log_inv_next e 14); [|lia|done].
  apply (log_inv_next e 13); [|lia|done].
  apply (log_inv_next e 12); [|lia|done].
  apply (log_inv_next e 11); [|lia|done].
  apply (log_inv_next e 10); [|lia|done].
  apply (log_inv_next e 9); [|lia|done].
  apply (log_inv_next e 8); [|lia|done].
  apply (log_inv_next e 7); [|lia|done].
  apply (log_inv_next e 6); [|lia|done].
  apply (log_inv_next e 5); [|lia|done].
  apply (log_inv_next e 4); [|lia|done].
  apply (log_inv_next e 3); [|lia|done].
  apply (log_inv_next e 2); [|lia|done].
  apply log_inv_empty.
Qed.

(** X18: [updateEEPROM] writes only the cells that differ and only in
    its own area.  With every write that [EEPROM.update] issues
    recorded (it writes a cell only when the cell holds another byte),
    for a tip count that is not negative: one call of [updateEEPROM]
    writes no cell twice; every write goes to a cell from 2 to
    16 + 14 * NumberOfTips that held another byte before the call and
    holds the written byte after it; every cell that differs after the
    call was written; so a second call with the same settings and tip
    store issues no write at all and leaves the EEPROM as it is, and a
    call never touches the two identifier cells nor any cell behind the
    last tip (the cells from 17 + 14 * NumberOfTips on), so the profiles
    of deleted tips stay in the EEPROM. *)
Theorem updateEEPROM_writes_changes_only (s : Settings) (t : TipStore) (e : gmap Z Z) :
  0 <= NumberOfTips t ->
  let e' := updateEEPROM s t e in
  let writes := snd (updateEEPROM_log s t (e, [])) in
  fst (updateEEPROM_log s t (e, [])) = e' /\
  NoDup (fst <$> writes) /\
  (forall a v, (a, v) ∈ writes ->
     2 <= a < 17 + 14 * NumberOfTips t /\
     EEPROM_read a e <> v /\ EEPROM_read a e' = v) /\
  (forall a, EEPROM_read a e' <> EEPROM_read a e -> a ∈ (fst <$> writes)) /\
  snd (updateEEPROM_log s t (e', [])) = [] /\
  updateEEPROM s t e' = e' /\
  (forall a, a < 2 \/ 17 + 14 * NumberOfTips t <= a ->
     EEPROM_read a e' = EEPROM_read a e).
Proof.
  intros Hn. cbv zeta.
  assert (updateEEPROM s t (updateEEPROM s t e) = updateEEPROM s t e) as Hsame.
  { destruct (updateEEPROM_spec s t e Hn) as (_ & Hhdr & Htips).
    set (e' := updateEEPROM s t e) in *. clearbody e'.
    destruct Hhdr as (H2 & H3 & H4 & H5 & H6 & H7 & H8 & H9 & H10 & H11 & H12 &
                      H13 & H14 & H15 & H16).
    unfold updateEEPROM, for_range. cbv zeta.
    rewrite (EEPROM_update_same 2) by done.
    rewrite (EEPROM_update_same 3) by done.
    rewrite (EEPROM_update_same 4) by done.
    rewrite (EEPROM_update_same 5) by done.
    rewrite (EEPROM_update_same 6) by done.
    rewrite (EEPROM_update_same 7) by done.
    rewrite (EEPROM_update_same 8) by done.
    rewrite (EEPROM_update_same 9) by done.
    rewrite (EEPROM_update_same 10) by done.
    rewrite (EEPROM_update_same 11) by done.
    rewrite (EEPROM_update_same 12) by done.
    rewrite (EEPROM_update_same 13) by done.
    rewrite (EEPROM_update_same 14) by done.
    rewrite (EEPROM_update_same 15) by done.
    rewrite (EEPROM_update_same 16) by done.
    rewrite Z.sub_0_r.
    rewrite write_tips_same; [done|].
    rewrite Z2Nat.id by done. exact Htips. }
  pose proof (updateEEPROM_log_fst s t (e, [])) as Hfst. cbn [fst] in Hfst.
  pose proof (updateEEPROM_log_inv s t e Hn) as (Hin & Hnd & Hdiff).
  pose proof (updateEEPROM_log_fst s t (updateEEPROM s t e, [])) as Hfst2.
  cbn [fst] in Hfst2.
  pose proof (updateEEPROM_log_inv s t (updateEEPROM s t e) Hn) as (Hin2 & _ & _).
  rewrite Hfst in Hin, Hdiff. rewrite Hfst2, Hsame in Hin2.
  set (e' := updateEEPROM s t e) in *. clearbody e'.
  set (r := updateEEPROM_log s t (e, [])) in *. clearbody r.
  set (r2 := updateEEPROM_log s t (e', [])) in *. clearbody r2.
  split; [done|]. split; [done|]. split; [done|]. split; [done|].
  split.
  { destruct (snd r2) as [|[a v] l]; [done|].
    destruct (Hin2 a v ltac:(left)) as (_ & Hne & Heq). done. }
  split; [done|].
  intros a Ha.
  destruct (decide (EEPROM_read a e' = EEPROM_read a e)) as [|Hne]; [done|].
  apply Hdiff in Hne. apply list_elem_of_fmap in Hne as ([a' v] & -> & Hav).
  apply Hin in Hav. cbn [fst] in Ha. lia.
Qed.

Lemma updateEEPROM_writes_changes_only_witness :
  let e : gmap Z Z := {[0 := 231; 1 := 108; 2 := 1; 31 := 66]} in
  let e' := updateEEPROM boot_Settings boot_TipStore e in
  length (snd (updateEEPROM_log boot_Settings boot_TipStore (e, []))) = 28%nat /\
  EEPROM_read 2 e' = EEPROM_read 2 e /\
  (2 ∉ (fst <$> snd (updateEEPROM_log boot_Settings boot_TipStore (e, [])))) /\
  snd (updateEEPROM_log boot_Settings boot_TipStore (e', [])) = [] /\
  updateEEPROM boot_Settings boot_TipStore e' = e' /\
  EEPROM_read 31 e' = 66.
Proof.
  intros e e'.
  destruct (updateEEPROM_writes_changes_only boot_Settings boot_TipStore e
              ltac:(by vm_compute)) as (_ & _ & Hin & _ & Hnone & Hsame & Hframe).
  split; [by vm_compute|]. split; [by vm_compute|].
  split.
  { intros H2. apply list_elem_of_fmap in H2 as ([a v] & Ha & Hav).
    cbn [fst] in Ha. subst a. destruct (Hin 2 v Hav) as (_ & Hne & Heq).
    apply Hne. rewrite <- Heq. by vm_compute. }
  split; [exact Hnone|]. split; [exact Hsame|].
  unfold e'. rewrite Hframe by (right; by vm_compute). reflexivity.
Defined.

(* ===================================================================== *)
(** * Without a tip the heater is shut off *)
(* ===================================================================== *)

Lemma direct_Output_off (current : Q) :
  (- (1 # 2) <= current)%Q -> direct_Output current 0 = 0%Q.
Proof.
  intros H. unfold direct_Output.
  assert (Qltb (current + 50) 0 = false) as -> by (apply Qltb_false; lra).
  assert (Qltb (current + 25) 0 = false) as -> by (apply Qltb_false; lra).
  assert (Qltb (current + 5) 0 = false) as -> by (apply Qltb_false; lra).
  assert (Qltb (current + (1 # 2)) 0 = false) as -> by (apply Qltb_false; lra).
  done.
Qed.

Lemma Thermostat_Output (cfg : Settings) (pid_out : Q) (st : Ctl) :
  Output (Thermostat cfg pid_out st) = Output (Thermostat_control cfg pid_out st).
Proof.
  unfold Thermostat, drive_heater.
  by destruct (11000 <? Vin (Thermostat_control cfg pid_out st)).
Qed.

Lemma Thermostat_direct (cfg : Settings) (pid_out : Q) (st : Ctl) :
  PIDenable cfg = false ->
  CurrentTemp (Thermostat cfg pid_out st) = CurrentTemp st /\
  Output (Thermostat cfg pid_out st) =
    direct_Output (CurrentTemp st) (mode_Setpoint cfg st).
Proof.
  intros Hdirect. rewrite Thermostat_Output.
  split.
  - unfold Thermostat, drive_heater.
    by destruct (11000 <? Vin (Thermostat_control cfg pid_out st)).
  - unfold Thermostat_control. cbn [Output]. by rewrite Hdirect.
Qed.

Lemma Thermostat_pin_off (cfg : Settings) (pid_out : Q) (st : Ctl) :
  Output (Thermostat_control cfg pid_out st) = 0%Q ->
  (Vin st <= 11000 -> CONTROL_PIN st = HEATER_OFF) ->
  CONTROL_PIN (Thermostat cfg pid_out st) = HEATER_OFF.
Proof.
  intros Hout Hlow. unfold Thermostat, drive_heater.
  assert (Vin (Thermostat_control cfg pid_out st) = Vin st) as -> by done.
  destruct (Z.ltb_spec 11000 (Vin st)) as [Hvin|Hvin].
  - cbn [CONTROL_PIN analogWrite]. rewrite Hout. by vm_compute.
  - assert (CONTROL_PIN (Thermostat_control cfg pid_out st) = CONTROL_PIN st) as -> by done.
    by apply Hlow.
Qed.

(** X19: without a tip the direct control shuts the heater off.  A round
    of [SENSORCheck(); Thermostat();] that returns with a reed reading
    of 192 or more (no tip) under the direct strategy ends with the tip
    marked absent, the setpoint 0, the duty 0 and [HEATER_OFF] on the
    heater pin, whatever the set temperature, the boost mode and the
    supply voltage, as long as the measured temperature is not below
    -0.5 degrees. *)
Theorem no_tip_no_heat
    (fuel : nat) (cfg : Settings) (r : Readings) (pid_out : Q) (st st' : Ctl) :
  PIDenable cfg = false ->
  tick fuel cfg r pid_out st = Some st' ->
  192 <= denoiseAnalog (reed_ADC r) ->
  (- (1 # 2) <= CurrentTemp st')%Q ->
  TipIsPresent st' = false /\ Setpoint st' = 0%Q /\ Output st' = 0%Q /\
  CONTROL_PIN st' = HEATER_OFF.
Proof.
  intros Hdirect Htick Hreed. unfold tick in Htick.
  destruct (SENSORCheck fuel cfg r st) as [s|] eqn:Hsens; [|done].
  injection Htick as <-.
  destruct (SENSORCheck_Some fuel cfg r st s Hsens) as (-> & _).
  destruct (SENSORCheck_measure_modes cfg r st) as (_ & _ & _ & Hoff & Htip).
  cbv zeta in Hoff, Htip.
  destruct (SLEEPCheck_modes (reed_ADC r) (analogWrite HEATER_OFF st)) as (_ & _ & Hhigh).
  cbv zeta in Hhigh. destruct (Hhigh Hreed) as (Hp & _ & Ho).
  rewrite Ho in Hoff. rewrite Hp in Htip.
  pose proof (SENSORCheck_measure_low cfg r st) as Hlow.
  clear Hsens Hhigh Hp Ho.
  set (m := SENSORCheck_measure cfg r st) in *. clearbody m.
  assert (mode_Setpoint cfg m = 0%Q) as Hset by (unfold mode_Setpoint; by rewrite Hoff).
  destruct (Thermostat_Setpoint cfg pid_out m) as (Hsp & _ & Hpres & _).
  destruct (Thermostat_direct cfg pid_out m Hdirect) as (Hcur & Hout').
  rewrite Hcur. intros Htemp.
  rewrite Hset in Hout'. rewrite (direct_Output_off _ Htemp) in Hout'.
  assert (Output (Thermostat_control cfg pid_out m) = 0%Q) as Hout
    by (rewrite <- Hout'; symmetry; apply Thermostat_Output).
  split; [by rewrite Hpres|]. split; [by rewrite Hsp|]. split; [exact Hout'|].
  apply Thermostat_pin_off; [exact Hout|].
  intros Hvin. by destruct (Hlow Hvin) as [-> _].
Qed.

Lemma no_tip_no_heat_witness :
  let st0 := setup boot_Settings (fun _ => 225) (fun _ => 700) (fun _ => 160)
               (fun _ => 300) in
  let r := steady_Readings 250 300 160 700 in
  CONTROL_PIN (Thermostat boot_Settings 0 (SENSORCheck_measure boot_Settings r st0))
    = HEATER_OFF.
Proof.
  intros st0 r.
  assert (tick 0 boot_Settings r 0 st0 =
          Some (Thermostat boot_Settings 0 (SENSORCheck_measure boot_Settings r st0)))
    as Htick by (vm_compute; reflexivity).
  assert (192 <= denoiseAnalog (reed_ADC r)) as Hreed by (vm_compute; congruence).
  assert (- (1 # 2) <=
          CurrentTemp (Thermostat boot_Settings 0
                         (SENSORCheck_measure boot_Settings r st0)))%Q as Htemp
    by (vm_compute; congruence).
  exact (proj2 (proj2 (proj2
    (no_tip_no_heat 0 boot_Settings r 0 st0 _ eq_refl Htick Hreed Htemp)))).
Defined.

(* ===================================================================== *)
(** * The conversions of the reference and cold-junction readings *)
(* ===================================================================== *)

Lemma denoiseAnalog_range (ADC : Z -> Z) :
  ten_bit ADC -> 0 <= denoiseAnalog ADC <= 1023.
Proof.
  intros Hten. unfold denoiseAnalog. cbv zeta.
  rewrite sample_loop_exact by (done || lia).
  pose proof (sum_samples_bounds ADC 32 Hten ltac:(lia)) as Hb.
  change (Z.of_nat 32) with 32 in Hb.
  rewrite Z.shiftr_div_pow2 by lia. change (2 ^ 5) with 32.
  split; [apply Z.div_pos; lia | apply Z.div_le_upper_bound; lia].
Qed.

Lemma getVCC_result_range (ADC : Z -> Z) :
  ten_bit ADC -> 0 <= getVCC_result ADC <= 1023.
Proof.
  intros Hten. unfold getVCC_result. cbv zeta.
  rewrite sample_loop_exact by (done || lia).
  pose proof (sum_samples_bounds ADC 16 Hten ltac:(lia)) as Hb.
  change (Z.of_nat 16) with 16 in Hb.
  rewrite Z.shiftr_div_pow2 by lia. change (2 ^ 4) with 16.
  split; [apply Z.div_pos; lia | apply Z.div_le_upper_bound; lia].
Qed.

Lemma Qtruncate_Qmake (n : Z) (d : positive) :
  0 <= n -> Qtruncate (n # d) = n / Zpos d.
Proof. intros Hn. unfold Qtruncate. cbn [Qnum Qden]. by apply Z.quot_div_nonneg. Qed.

(** The constant of [getVIN] is the [double] nearest to 179.474, and the
    rounding of the quotient is seen in the result: for a mean reading of
    711 at 5023 mV the exact quotient is 19898.9993 and the [double]
    quotient is 19899. *)
Lemma getVIN_rounds_quotient :
  float32_div (float32_of_Z 179474) (float32_of_Z 1000) = float32_179_474 /\
  getVIN 5023 (fun _ => 711) = 19899 /\
  Qtruncate (inject_Z (711 * 5023) / (179474 # 1000))%Q = 19898.
Proof. by vm_compute. Qed.

(** X20: within their working ranges the conversions of the reference
    and cold-junction readings have no wrap-around of the 16-bit result.
    For ten-bit conversions: a mean reference reading of 18 or more gives
    [getVCC] = 1125300 / mean in integer division, from 1100 to 62516 mV;
    and a mean cold-junction reading of 127 or more gives [getColdJ] =
    0.9 * mean - 113.836 rounded down, from 0 to 806. *)
Theorem supply_conversions_exact (ADC : Z -> Z) :
  ten_bit ADC ->
  let m := denoiseAnalog ADC in
  let v := getVCC_result ADC in
  (0 <= m <= 1023 /\ 0 <= v <= 1023) /\
  (18 <= v -> getVCC ADC = 1125300 / v /\ 1100 <= getVCC ADC <= 62516) /\
  (127 <= m ->
   getColdJ ADC = (9000 * m - 1138360) / 10000 /\ 0 <= getColdJ ADC <= 806).
Proof.
  intros Hten. cbv zeta.
  pose proof (denoiseAnalog_range ADC Hten) as Hm.
  pose proof (getVCC_result_range ADC Hten) as Hv.
  split; [done|]. split.
  - intros H18. unfold getVCC.
    set (v := getVCC_result ADC) in *. clearbody v.
    assert (1100 <= 1125300 / v <= 62516) as Hq.
    { split; [apply Z.div_le_lower_bound; lia|].
      assert (1125300 / v < 62517) by (apply Z.div_lt_upper_bound; lia). lia. }
    rewrite uint16_small by lia. done.
  - intros H127. unfold getColdJ. cbv zeta.
    set (m := denoiseAnalog ADC) in *. clearbody m.
    assert ((inject_Z m * (9 # 10) - (113836 # 1000))%Q
            = (m * 9 * 1000 + -113836 * (1 * 10)) # 10000) as ->.
    { unfold Qminus, Qplus, Qopp, Qmult, inject_Z. cbn. f_equal. }
    rewrite Qtruncate_Qmake by lia.
    replace (m * 9 * 1000 + -113836 * (1 * 10)) with (9000 * m - 1138360) by lia.
    assert (0 <= (9000 * m - 1138360) / 10000 <= 806) as Hq.
    { split; [apply Z.div_pos; lia|].
      assert ((9000 * m - 1138360) / 10000 < 807)
        by (apply Z.div_lt_upper_bound; lia). lia. }
    rewrite uint16_small by lia. done.
Qed.

Lemma supply_conversions_exact_witness :
  getVCC (fun _ => 225) = 5001 /\
  getColdJ (fun _ => 160) = 30.
Proof.
  assert (ten_bit (fun _ => 225)) as H1 by (intros i _; lia).
  assert (ten_bit (fun _ => 160)) as H3 by (intros i _; lia).
  destruct (supply_conversions_exact (fun _ => 225) H1) as (_ & Hvcc & _).
  destruct (supply_conversions_exact (fun _ => 160) H3) as (_ & _ & Hcj).
  split.
  - rewrite (proj1 (Hvcc ltac:(by vm_compute))). by vm_compute.
  - rewrite (proj1 (Hcj ltac:(by vm_compute))). by vm_compute.
Defined.

(* ===================================================================== *)
(** * How far one edge moves the encoder *)
(* ===================================================================== *)

(** X21: one edge moves the encoder by at most one step.  For an encoder
    whose position lies within its bounds and whose bounds stay a step
    away from the ends of the 16-bit range, the interrupt handler moves
    the count by at most two steps (the double step) and the position
    read by [getRotary] by at most one step, in whichever direction;
    and the bounds and the step are left as configured. *)
Theorem encoder_edge_step (PINB PIND : Z) (e : Encoder) (s : Z) :
  in_bounds e ->
  - s <= countStep e <= s ->
  -32768 <= countMin e - s -> countMax e + s <= 32767 ->
  let e' := PCINT0_vect PINB PIND e in
  Z.abs (count e' - count e) <= 2 * s /\
  Z.abs (getRotary e' - getRotary e) <= s /\
  countMin e' = countMin e /\ countMax e' = countMax e /\ countStep e' = countStep e.
Proof.
  unfold in_bounds. intros Hin Hs Hlo Hhi. cbv zeta.
  assert (forall c c' : Z, Z.abs (c' - c) <= 2 * s ->
            Z.abs (Z.shiftr c' ROTARY_TYPE - Z.shiftr c ROTARY_TYPE) <= s) as Hhalf.
  { intros c c' Hc. unfold ROTARY_TYPE. rewrite !Z.shiftr_div_pow2 by lia.
    change (2 ^ 1) with 2.
    pose proof (Z.div_mod c 2 ltac:(lia)). pose proof (Z.mod_pos_bound c 2 ltac:(lia)).
    pose proof (Z.div_mod c' 2 ltac:(lia)). pose proof (Z.mod_pos_bound c' 2 ltac:(lia)).
    lia. }
  unfold PCINT0_vect. cbv zeta.
  set (a := Z.land PINB 1). set (b := Z.land (Z.shiftr PIND 7) 1). clearbody a b.
  destruct (negb (a =? a0 e)); [|split; [lia|split; [apply Hhalf; lia | done]]].
  destruct (negb (b =? b0 e)); [|split; [cbn; lia|split; [apply Hhalf; cbn; lia | done]]].
  cbn [count countMin countMax countStep]. unfold getRotary. cbn [count].
  set (delta := if a =? b then countStep e else int16 (- countStep e)).
  assert (- s <= delta <= s) as Hd.
  { unfold delta. destruct (a =? b); [done|]. rewrite int16_small by lia. lia. }
  clearbody delta.
  assert (forall c, countMin e <= c <= countMax e ->
            countMin e <= constrain (int16 (c + delta)) (countMin e) (countMax e)
              <= countMax e /\
            Z.abs (constrain (int16 (c + delta)) (countMin e) (countMax e) - c) <= s)
    as Hstep.
  { intros c Hc. rewrite int16_small by lia. unfold constrain.
    destruct (Z.ltb_spec (c + delta) (countMin e)); [lia|].
    destruct (Z.ltb_spec (countMax e) (c + delta)); lia. }
  destruct (Hstep (count e) Hin) as [Hin1 Hd1].
  set (count1 := constrain (int16 (count e + delta)) (countMin e) (countMax e)) in *.
  clearbody count1.
  destruct (Hstep count1 Hin1) as [Hin2 Hd2].
  set (count2 := constrain (int16 (count1 + delta)) (countMin e) (countMax e)) in *.
  clearbody count2.
  assert (Z.abs ((if to_bool ROTARY_TYPE && negb (eqb (a =? b) (ab0 e))
                  then count2 else count1) - count e) <= 2 * s) as Hc
    by (destruct (to_bool ROTARY_TYPE && negb (eqb (a =? b) (ab0 e))); lia).
  split; [exact Hc|]. split; [by apply Hhalf | done].
Qed.

Lemma encoder_edge_step_witness :
  let e := setRotary false 0 5 1 2 boot_Encoder in
  Z.abs (getRotary (PCINT0_vect 1 128 e) - getRotary e) <= 1 /\
  getRotary (PCINT0_vect 1 128 e) = 3.
Proof.
  intros e. split; [|by vm_compute].
  refine (proj1 (proj2 (encoder_edge_step 1 128 e 1 _ _ _ _)));
    vm_compute; try split; congruence.
Defined.

(* ===================================================================== *)
(** * The setpoint stays within the range of the station *)
(* ===================================================================== *)

Lemma boost_timer_SetTemp (cfg : Settings) (now : Z) (st : Ctl) (b : Buttons) :
  SetTemp (fst (boost_timer cfg now st b)) = SetTemp st.
Proof.
  unfold boost_timer.
  destruct (inBoostMode st && to_bool (timeOfBoost cfg)); [|done].
  by destruct (timeOfBoost cfg <=? _).
Qed.

Lemma ROTARYCheck_SetTemp
    (SetupScreen : Settings -> Ctl -> Settings * Ctl)
    (enc : Encoder) (c : Z) (clk : Clock) (cfg : Settings) (st : Ctl) (b : Buttons) :
  (forall cfg0 st0,
     SetTemp (snd (SetupScreen cfg0 st0)) = SetTemp st0 /\
     (Settings_in_range cfg0 -> Settings_in_range (fst (SetupScreen cfg0 st0)))) ->
  Settings_in_range cfg ->
  let res := ROTARYCheck SetupScreen enc c clk cfg st b in
  SetTemp (snd (fst res)) = uint16 (getRotary enc) /\
  Settings_in_range (fst (fst res)).
Proof.
  intros Hsetup Hcfg. cbv zeta. unfold ROTARYCheck. cbv zeta.
  destruct (negb (to_bool c) && to_bool (c0 b)).
  - cbn [buttonmillis].
    destruct (500 <=? uint32 (after_wait clk - at_press clk)).
    + destruct (Hsetup cfg (beep cfg (set_SetTemp (uint16 (getRotary enc)) st)))
        as [Hkeep Hrange].
      destruct (SetupScreen cfg (beep cfg (set_SetTemp (uint16 (getRotary enc)) st)))
        as [cfg1 st1].
      cbn [fst snd] in Hkeep, Hrange.
      match goal with |- context [boost_timer ?a ?n ?s ?bb] =>
        pose proof (boost_timer_SetTemp a n s bb) as Ht;
        destruct (boost_timer a n s bb) as [st2 b2] end.
      cbn [fst snd] in Ht |- *. rewrite Ht, Hkeep. split; [done | by apply Hrange].
    + match goal with |- context [boost_timer ?a ?n ?s ?bb] =>
        pose proof (boost_timer_SetTemp a n s bb) as Ht;
        destruct (boost_timer a n s bb) as [st2 b2] end.
      cbn [fst snd] in Ht |- *. rewrite Ht. done.
  - match goal with |- context [boost_timer ?a ?n ?s ?bb] =>
      pose proof (boost_timer_SetTemp a n s bb) as Ht;
      destruct (boost_timer a n s bb) as [st2 b2] end.
    cbn [fst snd] in Ht |- *. rewrite Ht. done.
Qed.

Lemma Thermostat_SetTemp (cfg : Settings) (pid_out : Q) (st : Ctl) :
  SetTemp (Thermostat cfg pid_out st) = SetTemp st.
Proof.
  unfold Thermostat, drive_heater.
  by destruct (11000 <? Vin (Thermostat_control cfg pid_out st)).
Qed.

Lemma mode_Setpoint_range (cfg : Settings) (st : Ctl) :
  Settings_in_range cfg -> TEMP_MIN <= SetTemp st <= TEMP_MAX ->
  (0 <= mode_Setpoint cfg st <= 500)%Q.
Proof.
  intros (H1 & H2 & H3 & _) Hset. unfold TEMP_MIN, TEMP_MAX in *.
  unfold mode_Setpoint.
  assert (forall z, 0 <= z <= 500 -> (0 <= inject_Z z <= 500)%Q) as Hq.
  { intros z Hz. change 0%Q with (inject_Z 0). change 500%Q with (inject_Z 500).
    rewrite <- !Zle_Qle. done. }
  destruct (inOffMode st); [split; [apply Qle_refl|done]|].
  destruct (inSleepMode st); [apply Hq; lia|].
  destruct (inBoostMode st); apply Hq; [rewrite uint16_small by lia|]; lia.
Qed.

Lemma Thermostat_inBoostMode (cfg : Settings) (pid_out : Q) (st : Ctl) :
  inBoostMode (Thermostat cfg pid_out st) = inBoostMode st.
Proof.
  unfold Thermostat, drive_heater.
  by destruct (11000 <? Vin (Thermostat_control cfg pid_out st)).
Qed.

Lemma mode_Setpoint_calibration (cfg : Settings) (st : Ctl) :
  Settings_in_range cfg -> 100 <= SetTemp st <= 500 ->
  (0 <= mode_Setpoint cfg st <= 600)%Q /\
  (inBoostMode st = false -> (mode_Setpoint cfg st <= 500)%Q).
Proof.
  intros (H1 & H2 & H3 & _) Hset.
  unfold mode_Setpoint.
  assert (forall z hi, 0 <= z <= hi -> (0 <= inject_Z z <= inject_Z hi)%Q) as Hq.
  { intros z hi Hz. change 0%Q with (inject_Z 0). rewrite <- !Zle_Qle. done. }
  destruct (inOffMode st); [by split|].
  destruct (inSleepMode st).
  { split; [apply (Hq _ 600) | intros _; apply (Hq _ 500)]; lia. }
  destruct (inBoostMode st).
  { split; [|done]. rewrite uint16_small by lia. apply (Hq _ 600). lia. }
  split; [apply (Hq _ 600) | intros _; apply (Hq _ 500)]; lia.
Qed.

(** A round of a calibration step keeps the set temperature and the
    boost mode, and works with a setpoint of at most 600. *)
Lemma tick_calibration (fuel : nat) (cfg : Settings) (r : Readings) (pid_out : Q)
    (st st' : Ctl) :
  Settings_in_range cfg -> 100 <= SetTemp st <= 500 ->
  tick fuel cfg r pid_out st = Some st' ->
  (SetTemp st' = SetTemp st /\ inBoostMode st' = inBoostMode st) /\
  (0 <= Setpoint st' <= 600)%Q /\
  (inBoostMode st = false -> (Setpoint st' <= 500)%Q).
Proof.
  intros Hcfg Hset. unfold tick.
  destruct (SENSORCheck fuel cfg r st) as [s|] eqn:Hsens; [|done].
  intros [= <-].
  destruct (SENSORCheck_Some _ _ _ _ _ Hsens) as (-> & _).
  destruct (SENSORCheck_measure_modes cfg r st) as (Hm & Hb & _).
  cbv zeta in Hm, Hb. clear Hsens.
  set (m := SENSORCheck_measure cfg r st) in *. clearbody m.
  rewrite Thermostat_SetTemp, Thermostat_inBoostMode.
  destruct (Thermostat_Setpoint cfg pid_out m) as (-> & _).
  split; [done|]. rewrite <- Hb. apply mode_Setpoint_calibration; [done | lia].
Qed.

Lemma run_ticks_calibration (fuel : nat) (cfg : Settings) (rounds : list (Readings * Q))
    (v : Z) (boost : bool) (st st' : Ctl) :
  Settings_in_range cfg -> 100 <= v <= 500 ->
  SetTemp st = v /\ inBoostMode st = boost ->
  ((0 <= Setpoint st <= 600)%Q /\ (boost = false -> (Setpoint st <= 500)%Q)) \/
    rounds <> [] ->
  run_ticks fuel cfg rounds st = Some st' ->
  (SetTemp st' = v /\ inBoostMode st' = boost) /\
  (0 <= Setpoint st' <= 600)%Q /\
  (boost = false -> (Setpoint st' <= 500)%Q).
Proof.
  intros Hcfg Hv. revert st.
  induction rounds as [|rp rounds IH]; intros st [Hset Hb] Hstart.
  { intros [= <-]. by destruct Hstart as [[H1 H2]|]. }
  cbn [run_ticks].
  destruct (tick fuel cfg (fst rp) (snd rp) st) as [st1|] eqn:Htick; [|done].
  destruct (tick_calibration fuel cfg (fst rp) (snd rp) st st1 Hcfg ltac:(lia) Htick)
    as ((Hset1 & Hb1) & Hp & Hq).
  apply IH.
  - split; congruence.
  - left. split; [done|]. intros Hoff. apply Hq. congruence.
Qed.

(** X22: the setpoint of the heater control stays within 500 in the
    main loop and within 600 in a calibration.  With the encoder set up
    for the temperature range, as [setup] and [SetupScreen] leave it,
    and settings within the ranges of the input screens, the round
    [ROTARYCheck(); SENSORCheck(); Thermostat();] of [loop()] works with
    a set temperature from [TEMP_MIN] to [TEMP_MAX] and, when it
    returns, with a setpoint from 0 to 500, in whatever mode and also in
    boost mode; this for any setup menu that leaves the settings within
    their ranges and restores the set temperature.  The rounds
    [SENSORCheck(); Thermostat();] of a calibration step, on a
    consistent tip store and with settings within their ranges, work
    with the calibration point of the step as the set temperature,
    within 100..500, and leave the boost mode as it was on entry: the
    setpoint they leave is from 0 to 600, and at most 500 when the
    station was not in boost mode. *)
Theorem setpoint_at_most_500
    (SetupScreen : Settings -> Ctl -> Settings * Ctl)
    (enc : Encoder) (c : Z) (clk : Clock) (cfg : Settings) (st : Ctl) (b : Buttons)
    (fuel : nat) (r : Readings) (pid_out : Q) :
  (forall cfg0 st0,
     SetTemp (snd (SetupScreen cfg0 st0)) = SetTemp st0 /\
     (Settings_in_range cfg0 -> Settings_in_range (fst (SetupScreen cfg0 st0)))) ->
  Settings_in_range cfg ->
  ranged TEMP_MIN TEMP_MAX enc ->
  let res := ROTARYCheck SetupScreen enc c clk cfg st b in
  (forall st' : Ctl,
     tick fuel (fst (fst res)) r pid_out (snd (fst res)) = Some st' ->
     TEMP_MIN <= SetTemp st' <= TEMP_MAX /\
     (0 <= Setpoint st' <= 500)%Q) /\
  (forall (t : TipStore) (CalStep : Z) (first : Readings * Q)
          (rest : list (Readings * Q)) (st0 st' : Ctl),
     tips_ok t -> 0 <= CalStep < 3 ->
     run_ticks fuel cfg (first :: rest) (CalibrationScreen_entry CalStep t st0)
       = Some st' ->
     (SetTemp st' = get2 (CalTemp t) (CurrentTip t) CalStep /\
      100 <= SetTemp st' <= 500 /\ inBoostMode st' = inBoostMode st0) /\
     (0 <= Setpoint st' <= 600)%Q /\
     (inBoostMode st0 = false -> (Setpoint st' <= 500)%Q)).
Proof.
  intros Hsetup Hcfg Henc. cbv zeta. split.
  - intros st'.
    destruct (ROTARYCheck_SetTemp SetupScreen enc c clk cfg st b Hsetup Hcfg)
      as [Hset Hcfg'].
    cbv zeta in Hset, Hcfg'.
    set (res := ROTARYCheck SetupScreen enc c clk cfg st b) in *. clearbody res.
    pose proof (ranged_getRotary _ _ _ Henc) as Hpos.
    unfold TEMP_MIN, TEMP_MAX in Hpos.
    rewrite uint16_small in Hset by lia.
    unfold tick. intros Htick.
    destruct (SENSORCheck fuel (fst (fst res)) r (snd (fst res))) as [s|] eqn:Hsens;
      [|done].
    injection Htick as <-.
    destruct (SENSORCheck_Some _ _ _ _ _ Hsens) as (-> & _).
    destruct (SENSORCheck_measure_modes (fst (fst res)) r (snd (fst res))) as (Hm & _).
    cbv zeta in Hm. clear Hsens.
    set (m := SENSORCheck_measure (fst (fst res)) r (snd (fst res))) in *. clearbody m.
    rewrite Thermostat_SetTemp.
    destruct (Thermostat_Setpoint (fst (fst res)) pid_out m) as (-> & _).
    assert (TEMP_MIN <= SetTemp m <= TEMP_MAX) as Hrange
      by (unfold TEMP_MIN, TEMP_MAX; lia).
    split; [done|]. by apply mode_Setpoint_range.
  - intros t CalStep first rest st0 st' Hok Hstep Hrun.
    destruct Hok as (_ & _ & Hcur & Hrows).
    destruct (Hrows (CurrentTip t) Hcur) as [(Hc0 & Hc1 & Hc2 & Hc3) _].
    assert (100 <= get2 (CalTemp t) (CurrentTip t) CalStep <= 500) as Hpoint.
    { assert (CalStep = 0 \/ CalStep = 1 \/ CalStep = 2) as [-> | [-> | ->]] by lia;
        unfold get2;
        [change (Z.to_nat 0) with 0%nat | change (Z.to_nat 1) with 1%nat
        |change (Z.to_nat 2) with 2%nat]; lia. }
    assert (SetTemp (CalibrationScreen_entry CalStep t st0)
              = get2 (CalTemp t) (CurrentTip t) CalStep /\
            inBoostMode (CalibrationScreen_entry CalStep t st0) = inBoostMode st0)
      as Hentry by done.
    assert (first :: rest <> []) as Hsome by done.
    destruct (run_ticks_calibration fuel cfg (first :: rest)
                (get2 (CalTemp t) (CurrentTip t) CalStep) (inBoostMode st0)
                (CalibrationScreen_entry CalStep t st0) st' Hcfg Hpoint
                Hentry (or_intror Hsome) Hrun)
      as ((Hset & Hb) & Hp & Hq).
    split; [|done]. split; [done|]. split; [lia | done].
Qed.

Lemma setpoint_at_most_500_witness :
  let st0 := setup boot_Settings (fun _ => 225) (fun _ => 700) (fun _ => 160)
               (fun _ => 300) in
  let enc := setRotary false TEMP_MIN TEMP_MAX TEMP_STEP 400 boot_Encoder in
  let clk := {| at_press := 0; after_wait := 100; at_boost := 100; at_timer := 200 |} in
  let b := {| c0 := 1; buttonmillis := 0; boostmillis := 0; goneSeconds := 0 |} in
  let res := ROTARYCheck (fun cfg st => (cfg, st)) enc 0 clk boot_Settings st0 b in
  let warm := steady_Readings 100 300 160 700 in
  let st' := Thermostat boot_Settings 0
               (SENSORCheck_measure boot_Settings warm (snd (fst res))) in
  let t := with_CalTemp (<[0%nat := [216; 308; 480; 30]]> (CalTemp boot_TipStore))
             boot_TipStore in
  let cal := run_ticks 0 boot_Settings [(warm, 0%Q)]
               (CalibrationScreen_entry 2 t (snd (fst res))) in
  (inBoostMode (snd (fst res)) = true /\
   (Setpoint st' == 450)%Q /\ (Setpoint st' <= 500)%Q) /\
  option_map (fun s => (SetTemp s, Qred (Setpoint s), inBoostMode s)) cal
    = Some (480, 530%Q, true) /\
  exists s, cal = Some s /\ (Setpoint s <= 600)%Q.
Proof.
  intros st0 enc clk b res warm st' t cal.
  assert (Settings_in_range boot_Settings) as Hcfg
    by (unfold Settings_in_range; vm_compute; intuition congruence).
  assert (ranged TEMP_MIN TEMP_MAX enc) as Henc
    by (apply setRotary_ranged; vm_compute; try split; congruence).
  assert (tick 0 (fst (fst res)) warm 0 (snd (fst res)) = Some st') as Htick
    by (vm_compute; reflexivity).
  assert (tips_ok t) as Hok.
  { apply (tips_ok_set_cal boot_TipStore [216; 308; 480; 30] boot_tips_ok);
      [reflexivity | | unfold cal_ok; vm_compute; intuition congruence].
    unfold is_uint16. repeat (apply Forall_cons_2; [lia|]). apply Forall_nil_2. }
  destruct (setpoint_at_most_500 (fun cfg st => (cfg, st)) enc 0 clk
              boot_Settings st0 b 0 warm 0
              (fun cfg0 st0 => conj eq_refl (fun H => H)) Hcfg Henc) as [Hloop Hcal].
  split; [|split].
  - split; [by vm_compute|]. split; [by vm_compute|].
    exact (proj2 (proj2 (Hloop st' Htick))).
  - by vm_compute.
  - destruct cal as [s|] eqn:Hrun.
    + exists s. split; [reflexivity|].
      destruct (Hcal t 2 (warm, 0%Q) [] (snd (fst res)) s Hok ltac:(lia) Hrun)
        as (_ & (_ & Hmax) & _).
      exact Hmax.
    + exfalso. revert Hrun. subst cal. vm_compute. discriminate.
Defined.
